(** * UConn syllabi scraper: the extraction core, embedded and verified

    The development follows the two source modules of the scraper,
    [spiders/uconn_syllabi_spider.py] and [pipelines.py].

    Strings are Rocq strings; a character stands for a code point below 128
    and the character classes below are Python's restricted to that range
    (text outside ASCII is outside the model).  The parsed HTML page is
    represented by the node lists that the page's CSS queries select, and the
    library calls ([urlparse], [parse_qs], [hashlib.sha1], [urljoin], and the
    URL handling of [scrapy.Request]) are an interface with one computable
    instance.  A call that can raise returns an [option], [None] standing
    for the exception. *)

From Stdlib Require Import String Ascii List Bool Arith NArith Lia.
Import ListNotations.
Open Scope string_scope.

(* ====================================================================== *)
(** ** Python string primitives used by the scraper *)
(* ====================================================================== *)

Module Py.

Definition code (c : ascii) : nat := nat_of_ascii c.

Definition in_range (lo hi : nat) (c : ascii) : bool :=
  (lo <=? code c)%nat && (code c <=? hi)%nat.

(** [str.isspace] on one character: TAB, LF, VT, FF, CR, the four
    separators FS, GS, RS, US, and the space. *)
Definition isspace (c : ascii) : bool := in_range 9 13 c || in_range 28 32 c.

Definition isdecimal (c : ascii) : bool := in_range 48 57 c.
Definition isupper (c : ascii) : bool := in_range 65 90 c.
Definition islower (c : ascii) : bool := in_range 97 122 c.

(** The regular-expression class [\w]. *)
Definition isword (c : ascii) : bool :=
  isdecimal c || isupper c || islower c || (code c =? 95)%nat.

Definition upper_char (c : ascii) : ascii :=
  if islower c then ascii_of_nat (code c - 32) else c.
Definition lower_char (c : ascii) : ascii :=
  if isupper c then ascii_of_nat (code c + 32) else c.

Fixpoint smap (f : ascii -> ascii) (s : string) : string :=
  match s with
  | EmptyString => EmptyString
  | String c s' => String (f c) (smap f s')
  end.

Fixpoint sfilter (p : ascii -> bool) (s : string) : string :=
  match s with
  | EmptyString => EmptyString
  | String c s' => if p c then String c (sfilter p s') else sfilter p s'
  end.

Fixpoint sforall (p : ascii -> bool) (s : string) : bool :=
  match s with
  | EmptyString => true
  | String c s' => p c && sforall p s'
  end.

Definition is_empty (s : string) : bool :=
  match s with EmptyString => true | _ => false end.

(** [s.upper()], [s.lower()] *)
Definition upper (s : string) : string := smap upper_char s.
Definition lower (s : string) : string := smap lower_char s.

(** [s.isdigit()]: false on the empty string. *)
Definition isdigit (s : string) : bool := negb (is_empty s) && sforall isdecimal s.

(** [s.lstrip()], [s.rstrip()], [s.strip()] *)
Fixpoint lstrip (s : string) : string :=
  match s with
  | EmptyString => EmptyString
  | String c s' => if isspace c then lstrip s' else s
  end.

Fixpoint rstrip (s : string) : string :=
  match s with
  | EmptyString => EmptyString
  | String c s' =>
      let r := rstrip s' in
      if isspace c && is_empty r then EmptyString else String c r
  end.

Definition strip (s : string) : string := lstrip (rstrip s).

(** The leading run of non-whitespace characters and what follows it. *)
Fixpoint token (s : string) : string * string :=
  match s with
  | EmptyString => (EmptyString, EmptyString)
  | String c s' =>
      if isspace c then (EmptyString, s)
      else let (t, r) := token s' in (String c t, r)
  end.

(** [s.split(None, 1)]: skip leading whitespace; the first token; skip the
    whitespace run after it; the remainder as it is, when there is one. *)
Definition split_none_1 (s : string) : list string :=
  match lstrip s with
  | EmptyString => []
  | s1 =>
      let (tok, rest) := token s1 in
      match lstrip rest with
      | EmptyString => [tok]
      | r => [tok; r]
      end
  end.

(** [sub in s] *)
Fixpoint contains (sub s : string) : bool :=
  prefix sub s ||
  match s with
  | EmptyString => false
  | String _ s' => contains sub s'
  end.

(** [s.endswith(suf)] *)
Fixpoint endswith (suf s : string) : bool :=
  (s =? suf) ||
  match s with
  | EmptyString => false
  | String _ s' => endswith suf s'
  end.

(** [s.replace(old, new)]: the occurrences of [old] are replaced from left
    to right without overlap.  [skip] counts the characters of a matched
    occurrence still to be passed over. *)
Fixpoint replace_go (old new : string) (skip : nat) (s : string) : string :=
  match s with
  | EmptyString => EmptyString
  | String c s' =>
      match skip with
      | S k => replace_go old new k s'
      | O =>
          if prefix old s
          then new ++ replace_go old new (String.length old - 1) s'
          else String c (replace_go old new 0 s')
      end
  end.

Fixpoint replace_empty (new s : string) : string :=
  match s with
  | EmptyString => new
  | String c s' => new ++ String c (replace_empty new s')
  end.

Definition replace (old new s : string) : string :=
  if is_empty old then replace_empty new s else replace_go old new 0 s.

(** [s.split(sep)] for a separator of one character. *)
Fixpoint split (sep : ascii) (s : string) : list string :=
  match s with
  | EmptyString => [EmptyString]
  | String c s' =>
      if Ascii.eqb c sep then EmptyString :: split sep s'
      else match split sep s' with
           | [] => [String c EmptyString]
           | h :: t => String c h :: t
           end
  end.

(** [s.split(sep, 1)] for a separator of one character. *)
Fixpoint split_1 (sep : ascii) (s : string) : list string :=
  match s with
  | EmptyString => [EmptyString]
  | String c s' =>
      if Ascii.eqb c sep then [EmptyString; s']
      else match split_1 sep s' with
           | [] => [String c EmptyString]
           | h :: t => String c h :: t
           end
  end.

(** [s[:n]] *)
Fixpoint take (n : nat) (s : string) : string :=
  match n, s with
  | S k, String c s' => String c (take k s')
  | _, _ => EmptyString
  end.

(** [s[n:]] *)
Fixpoint drop (n : nat) (s : string) : string :=
  match n, s with
  | S k, String _ s' => drop k s'
  | _, _ => s
  end.

(** [x or d] on an optional string: [None] and the empty string are falsy. *)
Definition or_default (x : option string) (d : string) : string :=
  match x with
  | Some s => if is_empty s then d else s
  | None => d
  end.

(** [os.path.basename] (POSIX): what follows the last slash. *)
Fixpoint basename (p : string) : string :=
  match p with
  | EmptyString => EmptyString
  | String c p' =>
      if contains "/" p' then basename p'
      else if Ascii.eqb c "/" then p' else p
  end.

(** [os.path.join(a, b)] (POSIX), two arguments. *)
Definition path_join (a b : string) : string :=
  if prefix "/" b then b
  else if is_empty a || endswith "/" a then a ++ b
  else a ++ "/" ++ b.

End Py.

(* ====================================================================== *)
(** ** The library interface of the two source modules *)
(* ====================================================================== *)

(** The six components of [urllib.parse.urlparse]'s result. *)
Record ParseResult := {
  scheme : string;
  netloc : string;
  path : string;
  params : string;
  query : string;
  fragment : string
}.

(** What the scraper uses of [urllib.parse], [hashlib] and [scrapy].
    [parse_qsl] gives the (name, value) pairs of a query string, of which
    [parse_qs] below builds its dictionary; [sha1_hexdigest s] stands for
    [hashlib.sha1(s.encode()).hexdigest()]; [urljoin base ref] resolves a
    reference against a base.  [request_url u] is the URL that
    [scrapy.Request(u, ...)] keeps, which is [u] made safe (unsafe
    characters percent-encoded); it is [None] when the constructor raises
    [ValueError], as it does for a URL without a scheme. *)
Class PyLib := {
  urlparse : string -> ParseResult;
  parse_qsl : string -> list (string * string);
  sha1_hexdigest : string -> string;
  urljoin : string -> string -> string;
  request_url : string -> option string
}.

(** A dictionary with string keys, in insertion order. *)
Definition dict (V : Type) : Type := list (string * V).

Fixpoint dict_get {V : Type} (k : string) (d : dict V) : option V :=
  match d with
  | [] => None
  | (k', v) :: d' => if (k' =? k)%string then Some v else dict_get k d'
  end.

(** [d[k].append(v)] when [k] is a key, [d[k] = [v]] otherwise. *)
Fixpoint dict_append (k v : string) (d : dict (list string)) : dict (list string) :=
  match d with
  | [] => [(k, [v])]
  | (k', vs) :: d' =>
      if (k' =? k)%string then (k', (vs ++ [v])%list) :: d'
      else (k', vs) :: dict_append k v d'
  end.

(** [urllib.parse.parse_qs]: the pairs of [parse_qsl] grouped by name. *)
Definition parse_qs `{PyLib} (qs : string) : dict (list string) :=
  fold_left (fun d nv => dict_append (fst nv) (snd nv) d) (parse_qsl qs) [].

(* ====================================================================== *)
(** ** SHA-1 (FIPS 180-4) on 32-bit words *)
(* ====================================================================== *)

Module SHA1.
Local Open Scope N_scope.

Definition mask32 : N := 4294967295.

Definition add32 (a b : N) : N := N.land (a + b) mask32.
Definition not32 (a : N) : N := N.lxor a mask32.
Definition rotl (n x : N) : N :=
  N.land (N.lor (N.shiftl x n) (N.shiftr x (32 - n))) mask32.

(** The bytes of [s.encode()] for text below code point 128. *)
Definition encode (s : string) : list N :=
  map N_of_ascii (list_ascii_of_string s).

(** [k] bytes of [x], most significant first. *)
Fixpoint be_bytes (k : nat) (x : N) : list N :=
  match k with
  | O => []
  | S k' => N.land (N.shiftr x (8 * N.of_nat k')) 255 :: be_bytes k' x
  end.

(** Padding: the bit 1, zeros up to 56 modulo 64 bytes, the bit length. *)
Definition pad (msg : list N) : list N :=
  let len := List.length msg in
  let zeros := ((119 - len mod 64) mod 64)%nat in
  (msg ++ [128] ++ repeat 0 zeros ++ be_bytes 8 (8 * N.of_nat len))%list.

Fixpoint words (bs : list N) : list N :=
  match bs with
  | a :: b :: c :: d :: r =>
      N.lor (N.shiftl a 24) (N.lor (N.shiftl b 16) (N.lor (N.shiftl c 8) d))
      :: words r
  | _ => []
  end.

Fixpoint blocks (fuel : nat) (ws : list N) : list (list N) :=
  match fuel, ws with
  | S f, _ :: _ => firstn 16 ws :: blocks f (skipn 16 ws)
  | _, _ => []
  end.

(** The message schedule, kept most recent word first. *)
Fixpoint extend (n : nat) (rws : list N) : list N :=
  match n with
  | O => rws
  | S n' =>
      let w := rotl 1 (N.lxor (nth 2 rws 0)
                      (N.lxor (nth 7 rws 0)
                      (N.lxor (nth 13 rws 0) (nth 15 rws 0)))) in
      extend n' (w :: rws)
  end.

Definition schedule (block : list N) : list N := rev (extend 64 (rev block)).

Definition state : Type := N * N * N * N * N.

Definition f_k (i : nat) (b c d : N) : N * N :=
  if (i <? 20)%nat then (N.lor (N.land b c) (N.land (not32 b) d), 1518500249)
  else if (i <? 40)%nat then (N.lxor b (N.lxor c d), 1859775393)
  else if (i <? 60)%nat then
    (N.lor (N.land b c) (N.lor (N.land b d) (N.land c d)), 2400959708)
  else (N.lxor b (N.lxor c d), 3395469782).

Definition round (i : nat) (st : state) (w : N) : state :=
  let '(a, b, c, d, e) := st in
  let (f, k) := f_k i b c d in
  let temp := add32 (add32 (add32 (add32 (rotl 5 a) f) e) k) w in
  (temp, a, rotl 30 b, c, d).

Fixpoint rounds (i : nat) (st : state) (ws : list N) : state :=
  match ws with
  | [] => st
  | w :: ws' => rounds (S i) (round i st w) ws'
  end.

Definition compress (h : state) (block : list N) : state :=
  let '(h0, h1, h2, h3, h4) := h in
  let '(a, b, c, d, e) := rounds 0 h (schedule block) in
  (add32 h0 a, add32 h1 b, add32 h2 c, add32 h3 d, add32 h4 e).

Definition init : state :=
  (1732584193, 4023233417, 2562383102, 271733878, 3285377520).

Definition digest (msg : list N) : state :=
  let ws := words (pad msg) in
  fold_left compress (blocks (List.length ws) ws) init.

Definition hex_digit (x : N) : ascii :=
  match String.get (N.to_nat x) "0123456789abcdef" with
  | Some c => c
  | None => "0"%char
  end.

(** [k] hexadecimal digits of [x], most significant first, lower case. *)
Fixpoint hex (k : nat) (x : N) : string :=
  match k with
  | O => EmptyString
  | S k' => String (hex_digit (N.land (N.shiftr x (4 * N.of_nat k')) 15)) (hex k' x)
  end.

Definition hexdigest (s : string) : string :=
  let '(h0, h1, h2, h3, h4) := digest (encode s) in
  hex 8 h0 ++ hex 8 h1 ++ hex 8 h2 ++ hex 8 h3 ++ hex 8 h4.

End SHA1.

(* ====================================================================== *)
(** ** [urllib.parse] for the URLs of the site *)
(* ====================================================================== *)

(** A computable account of the [urllib.parse] functions, separator [&],
    for URLs without control characters, leading blanks or brackets in the
    host (the URL of a request has been through [urlparse] when the request
    was built, so [urlparse] does not raise on it).  Percent escapes above
    [%7F] decode to text outside ASCII and are outside the model.
    [urlsplit] and [urljoin_checked] add the [ValueError] that the parser
    raises on a host with one square bracket and not the other; a host in
    matched brackets (an IPv6 literal, which the parser validates) stays
    outside the model. *)
Module Url.
Import Py.

(** [c in s] for a character. *)
Definition mem_char (c : ascii) (s : string) : bool := contains (String c EmptyString) s.

(** What precedes the first character satisfying [p], and the rest. *)
Fixpoint break (p : ascii -> bool) (s : string) : string * string :=
  match s with
  | EmptyString => (EmptyString, EmptyString)
  | String c s' =>
      if p c then (EmptyString, s)
      else let (a, b) := break p s' in (String c a, b)
  end.

(** [(s[:r], s[r:])] for [r = s.rfind("/")], and [("", s)] without a slash. *)
Fixpoint rbreak_slash (s : string) : string * string :=
  match s with
  | EmptyString => (EmptyString, EmptyString)
  | String c s' =>
      if contains "/" s' then let (a, b) := rbreak_slash s' in (String c a, b)
      else (EmptyString, s)
  end.

(** [a, b = s.split(c, 1)] when [c] occurs, [(s, "")] otherwise. *)
Definition split_at (c : ascii) (s : string) : string * string :=
  match split_1 c s with
  | [a; b] => (a, b)
  | _ => (s, EmptyString)
  end.

Definition scheme_chars : string :=
  "abcdefghijklmnopqrstuvwxyzABCDEFGHIJKLMNOPQRSTUVWXYZ0123456789+-.".

Definition uses_params : list string :=
  [""; "ftp"; "hdl"; "prospero"; "http"; "imap"; "https"; "shttp"; "rtsp";
   "rtspu"; "sip"; "sips"; "mms"; "sftp"; "tel"].

Definition uses_relative : list string :=
  [""; "ftp"; "http"; "gopher"; "nntp"; "imap"; "wais"; "file"; "https";
   "shttp"; "mms"; "prospero"; "rtsp"; "rtspu"; "sftp"; "svn"; "svn+ssh";
   "ws"; "wss"].

Definition uses_netloc : list string :=
  [""; "ftp"; "http"; "gopher"; "nntp"; "telnet"; "imap"; "wais"; "file";
   "mms"; "https"; "shttp"; "snews"; "prospero"; "rtsp"; "rtspu"; "rsync";
   "svn"; "svn+ssh"; "sftp"; "nfs"; "git"; "git+ssh"; "ws"; "wss"].

Definition mem (x : string) (l : list string) : bool :=
  existsb (String.eqb x) l.

Definition split_scheme (url : string) : string * string :=
  let (pre, post) := break (Ascii.eqb ":") url in
  match post, pre with
  | String _ rest, String c0 _ =>
      if (isupper c0 || islower c0)
         && sforall (fun c => mem_char c scheme_chars) pre
      then (lower pre, rest)
      else (EmptyString, url)
  | _, _ => (EmptyString, url)
  end.

Definition split_netloc (url : string) : string * string :=
  if prefix "//" url
  then break (fun c => mem_char c "/?#") (drop 2 url)
  else (EmptyString, url).

Definition splitparams (url : string) : string * string :=
  let (head, tail) := rbreak_slash url in
  let (a, b) := break (Ascii.eqb ";") tail in
  match b with
  | String _ b' => (head ++ a, b')
  | EmptyString => (url, EmptyString)
  end.

(** [urlparse(url, default_scheme)] *)
Definition urlparse_with (default_scheme url : string) : ParseResult :=
  let (sch0, u1) := split_scheme url in
  let sch := if is_empty sch0 then default_scheme else sch0 in
  let (nl, u2) := split_netloc u1 in
  let (u3, frag) := split_at "#" u2 in
  let (u4, q) := split_at "?" u3 in
  let (p, prm) :=
    if mem sch uses_params && mem_char ";" u4 then splitparams u4
    else (u4, EmptyString) in
  {| scheme := sch; netloc := nl; path := p; params := prm;
     query := q; fragment := frag |}.

Definition urlparse (url : string) : ParseResult := urlparse_with "" url.

Definition urlunparse (r : ParseResult) : string :=
  let url := if is_empty (params r) then path r else path r ++ ";" ++ params r in
  let url :=
    if negb (is_empty (netloc r))
       || (negb (is_empty (scheme r)) && mem (scheme r) uses_netloc
           && negb (prefix "//" url))
    then "//" ++ netloc r
         ++ (if negb (is_empty url) && negb (prefix "/" url)
             then "/" ++ url else url)
    else url in
  let url := if is_empty (scheme r) then url else scheme r ++ ":" ++ url in
  let url := if is_empty (query r) then url else url ++ "?" ++ query r in
  if is_empty (fragment r) then url else url ++ "#" ++ fragment r.

Definition hex_val (c : ascii) : option nat :=
  if isdecimal c then Some (code c - 48)
  else if in_range 97 102 c then Some (code c - 87)
  else if in_range 65 70 c then Some (code c - 55)
  else None.

(** [unquote]: a percent sign followed by two hexadecimal digits is the
    character of that code; any other percent sign stays. *)
Fixpoint unquote_go (skip : nat) (s : string) : string :=
  match s with
  | EmptyString => EmptyString
  | String c s' =>
      match skip with
      | S k => unquote_go k s'
      | O =>
          match (if Ascii.eqb c "%" then s' else EmptyString) with
          | String h (String l _) =>
              match hex_val h, hex_val l with
              | Some a, Some b =>
                  String (ascii_of_nat (16 * a + b)) (unquote_go 2 s')
              | _, _ => String c (unquote_go 0 s')
              end
          | _ => String c (unquote_go 0 s')
          end
      end
  end.

Definition unquote (s : string) : string := unquote_go 0 s.

(** [parse_qsl(qs)]: fields without [=] or with a blank value are dropped. *)
Definition parse_qsl (qs : string) : list (string * string) :=
  flat_map
    (fun name_value =>
       match split_1 "=" name_value with
       | [n; v] =>
           if is_empty v then []
           else [(unquote (replace "+" " " n), unquote (replace "+" " " v))]
       | _ => []
       end)
    (split "&" qs).

(** The middle segments that are not empty: [filter(None, segments[1:-1])]
    put back between the first and the last segment. *)
Definition drop_empty_middle (segs : list string) : list string :=
  match segs with
  | [] => []
  | first :: rest =>
      match rev rest with
      | [] => [first]
      | last :: rmid =>
          (first :: filter (fun x => negb (is_empty x)) (rev rmid) ++ [last])%list
      end
  end.

Fixpoint resolve_dots (acc segs : list string) : list string :=
  match segs with
  | [] => acc
  | seg :: segs' =>
      if (seg =? "..")%string then resolve_dots (removelast acc) segs'
      else if (seg =? ".")%string then resolve_dots acc segs'
      else resolve_dots (acc ++ [seg])%list segs'
  end.

(** [urljoin(base, url)] *)
Definition urljoin (base url : string) : string :=
  if is_empty base then url
  else if is_empty url then base
  else
    let b := urlparse base in
    let r := urlparse_with (scheme b) url in
    if negb (scheme r =? scheme b)%string || negb (mem (scheme r) uses_relative)
    then url
    else if mem (scheme r) uses_netloc && negb (is_empty (netloc r))
    then urlunparse r
    else
      let nl := if mem (scheme r) uses_netloc then netloc b else netloc r in
      if is_empty (path r) && is_empty (params r)
      then urlunparse {| scheme := scheme r; netloc := nl; path := path b;
                         params := params b;
                         query := if is_empty (query r) then query b else query r;
                         fragment := fragment r |}
      else
        let base_parts :=
          let bp := split "/" (path b) in
          if is_empty (last bp EmptyString) then bp else removelast bp in
        let segments :=
          if prefix "/" (path r) then split "/" (path r)
          else drop_empty_middle (base_parts ++ split "/" (path r))%list in
        let resolved := resolve_dots [] segments in
        let lastseg := last segments EmptyString in
        let resolved :=
          if (lastseg =? ".")%string || (lastseg =? "..")%string
          then (resolved ++ [EmptyString])%list else resolved in
        let joined := String.concat "/" resolved in
        urlunparse {| scheme := scheme r; netloc := nl;
                      path := if is_empty joined then "/" else joined;
                      params := params r; query := query r;
                      fragment := fragment r |}.

(** The test behind [ValueError("Invalid IPv6 URL")]: one of the two square
    brackets occurs in the host and the other does not. *)
Definition invalid_netloc (nl : string) : bool :=
  xorb (mem_char "[" nl) (mem_char "]" nl).

(** [urlsplit(url)]: as [urlparse], with the parameters left in the path;
    [None] when it raises. *)
Definition urlsplit (url : string) : option ParseResult :=
  let (sch, u1) := split_scheme url in
  let (nl, u2) := split_netloc u1 in
  if invalid_netloc nl then None
  else
    let (u3, frag) := split_at "#" u2 in
    let (u4, q) := split_at "?" u3 in
    Some {| scheme := sch; netloc := nl; path := u4; params := EmptyString;
            query := q; fragment := frag |}.

(** [urljoin(base, url)] with its exception: [None] when parsing the base
    or the reference raises. *)
Definition urljoin_checked (base url : string) : option string :=
  if is_empty base then Some url
  else if is_empty url then Some base
  else
    let b := urlparse base in
    let r := urlparse_with (scheme b) url in
    if invalid_netloc (netloc b) || invalid_netloc (netloc r) then None
    else Some (urljoin base url).

End Url.

(* ====================================================================== *)
(** ** The URL of a [scrapy.Request] *)
(* ====================================================================== *)

(** [scrapy.Request(url, ...)] keeps [safe_url_string(url)] (w3lib 2) and
    raises [ValueError] when the result holds no [://] and is neither an
    [about:] nor a [data:] URL.  A computable account for ASCII URLs whose
    host is not in brackets and whose fragment does not start with [!] (an
    AJAX-crawlable URL, which older versions of scrapy rewrite). *)
Module Scrapy.
Import Py Url.

(** A C0 control character or the space. *)
Definition c0_or_space (c : ascii) : bool := (code c <=? 32)%nat.

Fixpoint lstrip_c0 (s : string) : string :=
  match s with
  | EmptyString => EmptyString
  | String c s' => if c0_or_space c then lstrip_c0 s' else s
  end.

Fixpoint rstrip_c0 (s : string) : string :=
  match s with
  | EmptyString => EmptyString
  | String c s' =>
      let r := rstrip_c0 s' in
      if c0_or_space c && is_empty r then EmptyString else String c r
  end.

(** TAB, LF or CR. *)
Definition tab_or_newline (c : ascii) : bool :=
  (code c =? 9)%nat || (code c =? 10)%nat || (code c =? 13)%nat.

(** [_strip(url)]: the C0 control characters and spaces at both ends go,
    then every TAB, LF and CR. *)
Definition _strip (url : string) : string :=
  sfilter (fun c => negb (tab_or_newline c)) (lstrip_c0 (rstrip_c0 url)).

(** The characters that [quote] never encodes. *)
Definition unreserved (c : ascii) : bool :=
  isupper c || islower c || isdecimal c || mem_char c "_.-~".

Definition hex_digit (n : nat) : ascii :=
  match String.get n "0123456789ABCDEF" with
  | Some c => c
  | None => "0"%char
  end.

(** [quote(s, safe)]: a character that is neither unreserved nor safe
    becomes a percent sign and its code as two upper-case hexadecimal
    digits. *)
Fixpoint quote (safe : ascii -> bool) (s : string) : string :=
  match s with
  | EmptyString => EmptyString
  | String c s' =>
      if unreserved c || safe c then String c (quote safe s')
      else String "%" (String (hex_digit (code c / 16))
                         (String (hex_digit (code c mod 16)) (quote safe s')))
  end.

(** [_USERINFO_SAFEST_CHARS], [_PATH_SAFEST_CHARS] (also the set for queries
    and for fragments) and [_SPECIAL_QUERY_SAFEST_CHARS], each without the
    unreserved characters. *)
Definition userinfo_safest (c : ascii) : bool := mem_char c "!$&'()*+,".
Definition path_safest (c : ascii) : bool := mem_char c ":/?@!$&'()*+,;=%".
Definition special_query_safest (c : ascii) : bool := mem_char c ":/?@!$&()*+,;=%".

Definition special_schemes : list string :=
  ["ftp"; "file"; "http"; "https"; "ws"; "wss"].

(** [s.rpartition(c)]: what precedes the last [c] and what follows it;
    [None] when [c] does not occur. *)
Fixpoint rpartition (c : ascii) (s : string) : option (string * string) :=
  match s with
  | EmptyString => None
  | String x s' =>
      match rpartition c s' with
      | Some (a, b) => Some (String x a, b)
      | None => if Ascii.eqb x c then Some (EmptyString, s') else None
      end
  end.

(** [s.partition(c)]: what precedes the first [c], whether [c] occurs, and
    what follows it. *)
Definition partition (c : ascii) (s : string) : string * bool * string :=
  match split_1 c s with
  | [a; b] => (a, true, b)
  | _ => (s, false, EmptyString)
  end.

(** [parts.username] and [parts.password] *)
Definition userinfo (netloc : string) : option string * option string :=
  match rpartition "@" netloc with
  | Some (info, _) =>
      let '(username, have_password, password) := partition ":" info in
      (Some username, if have_password then Some password else None)
  | None => (None, None)
  end.

(** [parts._hostinfo]: the host and the port as they are written. *)
Definition hostinfo (netloc : string) : string * string :=
  let h :=
    match rpartition "@" netloc with
    | Some (_, h) => h
    | None => netloc
    end in
  let '(_, have_open_br, bracketed) := partition "[" h in
  if have_open_br
  then
    let '(hostname, _, port) := partition "]" bracketed in
    let '(_, _, port) := partition ":" port in
    (hostname, port)
  else
    let '(hostname, _, port) := partition ":" h in
    (hostname, port).

(** [parts.hostname], the empty string for [None]. *)
Definition hostname (netloc : string) : string :=
  let h := fst (hostinfo netloc) in
  let '(name, percent, zone) := partition "%" h in
  lower name ++ (if percent then "%" else "") ++ zone.

(** The number a string of digits stands for. *)
Definition to_N (digits : string) : N :=
  fold_left (fun n c => (10 * n + N.of_nat (code c - 48))%N)
            (list_ascii_of_string digits) 0%N.

Fixpoint lstrip_zeros (s : string) : string :=
  match s with
  | String c s' => if Ascii.eqb c "0" then lstrip_zeros s' else s
  | EmptyString => EmptyString
  end.

(** [parts.port] as [str] prints it: the outer [None] for its
    [ValueError] (a port that is not a number up to 65535), the inner one
    for no port. *)
Definition port (netloc : string) : option (option string) :=
  let p := snd (hostinfo netloc) in
  if is_empty p then Some None
  else if sforall isdecimal p && (to_N p <=? 65535)%N
  then Some (Some (or_default (Some (lstrip_zeros p)) "0"))
  else None.

(** [safe_url_string(url)], [None] when it raises. *)
Definition safe_url_string (url : string) : option string :=
  match urlsplit (_strip url) with
  | None => None
  | Some parts =>
      match port (netloc parts) with
      | None => None
      | Some prt =>
          let (username, password) := userinfo (netloc parts) in
          let nl :=
            match username with
            | Some u =>
                quote userinfo_safest (unquote u)
                ++ match password with
                   | Some p => ":" ++ quote userinfo_safest (unquote p)
                   | None => ""
                   end
                ++ "@"
            | None => ""
            end
            ++ hostname (netloc parts)
            ++ match prt with
               | Some p => ":" ++ p
               | None => ""
               end in
          let query_safest :=
            if mem (scheme parts) special_schemes then special_query_safest
            else path_safest in
          Some (urlunparse
                  {| scheme := scheme parts;
                     netloc := nl;
                     path := quote path_safest (path parts);
                     params := EmptyString;
                     query := quote query_safest (query parts);
                     fragment := quote path_safest (fragment parts) |})
      end
  end.

(** [scrapy.Request(url).url], [None] when the constructor raises
    [ValueError]. *)
Definition request_url (url : string) : option string :=
  match safe_url_string url with
  | Some s =>
      if contains "://" s || prefix "about:" s || prefix "data:" s
      then Some s else None
  | None => None
  end.

End Scrapy.

(** The computable instance of the library interface. *)
#[export] Instance url_lib : PyLib := {|
  urlparse := Url.urlparse;
  parse_qsl := Url.parse_qsl;
  sha1_hexdigest := SHA1.hexdigest;
  urljoin := Url.urljoin;
  request_url := Scrapy.request_url
|}.

(* ====================================================================== *)
(** ** The parsed page and the scraped item *)
(* ====================================================================== *)

(** An [<option>] element: its [value] attribute, when it has one, and
    the text nodes inside it, in document order (what [::text] selects). *)
Record option_elem := {
  opt_value : option string;
  opt_texts : list string
}.

(** A [<select>] element: its [name] and [id] attributes, whether it lies
    inside a [<form>], and its [<option>] descendants in document order. *)
Record select_elem := {
  sel_name : option string;
  sel_id : option string;
  sel_in_form : bool;
  sel_options : list option_elem
}.

(** A [<td>] cell: the text nodes inside it and the [href] values of the
    anchors inside it, both in document order. *)
Record cell := {
  cell_texts : list string;
  cell_hrefs : list string
}.

(** A response: its URL, its method [urljoin] and the nodes its CSS
    queries select.  [resp_urljoin href] is [response.urljoin(href)], which
    resolves [href] against the base URL of the page (the [<base href>] of
    the page when it has one, the URL of the response otherwise) and is
    [None] when that raises [ValueError].
    [tr_rows] holds, for each [table tr], the [td] cells of that row;
    [th_texts] the text nodes of each [table th]; the last three fields the
    [href] values selected by [a[rel="next"]], [a:contains("Next")] and
    [a:contains(">>")] (the right guillemet). *)
Record Response := {
  url : string;
  resp_urljoin : string -> option string;
  selects : list select_elem;
  th_texts : list (list string);
  tr_rows : list (list cell);
  rel_next_hrefs : list string;
  text_next_hrefs : list string;
  raquo_next_hrefs : list string
}.

(** [sel.get(default)]: the first selected value. *)
Definition get_first (l : list string) (default : string) : string :=
  match l with
  | [] => default
  | x :: _ => x
  end.

(** [sel.get()], [None] when nothing is selected. *)
Definition get_opt (l : list string) : option string :=
  match l with
  | [] => None
  | x :: _ => Some x
  end.

(** [items.py]: the fields of an item; a field that was never set is
    [None]. *)
Record UConnSyllabusItem := {
  term_name : option string;
  class_name : option string;
  section : option string;
  instructor : option string;
  syllabus_web_url : option string;
  syllabus_local_filepath : option string;
  syllabus_local_filename : option string;
  term_code : option string;
  file_urls : option (list string);
  files : option (list string)
}.

Inductive callback := parse_term_list_cb | parse_term_results_cb.

(** A [scrapy.Request]. *)
Record Request := {
  req_url : string;
  req_headers : dict string;
  req_callback : option callback;
  req_cb_kwargs : dict string
}.

(** What a spider callback yields. *)
Inductive output :=
| YieldItem (item : UConnSyllabusItem)
| YieldRequest (request : Request).

(* ====================================================================== *)
(** ** [spiders/uconn_syllabi_spider.py] *)
(* ====================================================================== *)

Module Spider.
Import Py.

Definition BASE_URL : string := "https://syllabus.uconn.edu/public/".

(** The three selectors of [_extract_term_options]. *)
Inductive selector :=
| select_name_term   (* select[name="term"] option *)
| select_id_term     (* select#term option *)
| form_select.       (* form select option *)

Definition selectors_to_try : list selector :=
  [select_name_term; select_id_term; form_select].

Definition is_term (a : option string) : bool :=
  match a with
  | Some v => (v =? "term")%string
  | None => false
  end.

Definition select_matches (sel : selector) (e : select_elem) : bool :=
  match sel with
  | select_name_term => is_term (sel_name e)
  | select_id_term => is_term (sel_id e)
  | form_select => sel_in_form e
  end.

(** [response.css(sel)] for the three selectors. *)
Definition css (response : Response) (sel : selector) : list option_elem :=
  flat_map sel_options (filter (select_matches sel) (selects response)).

Definition opt_value_stripped (opt : option_elem) : string :=
  strip (match opt_value opt with Some v => v | None => EmptyString end).

Definition opt_label (opt : option_elem) : string :=
  strip (get_first (opt_texts opt) "").

(** The inner loop of [_extract_term_options]. *)
Definition option_step (results : list (string * string)) (opt : option_elem)
  : list (string * string) :=
  let value := opt_value_stripped opt in
  let label := opt_label opt in
  if isdigit value then (results ++ [(value, label)])%list else results.

Fixpoint try_selectors (response : Response) (sels : list selector)
  : list (string * string) :=
  match sels with
  | [] => []
  | sel :: rest =>
      let options := css response sel in
      match options with
      | [] => try_selectors response rest
      | _ :: _ =>
          let results := fold_left option_step options [] in
          match results with
          | [] => try_selectors response rest
          | _ :: _ => results
          end
      end
  end.

Definition _extract_term_options (response : Response) : list (string * string) :=
  try_selectors response selectors_to_try.

Definition _split_class (class_name : string) : string * string :=
  match split_none_1 (strip class_name) with
  | [p0; p1] => (upper p0, p1)
  | [p0] => (upper p0, EmptyString)
  | _ => (EmptyString, EmptyString)
  end.

(** [a or b] on the results of [.get()]. *)
Definition or_opt (a b : option string) : option string :=
  match a with
  | Some s => if is_empty s then b else a
  | None => b
  end.

(** The next-page URL, or Python's [None] (the inner one); the outer
    [None] stands for the [ValueError] of [response.urljoin]. *)
Definition _find_next_page (response : Response) : option (option string) :=
  let next_link :=
    or_opt (get_opt (rel_next_hrefs response))
      (or_opt (get_opt (text_next_hrefs response))
              (get_opt (raquo_next_hrefs response))) in
  match next_link with
  | Some l =>
      if is_empty l then Some None
      else option_map Some (resp_urljoin response l)
  | None => Some None
  end.

(** The raw row dictionary yielded by [_parse_results_table]. *)
Record TableRow := {
  row_class_name : string;
  row_section : string;
  row_instructor : string;
  row_href : string
}.

Definition headers (response : Response) : list string :=
  map (fun th => lower (strip (get_first th ""))) (th_texts response).

(** [for i, h in enumerate(headers): if name in h: return i], from [i]. *)
Fixpoint find_header (name : string) (hs : list string) (i : nat) : option nat :=
  match hs with
  | [] => None
  | h :: hs' => if contains name h then Some i else find_header name hs' (S i)
  end.

Fixpoint col_index (hs : list string) (names : list string) (default : nat) : nat :=
  match names with
  | [] => default
  | name :: names' =>
      match find_header name hs 0 with
      | Some i => i
      | None => col_index hs names' default
      end
  end.

Definition class_col (hs : list string) : nat := col_index hs ["class"] 1.
Definition section_col (hs : list string) : nat := col_index hs ["section"] 2.
Definition instructor_col (hs : list string) : nat := col_index hs ["instructor"] 3.
Definition syllabi_col (hs : list string) : nat := col_index hs ["syllabi"; "syllabus"] 4.

Definition max_col (hs : list string) : nat :=
  Nat.max (class_col hs)
    (Nat.max (section_col hs) (Nat.max (instructor_col hs) (syllabi_col hs))).

(** [cells[i]]: [None] stands for the [IndexError] of an index out of range. *)
Definition cell_at (cells : list cell) (i : nat) : option cell := nth_error cells i.

Definition cell_text (c : cell) : string := strip (get_first (cell_texts c) "").
Definition cell_href (c : cell) : string := strip (get_first (cell_hrefs c) "").

(** One pass of the loop over [table tr]: the rows yielded so far, then the
    two [continue] guards, then the [yield]. *)
Definition row_step (hs : list string) (yielded : list TableRow) (cells : list cell)
  : option (list TableRow) :=
  if (List.length cells <=? max_col hs)%nat then Some yielded
  else
    match cell_at cells (class_col hs), cell_at cells (section_col hs),
          cell_at cells (instructor_col hs), cell_at cells (syllabi_col hs) with
    | Some c_class, Some c_section, Some c_instructor, Some c_syllabi =>
        let class_name := cell_text c_class in
        let section := cell_text c_section in
        let instructor := cell_text c_instructor in
        let href := cell_href c_syllabi in
        if is_empty class_name then Some yielded
        else Some (yielded ++ [{| row_class_name := class_name;
                                  row_section := section;
                                  row_instructor := instructor;
                                  row_href := href |}])%list
    | _, _, _, _ => None
    end.

Fixpoint for_rows (hs : list string) (rows : list (list cell)) (yielded : list TableRow)
  : option (list TableRow) :=
  match rows with
  | [] => Some yielded
  | cells :: rest =>
      match row_step hs yielded cells with
      | Some yielded' => for_rows hs rest yielded'
      | None => None
      end
  end.

(** The rows yielded, or [None] when the generator raises. *)
Definition _parse_results_table (response : Response) (term_code term_name : string)
  : option (list TableRow) :=
  for_rows (headers response) (tr_rows response) [].

(** The spider's configuration after [__init__]; a set is kept as the list
    of its members. *)
Record UConnSyllabiSpider := {
  _target_terms : option (list string);
  _target_depts : option (list string);
  _no_download : bool
}.

Definition mem (x : string) (l : list string) : bool := existsb (String.eqb x) l.

(** [self._target_x and v not in self._target_x]: [None] and the empty set
    are falsy. *)
Definition filtered_out (target : option (list string)) (v : string) : bool :=
  match target with
  | None => false
  | Some [] => false
  | Some l => negb (mem v l)
  end.

Definition comma_set (f : string -> string) (arg : string) : list string :=
  map f (filter (fun t => negb (is_empty (strip t))) (split "," arg)).

Definition __init__ (target_terms target_depts no_download : option string)
  : UConnSyllabiSpider :=
  {| _target_terms :=
       match target_terms with
       | None => None
       | Some a => if is_empty a then None else Some (comma_set strip a)
       end;
     _target_depts :=
       match target_depts with
       | None => None
       | Some a =>
           if is_empty a then None
           else Some (comma_set (fun d => upper (strip d)) a)
       end;
     _no_download :=
       match no_download with
       | None => false
       | Some a =>
           if is_empty a then false
           else mem (strip a) ["1"; "true"; "yes"]
       end |}.

(** What a generator has yielded when it stops, and whether it stopped
    because an exception was raised in it. *)
Record Run := {
  yielded : list output;
  raised : bool
}.

Section Callbacks.
Context `{PyLib}.
Variable self : UConnSyllabiSpider.

Definition TERM_LIST_URL : string := urljoin BASE_URL "search_term.php".

(** A request with the callback [parse_term_results], whose URL is kept as
    [url]. *)
Definition term_request (url term_code term_name : string) : Request :=
  {| req_url := url;
     req_headers := [];
     req_callback := Some parse_term_results_cb;
     req_cb_kwargs := [("term_code", term_code); ("term_name", term_name)] |}.

(** The requests of [parse_term_list].  The URL of each is the list URL,
    [?term=] and a code made of digits: it holds nothing that
    [scrapy.Request] would encode, and the request keeps it as it is
    ([term_request_url_kept] below). *)
Definition parse_term_list (response : Response) : list output :=
  let options := _extract_term_options response in
  fold_left
    (fun out opt =>
       let '(term_code, term_label) := opt in
       if filtered_out (_target_terms self) term_code then out
       else (out ++ [YieldRequest
                       (term_request (TERM_LIST_URL ++ "?term=" ++ term_code)
                                     term_code term_label)])%list)
    options [].

(** [abs_url]: the absolute URL of a row's link, with the pipe encoded, the
    empty string for a row without link; [None] when [response.urljoin]
    raises. *)
Definition abs_url_of (response : Response) (href : string) : option string :=
  if is_empty href then Some EmptyString
  else option_map (replace "|" "%7C") (resp_urljoin response href).

(** The [UConnSyllabusItem(...)] built for a row, given its [abs_url]. *)
Definition item_of (term_code term_name : string) (row : TableRow)
    (abs_url : string) : UConnSyllabusItem :=
  {| term_name := Some term_name;
     term_code := Some term_code;
     class_name := Some (row_class_name row);
     section := Some (row_section row);
     instructor := Some (row_instructor row);
     syllabus_web_url := Some abs_url;
     syllabus_local_filepath := Some EmptyString;
     syllabus_local_filename := Some EmptyString;
     file_urls :=
       Some (if negb (is_empty abs_url) && negb (_no_download self)
             then [abs_url] else []);
     files := Some [] |}.

(** The item yielded for a row whose link resolves: [item_of] at the
    resolved link.  Where [response.urljoin] raises no item is built
    ([item_step] stops there), and this definition is not used. *)
Definition new_item (response : Response) (term_code term_name : string)
    (row : TableRow) : UConnSyllabusItem :=
  item_of term_code term_name row
    (match abs_url_of response (row_href row) with
     | Some abs_url => abs_url
     | None => EmptyString
     end).

(** The body of the loop over the rows in [parse_term_results]: nothing
    more happens once an exception was raised; a row outside the target
    departments is passed over; [response.urljoin] raising ends the run with
    what was yielded before; otherwise the item of the row is yielded. *)
Definition item_step (response : Response) (term_code term_name : string)
    (run : Run) (row : TableRow) : Run :=
  if raised run then run
  else
    let class_name := row_class_name row in
    let dept := fst (_split_class class_name) in
    if filtered_out (_target_depts self) dept then run
    else
      match abs_url_of response (row_href row) with
      | Some abs_url =>
          {| yielded :=
               (yielded run
                ++ [YieldItem (item_of term_code term_name row abs_url)])%list;
             raised := false |}
      | None => {| yielded := yielded run; raised := true |}
      end.

(** The end of [parse_term_results], after the records [out]: the request
    for the next page, whose URL is the one [scrapy.Request] keeps. *)
Definition next_page_step (response : Response) (term_code term_name : string)
    (out : list output) : Run :=
  match _find_next_page response with
  | None => {| yielded := out; raised := true |}
  | Some None => {| yielded := out; raised := false |}
  | Some (Some next_page) =>
      if is_empty next_page then {| yielded := out; raised := false |}
      else
        match request_url next_page with
        | Some u =>
            {| yielded :=
                 (out ++ [YieldRequest (term_request u term_code term_name)])%list;
               raised := false |}
        | None => {| yielded := out; raised := true |}
        end
  end.

(** A run of the generator [parse_term_results]: the table is parsed as a
    whole first, then the records are yielded row by row, then the request
    for the next page. *)
Definition parse_term_results_run (response : Response)
    (term_code term_name : string) : Run :=
  match _parse_results_table response term_code term_name with
  | None => {| yielded := []; raised := true |}
  | Some rows =>
      let run :=
        fold_left (item_step response term_code term_name) rows
                  {| yielded := []; raised := false |} in
      if raised run then run
      else next_page_step response term_code term_name (yielded run)
  end.

(** What [parse_term_results] yields when it runs to its end; [None] when
    it raises. *)
Definition parse_term_results (response : Response) (term_code term_name : string)
  : option (list output) :=
  let run := parse_term_results_run response term_code term_name in
  if raised run then None else Some (yielded run).

Definition start_requests : list output :=
  [YieldRequest {| req_url := TERM_LIST_URL;
                   req_headers := [];
                   req_callback := Some parse_term_list_cb;
                   req_cb_kwargs := [] |}].

End Callbacks.
End Spider.

(* ====================================================================== *)
(** ** [pipelines.py] *)
(* ====================================================================== *)

Module Pipelines.
Import Py.

(** The entry of [results] for one requested file: the file information of
    a finished download (the tuple [(True, info)]) or a failure
    ([(False, failure)]). *)
Record file_info := {
  fi_url : string;
  fi_path : string;
  fi_checksum : string;
  fi_status : string
}.

Inductive media_result :=
| Ok (r : file_info)
| Failure (reason : string).

(** [info]: of [info.spider.settings] the one setting that is read. *)
Record MediaInfo := { FILES_STORE : option string }.

(** [adapter.get(field)], with [adapter = ItemAdapter(item) if item else {}]. *)
Definition adapter_get {A : Type} (item : option UConnSyllabusItem)
    (field : UConnSyllabusItem -> option A) : option A :=
  match item with
  | Some it => field it
  | None => None
  end.

(** [re.sub(r"[^\w]", "", s)] *)
Definition strip_nonword (s : string) : string := sfilter isword s.

Definition referer : string := "https://syllabus.uconn.edu/public/search_term.php".

(** One request for each of the item's [file_urls], with the URL that
    [scrapy.Request] keeps; [None] when [scrapy.Request] raises on one of
    them. *)
Definition get_media_requests `{PyLib} (item : UConnSyllabusItem)
  : option (list Request) :=
  fold_right
    (fun u rest =>
       match request_url u, rest with
       | Some kept, Some requests =>
           Some ({| req_url := kept;
                    req_headers := [("Referer", referer)];
                    req_callback := None;
                    req_cb_kwargs := [] |} :: requests)
       | _, _ => None
       end)
    (Some [])
    (match file_urls item with Some l => l | None => [] end).

Section FilesPipeline.
Context `{PyLib}.

(** The local variables of [file_path], by name. *)
Definition fp_term_code (item : option UConnSyllabusItem) : string :=
  strip (or_default (adapter_get item term_code) "0000").

Definition fp_class_name (item : option UConnSyllabusItem) : string :=
  strip (or_default (adapter_get item class_name) "").

Definition fp_parts (item : option UConnSyllabusItem) : list string :=
  split_none_1 (fp_class_name item).

Definition fp_dept (item : option UConnSyllabusItem) : string :=
  match fp_parts item with
  | p0 :: _ => strip_nonword p0
  | [] => "UNKNOWN"
  end.

Definition fp_number (item : option UConnSyllabusItem) : string :=
  match fp_parts item with
  | _ :: p1 :: _ => strip_nonword p1
  | _ => "0"
  end.

(** [qs.get("file", [""])[0]] *)
Definition fp_file_param (u : string) : string :=
  let parsed := urlparse u in
  let qs := parse_qs (query parsed) in
  get_first (match dict_get "file" qs with Some vs => vs | None => [""] end) "".

Definition fp_file_param_decoded (u : string) : string :=
  replace "%7C" "|" (fp_file_param u).

Definition fp_file_id (u : string) : string :=
  let file_param_decoded := fp_file_param_decoded u in
  if contains "|" file_param_decoded
  then strip (get_first (split "|" file_param_decoded) "")
  else take 12 (sha1_hexdigest u).

Definition fp_ext (u : string) : string :=
  let path := lower (path (urlparse u)) in
  if endswith ".docx" path then "docx"
  else if endswith ".doc" path then "doc"
  else "pdf".

Definition file_path (request : Request) (response : option Response)
    (info : option MediaInfo) (item : option UConnSyllabusItem) : string :=
  let term_code := fp_term_code item in
  let dept := fp_dept item in
  let number := fp_number item in
  let u := req_url request in
  let file_id := fp_file_id u in
  let ext := fp_ext u in
  term_code ++ "_" ++ dept ++ "_" ++ number ++ "_" ++ file_id ++ "." ++ ext.

End FilesPipeline.

Definition downloaded (results : list media_result) : list file_info :=
  flat_map (fun x => match x with Ok r => [r] | Failure _ => [] end) results.

(** [not adapter.get(field)] *)
Definition falsy (x : option string) : bool :=
  match x with
  | Some s => is_empty s
  | None => true
  end.

Definition set_local (item : UConnSyllabusItem) (filepath filename : option string)
  : UConnSyllabusItem :=
  {| term_name := term_name item;
     class_name := class_name item;
     section := section item;
     instructor := instructor item;
     syllabus_web_url := syllabus_web_url item;
     syllabus_local_filepath := filepath;
     syllabus_local_filename := filename;
     term_code := term_code item;
     file_urls := file_urls item;
     files := files item |}.

Definition item_completed (results : list media_result) (item : UConnSyllabusItem)
    (info : MediaInfo) : UConnSyllabusItem :=
  let store := match FILES_STORE info with Some s => s | None => "syllabi_downloads" end in
  match downloaded results with
  | r :: _ =>
      let rel_path := fi_path r in
      let filename := basename rel_path in
      let local_filepath := path_join store filename in
      set_local item (Some local_filepath) (Some filename)
  | [] =>
      set_local item
        (if falsy (syllabus_local_filepath item) then Some EmptyString
         else syllabus_local_filepath item)
        (if falsy (syllabus_local_filename item) then Some EmptyString
         else syllabus_local_filename item)
  end.

(** The fields written to the CSV and JSON outputs. *)
Definition OUTPUT_FIELDS : list string :=
  ["term_name"; "class_name"; "section"; "instructor"; "syllabus_web_url";
   "syllabus_local_filepath"; "syllabus_local_filename"].

(** [adapter.get(f)] for the fields that hold a string; the two list-valued
    fields are never asked for by the export pipelines. *)
Definition item_field (f : string) (item : UConnSyllabusItem) : option string :=
  if (f =? "term_name")%string then term_name item
  else if (f =? "class_name")%string then class_name item
  else if (f =? "section")%string then section item
  else if (f =? "instructor")%string then instructor item
  else if (f =? "syllabus_web_url")%string then syllabus_web_url item
  else if (f =? "syllabus_local_filepath")%string then syllabus_local_filepath item
  else if (f =? "syllabus_local_filename")%string then syllabus_local_filename item
  else if (f =? "term_code")%string then term_code item
  else None.

(** [{f: adapter.get(f, "") for f in OUTPUT_FIELDS}] *)
Definition export_record (item : UConnSyllabusItem) : dict string :=
  map (fun f => (f, match item_field f item with Some v => v | None => EmptyString end))
      OUTPUT_FIELDS.

(** [CsvExportPipeline]: the state is the rows handed to the CSV writer so
    far, each as its cells in order (quoting and line ends are the
    writer's). *)
Module CsvExportPipeline.

Definition open_spider : list (list string) := [OUTPUT_FIELDS].

(** [DictWriter.writerow(row)]: the cells of [row] in the order of the
    field names, the empty string for a name that is not a key. *)
Definition writerow (fieldnames : list string) (row : dict string) : list string :=
  map (fun f => match dict_get f row with Some v => v | None => EmptyString end)
      fieldnames.

Definition process_item (written : list (list string)) (item : UConnSyllabusItem)
  : list (list string) * UConnSyllabusItem :=
  let row := export_record item in
  ((written ++ [writerow OUTPUT_FIELDS row])%list, item).

End CsvExportPipeline.

(** [JsonExportPipeline]: the state is [self._records]. *)
Module JsonExportPipeline.

Definition open_spider : list (dict string) := [].

Definition process_item (_records : list (dict string)) (item : UConnSyllabusItem)
  : list (dict string) * UConnSyllabusItem :=
  let record := export_record item in
  ((_records ++ [record])%list, item).

(** What [close_spider] dumps, and the record count it logs. *)
Definition close_spider (_records : list (dict string)) : list (dict string) * nat :=
  (_records, List.length _records).

End JsonExportPipeline.

End Pipelines.

(* ====================================================================== *)
(** ** Vocabulary of the statements *)
(* ====================================================================== *)

(** Only whitespace (the empty string included). *)
Definition blank (s : string) : bool := Py.sforall Py.isspace s.

(** No whitespace at all. *)
Definition solid (s : string) : bool :=
  Py.sforall (fun c => negb (Py.isspace c)) s.

Definition starts_solid (s : string) : bool :=
  match s with
  | EmptyString => false
  | String c _ => negb (Py.isspace c)
  end.

Fixpoint ends_solid (s : string) : bool :=
  match s with
  | EmptyString => false
  | String c EmptyString => negb (Py.isspace c)
  | String _ s' => ends_solid s'
  end.

(** The options kept by Term Discovery among those a selector yields: the
    ones whose trimmed value is all digits, each as (value, label), in
    document order. *)
Definition digit_options (options : list option_elem) : list (string * string) :=
  map (fun o => (Spider.opt_value_stripped o, Spider.opt_label o))
      (filter (fun o => Py.isdigit (Spider.opt_value_stripped o)) options).

Definition is_nil {A : Type} (l : list A) : bool :=
  match l with [] => true | _ => false end.

(** Term Discovery as the specification words it: the first selector that
    yields any option element decides the result. *)
Definition term_options_as_specified (response : Response) : list (string * string) :=
  match find (fun sel => negb (is_nil (Spider.css response sel)))
             Spider.selectors_to_try with
  | Some sel => digit_options (Spider.css response sel)
  | None => []
  end.

(** The index of the first element satisfying [p], counted from [i]. *)
Fixpoint find_index {A : Type} (p : A -> bool) (l : list A) (i : nat) : option nat :=
  match l with
  | [] => None
  | x :: l' => if p x then Some i else find_index p l' (S i)
  end.

(** The Column Resolver as the specification words it: the first header
    that contains any of the candidates. *)
Definition col_index_as_specified (hs names : list string) (default : nat) : nat :=
  match find_index (fun h => existsb (fun name => Py.contains name h) names) hs 0 with
  | Some i => i
  | None => default
  end.

(** [i] is the lowest index of a header that contains [name]. *)
Definition first_containing (name : string) (hs : list string) (i : nat) : Prop :=
  (exists h, nth_error hs i = Some h /\ Py.contains name h = true)
  /\ forall j h, j < i -> nth_error hs j = Some h -> Py.contains name h = false.

(** The results table read on the nodes of the page alone: the statements
    about the Row Parser compare the code with this account, which uses no
    helper of the code.

    What a node list stands for: its first node, trimmed, and the empty
    string when there is none.  For a cell these are the text nodes inside
    the cell, in document order. *)
Definition first_node (nodes : list string) : string := Py.strip (hd "" nodes).

(** The whole text of a cell: all its text nodes one after the other,
    trimmed. *)
Definition whole_text (nodes : list string) : string :=
  Py.strip (String.concat "" nodes).

(** The header names of the table: the first text node of each header
    cell, trimmed, in lower case. *)
Definition header_names (response : Response) : list string :=
  map (fun th => Py.lower (first_node th)) (th_texts response).

(** The column resolved for a list of candidate names: take the first
    candidate that occurs in some header; the column is the position of the
    first header that contains it.  Without such a candidate it is the
    default. *)
Definition resolved_column (hs names : list string) (default : nat) : nat :=
  match find (fun name => existsb (Py.contains name) hs) names with
  | Some name =>
      match find_index (Py.contains name) hs 0 with
      | Some i => i
      | None => default
      end
  | None => default
  end.

Definition class_column (hs : list string) : nat := resolved_column hs ["class"] 1.
Definition section_column (hs : list string) : nat := resolved_column hs ["section"] 2.
Definition instructor_column (hs : list string) : nat :=
  resolved_column hs ["instructor"] 3.
Definition link_column (hs : list string) : nat :=
  resolved_column hs ["syllabi"; "syllabus"] 4.

(** The maximum resolved column index. *)
Definition highest_column (hs : list string) : nat :=
  list_max [class_column hs; section_column hs; instructor_column hs; link_column hs].

(** The cell of a row at a column; a cell without nodes past the end of the
    row. *)
Definition cell_of (cells : list cell) (i : nat) : cell :=
  nth i cells {| cell_texts := []; cell_hrefs := [] |}.

(** The rows the Row Parser keeps: the cell count exceeds the maximum
    resolved column index, and the first text node of the class-name cell,
    trimmed, is not empty.  [hs] are the header names. *)
Definition row_kept (hs : list string) (cells : list cell) : bool :=
  (highest_column hs <? List.length cells)%nat
  && negb (Py.is_empty (first_node (cell_texts (cell_of cells (class_column hs))))).

(** The [TableRow] of a kept row: the first text node of the class,
    section and instructor cells and the first link of the link cell, each
    trimmed. *)
Definition row_of (hs : list string) (cells : list cell) : Spider.TableRow :=
  {| Spider.row_class_name := first_node (cell_texts (cell_of cells (class_column hs)));
     Spider.row_section := first_node (cell_texts (cell_of cells (section_column hs)));
     Spider.row_instructor :=
       first_node (cell_texts (cell_of cells (instructor_column hs)));
     Spider.row_href := first_node (cell_hrefs (cell_of cells (link_column hs))) |}.

(** The rows that the specification's words keep: the cell count exceeds the
    maximum resolved column index and the text of the class-name cell is not
    empty. *)
Definition row_kept_as_specified (hs : list string) (cells : list cell) : bool :=
  (highest_column hs <? List.length cells)%nat
  && negb (Py.is_empty (whole_text (cell_texts (cell_of cells (class_column hs))))).

(** A row passes the department filter of the spider. *)
Definition dept_allowed (self : Spider.UConnSyllabiSpider) (row : Spider.TableRow) : bool :=
  negb (Spider.filtered_out (Spider._target_depts self)
          (fst (Spider._split_class (Spider.row_class_name row)))).

Definition is_some {A : Type} (x : option A) : bool :=
  match x with Some _ => true | None => false end.

(** The link of a row resolves: the row has no link, or [response.urljoin]
    returns on it. *)
Definition link_resolves (response : Response) (row : Spider.TableRow) : bool :=
  Py.is_empty (Spider.row_href row)
  || is_some (resp_urljoin response (Spider.row_href row)).

(** The rows of the page that become records: those the Row Parser keeps
    and the department filter lets pass, as [TableRow]s. *)
Definition record_rows (self : Spider.UConnSyllabiSpider) (response : Response)
    (rows : list (list cell)) : list Spider.TableRow :=
  filter (dept_allowed self)
    (map (row_of (header_names response))
         (filter (row_kept (header_names response)) rows)).

(** The requests that end a run of [parse_term_results], and whether the
    run raises there: in [response.urljoin] on the next-page link, or in
    [scrapy.Request] on the next-page URL. *)
Definition next_page_requests `{PyLib} (response : Response)
    (term_code term_name : string) : list Request :=
  match Spider._find_next_page response with
  | Some (Some next_page) =>
      if Py.is_empty next_page then []
      else
        match request_url next_page with
        | Some kept =>
            [ {| req_url := kept;
                 req_headers := [];
                 req_callback := Some parse_term_results_cb;
                 req_cb_kwargs := [("term_code", term_code);
                                   ("term_name", term_name)] |} ]
        | None => []
        end
  | _ => []
  end.

Definition next_page_raises `{PyLib} (response : Response) : bool :=
  match Spider._find_next_page response with
  | None => true
  | Some None => false
  | Some (Some next_page) =>
      negb (Py.is_empty next_page) && negb (is_some (request_url next_page))
  end.

(** The links of the rows [rows] of the page that become records all
    resolve. *)
Definition links_resolve (self : Spider.UConnSyllabiSpider) (response : Response)
    (rows : list (list cell)) : bool :=
  forallb (link_resolves response) (record_rows self response rows).

(** The two local-path fields of a record: both the empty string, or both
    set to a string that is not empty. *)
Definition both_empty (item : UConnSyllabusItem) : Prop :=
  syllabus_local_filepath item = Some ""
  /\ syllabus_local_filename item = Some "".

Definition both_populated (item : UConnSyllabusItem) : Prop :=
  exists p f, syllabus_local_filepath item = Some p
              /\ syllabus_local_filename item = Some f
              /\ p <> "" /\ f <> "".

(** Two records with the same metadata (every field but the two local-path
    fields). *)
Definition same_metadata (a b : UConnSyllabusItem) : Prop :=
  term_name a = term_name b /\ term_code a = term_code b
  /\ class_name a = class_name b /\ section a = section b
  /\ instructor a = instructor b /\ syllabus_web_url a = syllabus_web_url b
  /\ file_urls a = file_urls b /\ files a = files b.

(** A digit or a letter from a to f. *)
Definition lower_hex (c : ascii) : bool := Py.isdecimal c || Py.in_range 97 102 c.

(** [c] occurs in [s]. *)
Definition has_char (c : ascii) (s : string) : bool :=
  Py.contains (String c EmptyString) s.

(** Nothing to trim: [s.strip() == s]. *)
Definition trimmed (s : string) : Prop := Py.strip s = s.

(** Only word characters (letters, digits, underscore). *)
Definition word_only (s : string) : bool := Py.sforall Py.isword s.

(** The items among what a callback yields, and the requests. *)
Definition items_of (out : list output) : list UConnSyllabusItem :=
  flat_map (fun o => match o with YieldItem i => [i] | YieldRequest _ => [] end) out.

Definition requests_of (out : list output) : list Request :=
  flat_map (fun o => match o with YieldRequest r => [r] | YieldItem _ => [] end) out.

(** The first of the links that is set and not empty. *)
Fixpoint first_truthy (links : list (option string)) : option string :=
  match links with
  | [] => None
  | Some l :: rest => if Py.is_empty l then first_truthy rest else Some l
  | None :: rest => first_truthy rest
  end.

(** The items pass through both export pipelines one after the other. *)
Definition export_all (items : list UConnSyllabusItem)
  : list (list string) * list (dict string) :=
  fold_left
    (fun st item =>
       let (written, item1) := Pipelines.CsvExportPipeline.process_item (fst st) item in
       (written, fst (Pipelines.JsonExportPipeline.process_item (snd st) item1)))
    items
    (Pipelines.CsvExportPipeline.open_spider, Pipelines.JsonExportPipeline.open_spider).

(** A term passes the term filter of the spider; the request for a term. *)
Definition term_wanted (self : Spider.UConnSyllabiSpider) (opt : string * string) : bool :=
  negb (Spider.filtered_out (Spider._target_terms self) (fst opt)).

Definition request_of_term `{PyLib} (opt : string * string) : output :=
  YieldRequest
    (Spider.term_request (Spider.TERM_LIST_URL ++ "?term=" ++ fst opt) (fst opt) (snd opt)).

(** The last character of a string. *)
Fixpoint last_char (s : string) : option ascii :=
  match s with
  | EmptyString => None
  | String c EmptyString => Some c
  | String _ s' => last_char s'
  end.

(** How the engine runs a request: the callback of the request is called
    with the response and the keyword arguments of the request.  A request
    without a callback fails, and so does a call whose keyword arguments are
    not exactly the parameters of the callback.  The result is what the
    callback yields when it runs to its end; a run of [parse_term_results]
    that raises has yielded records only, its one request coming last, so
    that no request of a crawl is lost by leaving such runs out. *)
Definition handle `{PyLib} (self : Spider.UConnSyllabiSpider)
    (request : Request) (response : Response) : option (list output) :=
  match req_callback request, req_cb_kwargs request with
  | Some parse_term_list_cb, [] => Some (Spider.parse_term_list self response)
  | Some parse_term_results_cb, [(k1, v1); (k2, v2)] =>
      if (k1 =? "term_code")%string && (k2 =? "term_name")%string
      then Spider.parse_term_results self response v1 v2
      else if (k1 =? "term_name")%string && (k2 =? "term_code")%string
      then Spider.parse_term_results self response v2 v1
      else None
  | _, _ => None
  end.

(** The requests of a crawl: those of [start_requests], and those yielded
    when a request of the crawl is run on whatever response comes back. *)
Inductive crawled `{PyLib} (self : Spider.UConnSyllabiSpider) : Request -> Prop :=
| crawled_start (r : Request) :
    In r (requests_of Spider.start_requests) -> crawled self r
| crawled_next (r r' : Request) (response : Response) (out : list output) :
    crawled self r ->
    handle self r response = Some out ->
    In r' (requests_of out) ->
    crawled self r'.

(** A term code that Term Discovery can return and the term filter of the
    spider lets pass. *)
Definition wanted_code (self : Spider.UConnSyllabiSpider) (code : string) : Prop :=
  Py.isdigit code = true
  /\ forall l, Spider._target_terms self = Some l -> l <> [] -> In code l.

(** A request for the results of a wanted term. *)
Definition term_results_request (self : Spider.UConnSyllabiSpider) (r : Request) : Prop :=
  req_callback r = Some parse_term_results_cb
  /\ exists code label,
       req_cb_kwargs r = [("term_code", code); ("term_name", label)]
       /\ wanted_code self code.

(* ====================================================================== *)
(** ** Pages and records used as examples *)
(* ====================================================================== *)

(** None of the pages has a [<base>] element: [response.urljoin] resolves
    against the URL of the page. *)

(** A term page with two dropdowns: one named [term], outside any form,
    whose only option is a placeholder, and a second one inside a form. *)
Definition two_dropdowns : Response :=
  {| url := "https://syllabus.uconn.edu/public/search_term.php";
     resp_urljoin :=
       Url.urljoin_checked "https://syllabus.uconn.edu/public/search_term.php";
     selects :=
       [ {| sel_name := Some "term"; sel_id := None; sel_in_form := false;
            sel_options := [ {| opt_value := Some "select";
                                opt_texts := ["Select a term"] |} ] |};
         {| sel_name := Some "t"; sel_id := None; sel_in_form := true;
            sel_options := [ {| opt_value := Some "1258";
                                opt_texts := ["Fall 2025"] |} ] |} ];
     th_texts := []; tr_rows := [];
     rel_next_hrefs := []; text_next_hrefs := []; raquo_next_hrefs := [] |}.

(** A spider without filters, in download mode. *)
Definition plain_spider : Spider.UConnSyllabiSpider :=
  Spider.__init__ None None None.

(** A results page whose headers put the syllabus link in the third column
    and the instructor in the fifth; its one row of cells stops after the
    link cell, which holds no anchor. *)
Definition short_row_page : Response :=
  {| url := "https://syllabus.uconn.edu/public/search_term.php?term=1258";
     resp_urljoin :=
       Url.urljoin_checked
         "https://syllabus.uconn.edu/public/search_term.php?term=1258";
     selects := [];
     th_texts := [["Term"]; ["Class"]; ["Syllabi"]; ["Section"]; ["Instructor"]];
     tr_rows := [ [];
                  [ {| cell_texts := ["Fall 2025"]; cell_hrefs := [] |};
                    {| cell_texts := ["CSE 3666"]; cell_hrefs := [] |};
                    {| cell_texts := []; cell_hrefs := [] |} ] ];
     rel_next_hrefs := []; text_next_hrefs := []; raquo_next_hrefs := [] |}.

(** A results page with the site's headers: a row without a link, the
    separator row the site inserts, and a row with a link. *)
Definition results_page : Response :=
  {| url := "https://syllabus.uconn.edu/public/search_term.php?term=1258";
     resp_urljoin :=
       Url.urljoin_checked
         "https://syllabus.uconn.edu/public/search_term.php?term=1258";
     selects := [];
     th_texts := [["Term"]; ["Class"]; ["Section"]; ["Instructor"]; ["Syllabi"]];
     tr_rows :=
       [ [];
         [ {| cell_texts := ["Fall 2025"]; cell_hrefs := [] |};
           {| cell_texts := ["MATH 1131Q"]; cell_hrefs := [] |};
           {| cell_texts := ["002"]; cell_hrefs := [] |};
           {| cell_texts := ["A. Teacher"]; cell_hrefs := [] |};
           {| cell_texts := []; cell_hrefs := [] |} ];
         [];
         [ {| cell_texts := ["Fall 2025"]; cell_hrefs := [] |};
           {| cell_texts := [" CSE 3666 "]; cell_hrefs := [] |};
           {| cell_texts := ["001"]; cell_hrefs := [] |};
           {| cell_texts := ["Zhijie Shi"]; cell_hrefs := [] |};
           {| cell_texts := []; cell_hrefs := ["download.php?file=10|abc"] |} ] ];
     rel_next_hrefs := []; text_next_hrefs := []; raquo_next_hrefs := [] |}.

(** The rows of [results_page] as the Row Parser yields them. *)
Definition results_page_rows : list Spider.TableRow :=
  [ {| Spider.row_class_name := "MATH 1131Q"; Spider.row_section := "002";
       Spider.row_instructor := "A. Teacher"; Spider.row_href := "" |};
    {| Spider.row_class_name := "CSE 3666"; Spider.row_section := "001";
       Spider.row_instructor := "Zhijie Shi";
       Spider.row_href := "download.php?file=10|abc" |} ].

(** A results page whose one row has five cells; the class-name cell holds
    a link, so that its first text node is the blank before the link and the
    class name comes second: [<td> <a href="c.php">CSE 3666</a></td>].  The
    syllabus cell holds no link. *)
Definition blank_node_page : Response :=
  {| url := "https://syllabus.uconn.edu/public/search_term.php?term=1258";
     resp_urljoin :=
       Url.urljoin_checked
         "https://syllabus.uconn.edu/public/search_term.php?term=1258";
     selects := [];
     th_texts := [["Term"]; ["Class"]; ["Section"]; ["Instructor"]; ["Syllabi"]];
     tr_rows :=
       [ [ {| cell_texts := ["Fall 2025"]; cell_hrefs := [] |};
           {| cell_texts := [" "; "CSE 3666"]; cell_hrefs := ["c.php"] |};
           {| cell_texts := ["001"]; cell_hrefs := [] |};
           {| cell_texts := ["Zhijie Shi"]; cell_hrefs := [] |};
           {| cell_texts := []; cell_hrefs := [] |} ] ];
     rel_next_hrefs := []; text_next_hrefs := []; raquo_next_hrefs := [] |}.

(** A results page whose first row links to [//[x], on which
    [response.urljoin] raises [ValueError] (a host with an opening bracket
    and no closing one), and whose second row has no link. *)
Definition broken_link_page : Response :=
  {| url := "https://syllabus.uconn.edu/public/search_term.php?term=1258";
     resp_urljoin :=
       Url.urljoin_checked
         "https://syllabus.uconn.edu/public/search_term.php?term=1258";
     selects := [];
     th_texts := [["Term"]; ["Class"]; ["Section"]; ["Instructor"]; ["Syllabi"]];
     tr_rows :=
       [ [ {| cell_texts := ["Fall 2025"]; cell_hrefs := [] |};
           {| cell_texts := ["CSE 3666"]; cell_hrefs := [] |};
           {| cell_texts := ["001"]; cell_hrefs := [] |};
           {| cell_texts := ["Zhijie Shi"]; cell_hrefs := [] |};
           {| cell_texts := []; cell_hrefs := ["//[x"] |} ];
         [ {| cell_texts := ["Fall 2025"]; cell_hrefs := [] |};
           {| cell_texts := ["MATH 1131Q"]; cell_hrefs := [] |};
           {| cell_texts := ["002"]; cell_hrefs := [] |};
           {| cell_texts := ["A. Teacher"]; cell_hrefs := [] |};
           {| cell_texts := []; cell_hrefs := [] |} ] ];
     rel_next_hrefs := []; text_next_hrefs := []; raquo_next_hrefs := [] |}.

(** [results_page] with a link to a next page whose query holds a space,
    and with the two data rows in the other order. *)
Definition paged_results : Response :=
  {| url := "https://syllabus.uconn.edu/public/search_term.php?term=1258";
     resp_urljoin :=
       Url.urljoin_checked
         "https://syllabus.uconn.edu/public/search_term.php?term=1258";
     selects := [];
     th_texts := [["Term"]; ["Class"]; ["Section"]; ["Instructor"]; ["Syllabi"]];
     tr_rows :=
       [ [ {| cell_texts := ["Fall 2025"]; cell_hrefs := [] |};
           {| cell_texts := [" CSE 3666 "]; cell_hrefs := [] |};
           {| cell_texts := ["001"]; cell_hrefs := [] |};
           {| cell_texts := ["Zhijie Shi"]; cell_hrefs := [] |};
           {| cell_texts := []; cell_hrefs := ["download.php?file=10|abc"] |} ];
         [ {| cell_texts := ["Fall 2025"]; cell_hrefs := [] |};
           {| cell_texts := ["MATH 1131Q"]; cell_hrefs := [] |};
           {| cell_texts := ["002"]; cell_hrefs := [] |};
           {| cell_texts := ["A. Teacher"]; cell_hrefs := [] |};
           {| cell_texts := []; cell_hrefs := [] |} ] ];
     rel_next_hrefs := [];
     text_next_hrefs := ["search_term.php?term=1258&page=2&sort=class name"];
     raquo_next_hrefs := [] |}.

(** A page without rows whose next-page link is a script link. *)
Definition script_link_page : Response :=
  {| url := "https://syllabus.uconn.edu/public/search_term.php?term=1258";
     resp_urljoin :=
       Url.urljoin_checked
         "https://syllabus.uconn.edu/public/search_term.php?term=1258";
     selects := [];
     th_texts := []; tr_rows := [];
     rel_next_hrefs := ["javascript:next()"];
     text_next_hrefs := []; raquo_next_hrefs := [] |}.

(** The record of the second row of [results_page], and the results of
    its download: a failed attempt and a finished one. *)
Definition cse_item : UConnSyllabusItem :=
  {| term_name := Some "Fall 2025";
     class_name := Some "CSE 3666";
     section := Some "001";
     instructor := Some "Zhijie Shi";
     syllabus_web_url :=
       Some "https://syllabus.uconn.edu/public/download.php?file=10%7Cabc";
     syllabus_local_filepath := Some "";
     syllabus_local_filename := Some "";
     term_code := Some "1258";
     file_urls :=
       Some ["https://syllabus.uconn.edu/public/download.php?file=10%7Cabc"];
     files := Some [] |}.

Definition cse_results : list Pipelines.media_result :=
  [ Pipelines.Failure "timeout";
    Pipelines.Ok {| Pipelines.fi_url :=
                      "https://syllabus.uconn.edu/public/download.php?file=10%7Cabc";
                    Pipelines.fi_path := "1258_CSE_3666_10.pdf";
                    Pipelines.fi_checksum := "";
                    Pipelines.fi_status := "downloaded" |} ].

(** The record of the first data row of [results_page], and what
    [parse_term_results] yields for the page without filters. *)
Definition math_item : UConnSyllabusItem :=
  {| term_name := Some "Fall 2025";
     class_name := Some "MATH 1131Q";
     section := Some "002";
     instructor := Some "A. Teacher";
     syllabus_web_url := Some "";
     syllabus_local_filepath := Some "";
     syllabus_local_filename := Some "";
     term_code := Some "1258";
     file_urls := Some [];
     files := Some [] |}.

Definition results_page_out : list output := [YieldItem math_item; YieldItem cse_item].

(** What [parse_term_results] yields for [paged_results]: the two records,
    then the request for the next page, the space of its link encoded. *)
Definition paged_results_out : list output :=
  [ YieldItem cse_item; YieldItem math_item;
    YieldRequest
      {| req_url :=
           "https://syllabus.uconn.edu/public/search_term.php?term=1258&page=2&sort=class%20name";
         req_headers := [];
         req_callback := Some parse_term_results_cb;
         req_cb_kwargs := [("term_code", "1258"); ("term_name", "Fall 2025")] |} ].

(** A record with a given class name. *)
Definition item_of_class (cn : option string) : UConnSyllabusItem :=
  {| term_name := Some "Fall 2025"; class_name := cn;
     section := Some "001"; instructor := Some "Zhijie Shi";
     syllabus_web_url := Some ""; syllabus_local_filepath := Some "";
     syllabus_local_filename := Some ""; term_code := Some "1258";
     file_urls := Some []; files := Some [] |}.

(* ====================================================================== *)
(** ** The model on known values *)
(* ====================================================================== *)

Example sha1_abc : SHA1.hexdigest "abc" = "a9993e364706816aba3e25717850c26c9cd0d89d".
Proof. vm_compute. reflexivity. Qed.
Example sha1_empty : SHA1.hexdigest "" = "da39a3ee5e6b4b0d3255bfef95601890afd80709".
Proof. vm_compute. reflexivity. Qed.
Example sha1_two_blocks : SHA1.hexdigest "abcdbcdecdefdefgefghfghighijhijkijkljklmklmnlmnomnopnopq" = "84983e441c3bd26ebaae4aa1f95129e5e54670f1".
Proof. vm_compute. reflexivity. Qed.

Example split_none_1_example : Py.split_none_1 "  CSE   3666 Honors " = ["CSE"; "3666 Honors "].
Proof. reflexivity. Qed.
Example strip_example : Py.strip "  a b  " = "a b". Proof. reflexivity. Qed.
Example replace_example : Py.replace "%7C" "|" "12%7Cab%7C%7" = "12|ab|%7". Proof. reflexivity. Qed.
Example split_example : Py.split "|" "12|ab|" = ["12"; "ab"; ""]. Proof. reflexivity. Qed.
Example basename_example : Py.basename "a/b/c.pdf" = "c.pdf" /\ Py.basename "a/" = "" /\ Py.basename "x" = "x". Proof. repeat split. Qed.
Example upper_lower_example : Py.upper "cse_1a" = "CSE_1A" /\ Py.lower "A Zz" = "a zz". Proof. repeat split. Qed.
Example path_join_example : Py.path_join "syllabi_downloads" "a.pdf" = "syllabi_downloads/a.pdf". Proof. reflexivity. Qed.
Example replace_overlap_example : Py.replace "" "-" "abc" = "-a-b-c-" /\ Py.replace "aa" "b" "aaa" = "ba". Proof. repeat split. Qed.
Example urljoin_relative : Url.urljoin "https://syllabus.uconn.edu/public/search_term.php?term=1258" "download.php?file=10|abc" = "https://syllabus.uconn.edu/public/download.php?file=10|abc".
Proof. vm_compute. reflexivity. Qed.
Example urljoin_dots : Url.urljoin "https://syllabus.uconn.edu/public/search_term.php?term=1258" "../x/./y.pdf" = "https://syllabus.uconn.edu/x/y.pdf".
Proof. vm_compute. reflexivity. Qed.
Example urljoin_rooted : Url.urljoin "https://syllabus.uconn.edu/public/search_term.php?term=1258" "/a" = "https://syllabus.uconn.edu/a".
Proof. vm_compute. reflexivity. Qed.
Example urljoin_absolute : Url.urljoin "https://syllabus.uconn.edu/public/search_term.php?term=1258" "http://x.org/a" = "http://x.org/a".
Proof. vm_compute. reflexivity. Qed.
Example urljoin_query : Url.urljoin "https://syllabus.uconn.edu/public/search_term.php?term=1258" "?term=3" = "https://syllabus.uconn.edu/public/search_term.php?term=3".
Proof. vm_compute. reflexivity. Qed.
Example parse_qs_example : parse_qs "file=12%7Cab&x=&file=3+4&y" = [("file", ["12|ab"; "3 4"])].
Proof. vm_compute. reflexivity. Qed.
Example urlparse_example : Url.urlparse "https://h.org/a/b.DOCX;p?q=1#f" = {| scheme := "https"; netloc := "h.org"; path := "/a/b.DOCX"; params := "p"; query := "q=1"; fragment := "f" |}.
Proof. vm_compute. reflexivity. Qed.
Example file_path_with_id : Pipelines.file_path {| req_url := "https://syllabus.uconn.edu/public/download.php?file=10%7Cabc"; req_headers := []; req_callback := None; req_cb_kwargs := [] |} None None
  (Some {| term_name := Some "Fall 2025"; class_name := Some "CSE 3666"; section := None; instructor := None; syllabus_web_url := None;
     syllabus_local_filepath := None; syllabus_local_filename := None; term_code := Some "1258"; file_urls := None; files := None |}) = "1258_CSE_3666_10.pdf".
Proof. vm_compute. reflexivity. Qed.
Example file_path_without_item : Pipelines.file_path {| req_url := "https://syllabus.uconn.edu/public/download.php?file=1410"; req_headers := []; req_callback := None; req_cb_kwargs := [] |} None None
  None = "0000_UNKNOWN_0_27c05358d5fa.pdf".
Proof. vm_compute. reflexivity. Qed.

Example urljoin_one_bracket : Url.urljoin_checked "https://syllabus.uconn.edu/public/search_term.php?term=1258" "//[x" = None.
Proof. vm_compute. reflexivity. Qed.
Example urljoin_mailto : Url.urljoin_checked "https://syllabus.uconn.edu/public/search_term.php?term=1258" "mailto:registrar@uconn.edu" = Some "mailto:registrar@uconn.edu".
Proof. vm_compute. reflexivity. Qed.
Example request_url_term : Scrapy.request_url "https://syllabus.uconn.edu/public/search_term.php?term=1258" = Some "https://syllabus.uconn.edu/public/search_term.php?term=1258".
Proof. vm_compute. reflexivity. Qed.
Example request_url_space : Scrapy.request_url "https://syllabus.uconn.edu/public/a b.php?x=y z#f g" = Some "https://syllabus.uconn.edu/public/a%20b.php?x=y%20z#f%20g".
Proof. vm_compute. reflexivity. Qed.
Example request_url_pipe : Scrapy.request_url "https://syllabus.uconn.edu/public/download.php?file=10|abc" = Some "https://syllabus.uconn.edu/public/download.php?file=10%7Cabc".
Proof. vm_compute. reflexivity. Qed.
Example request_url_encoded : Scrapy.request_url "https://syllabus.uconn.edu/public/download.php?file=10%7Cabc" = Some "https://syllabus.uconn.edu/public/download.php?file=10%7Cabc".
Proof. vm_compute. reflexivity. Qed.
Example request_url_host : Scrapy.request_url " HTTP://Syllabus.UConn.edu:0443/Public/x'y?q='1' " = Some "http://syllabus.uconn.edu:443/Public/x'y?q=%271%27".
Proof. vm_compute. reflexivity. Qed.
Example request_url_mailto : Scrapy.request_url "mailto:registrar@uconn.edu" = None.
Proof. vm_compute. reflexivity. Qed.
Example request_url_script : Scrapy.request_url "javascript:void(0)" = None.
Proof. vm_compute. reflexivity. Qed.
Example request_url_relative : Scrapy.request_url "search_term.php?term=1258" = None.
Proof. vm_compute. reflexivity. Qed.
Example request_url_port : Scrapy.request_url "https://syllabus.uconn.edu:https/" = None.
Proof. vm_compute. reflexivity. Qed.

(** Runs that raise: on [broken_link_page] at the link of the first row,
    with nothing yielded; on [script_link_page] at the request for the next
    page. *)
Example broken_link_run :
  Spider.parse_term_results_run plain_spider broken_link_page "1258" "Fall 2025"
  = {| Spider.yielded := []; Spider.raised := true |}.
Proof. vm_compute. reflexivity. Qed.
Example script_link_run :
  Spider.parse_term_results_run plain_spider script_link_page "1258" "Fall 2025"
  = {| Spider.yielded := []; Spider.raised := true |}.
Proof. vm_compute. reflexivity. Qed.
Example paged_results_run :
  Spider.parse_term_results plain_spider paged_results "1258" "Fall 2025"
  = Some paged_results_out.
Proof. vm_compute. reflexivity. Qed.

(** The scenario of the specification: one data row and one row of empty
    cells under term 1258. *)
Example one_data_row :
  let page :=
    {| url := "https://syllabus.uconn.edu/public/search_term.php?term=1258";
       resp_urljoin :=
         Url.urljoin_checked
           "https://syllabus.uconn.edu/public/search_term.php?term=1258";
       selects := [];
       th_texts := [["Term"]; ["Class"]; ["Section"]; ["Instructor"]; ["Syllabi"]];
       tr_rows :=
         [ [ {| cell_texts := ["Fall 2025"]; cell_hrefs := [] |};
             {| cell_texts := ["CSE 3666"]; cell_hrefs := [] |};
             {| cell_texts := ["001"]; cell_hrefs := [] |};
             {| cell_texts := ["Zhijie Shi"]; cell_hrefs := [] |};
             {| cell_texts := []; cell_hrefs := ["download.php?file=10|abc"] |} ];
           [ {| cell_texts := [""]; cell_hrefs := [] |};
             {| cell_texts := [""]; cell_hrefs := [] |};
             {| cell_texts := [""]; cell_hrefs := [] |};
             {| cell_texts := [""]; cell_hrefs := [] |};
             {| cell_texts := [""]; cell_hrefs := [] |} ] ];
       rel_next_hrefs := []; text_next_hrefs := []; raquo_next_hrefs := [] |} in
  Spider.parse_term_results plain_spider page "1258" "Fall 2025"
    = Some [YieldItem cse_item]
  /\ Spider.parse_term_results (Spider.__init__ None (Some "MATH") None)
       page "1258" "Fall 2025" = Some []
  /\ option_map (map (fun r => Pipelines.file_path r None None (Some cse_item)))
         (Pipelines.get_media_requests cse_item) = Some ["1258_CSE_3666_10.pdf"].
Proof. vm_compute. repeat split. Qed.

(* ====================================================================== *)
(** ** Strings: appending, trimming, splitting *)
(* ====================================================================== *)

Ltac splits := repeat match goal with |- _ /\ _ => split end.

Section StringFacts.
Import Py.

Lemma append_assoc (a b c : string) : (a ++ b) ++ c = a ++ (b ++ c).
Proof. induction a as [|x a IH]; simpl; [reflexivity | now rewrite IH]. Qed.

Lemma append_nil_r (a : string) : a ++ "" = a.
Proof. induction a as [|x a IH]; simpl; [reflexivity | now rewrite IH]. Qed.

Lemma is_empty_true (s : string) : is_empty s = true <-> s = "".
Proof. destruct s; simpl; split; congruence. Qed.

Lemma is_empty_false (s : string) : is_empty s = false <-> s <> "".
Proof. destruct s; simpl; split; congruence. Qed.

Lemma lstrip_blank_app (l s : string) : blank l = true -> lstrip (l ++ s) = lstrip s.
Proof.
  induction l as [|c l IH]; simpl; intros Hb; [reflexivity|].
  apply andb_true_iff in Hb as [Hc Hl]. rewrite Hc. now apply IH.
Qed.

Lemma lstrip_starts_solid (s : string) : starts_solid s = true -> lstrip s = s.
Proof.
  destruct s as [|c s]; simpl; [discriminate|].
  intros Hc. apply negb_true_iff in Hc. now rewrite Hc.
Qed.

Lemma rstrip_blank (s : string) : blank s = true -> rstrip s = "".
Proof.
  induction s as [|c s IH]; simpl; intros Hb; [reflexivity|].
  apply andb_true_iff in Hb as [Hc Hs]. now rewrite (IH Hs), Hc.
Qed.

Lemma rstrip_app_blank (s r : string) : blank r = true -> rstrip (s ++ r) = rstrip s.
Proof.
  intros Hr. induction s as [|c s IH]; simpl.
  - now apply rstrip_blank.
  - now rewrite IH.
Qed.

Lemma rstrip_ends_solid (s : string) : ends_solid s = true -> rstrip s = s.
Proof.
  induction s as [|c s IH]; [discriminate|].
  destruct s as [|d s].
  - simpl. intros Hc. apply negb_true_iff in Hc. now rewrite Hc.
  - intros Hs. change (ends_solid (String d s) = true) in Hs.
    change (rstrip (String c (String d s)))
      with (let r := rstrip (String d s) in
            if isspace c && is_empty r then "" else String c r).
    rewrite (IH Hs). simpl. now rewrite andb_false_r.
Qed.

Lemma ends_solid_app (a s : string) : ends_solid s = true -> ends_solid (a ++ s) = true.
Proof.
  intros Hs. induction a as [|c a IH]; simpl; [exact Hs|].
  destruct (a ++ s) eqn:E; [|exact IH].
  destruct a; simpl in E; [subst s|]; discriminate.
Qed.

Lemma starts_solid_app (s t : string) : starts_solid s = true -> starts_solid (s ++ t) = true.
Proof. destruct s; simpl; [discriminate | trivial]. Qed.

Lemma solid_starts (s : string) : solid s = true -> s <> "" -> starts_solid s = true.
Proof.
  destruct s as [|c s]; simpl; [congruence|].
  intros Hs _. now apply andb_true_iff in Hs as [Hc _].
Qed.

Lemma token_solid_app (x r : string) :
  solid x = true -> starts_solid r = false -> token (x ++ r) = (x, r).
Proof.
  intros Hx Hr. induction x as [|c x IH]; simpl.
  - destruct r as [|d r]; simpl in *; [reflexivity|].
    apply negb_false_iff in Hr. now rewrite Hr.
  - simpl in Hx. apply andb_true_iff in Hx as [Hc Hx].
    apply negb_true_iff in Hc. rewrite Hc, (IH Hx). reflexivity.
Qed.

Lemma blank_not_starts_solid (w : string) : blank w = true -> starts_solid w = false.
Proof.
  destruct w as [|c w]; simpl; [reflexivity|].
  intros Hb. apply andb_true_iff in Hb as [Hc _]. now rewrite Hc.
Qed.

Lemma blank_app_not_starts_solid (w y : string) :
  blank w = true -> w <> "" -> starts_solid (w ++ y) = false.
Proof.
  destruct w as [|c w]; simpl; [congruence|].
  intros Hb _. apply andb_true_iff in Hb as [Hc _]. now rewrite Hc.
Qed.

(** Trimming a word padded with blanks gives the word. *)
Lemma strip_padded (l s r : string) :
  blank l = true -> blank r = true ->
  starts_solid s = true -> ends_solid s = true ->
  strip (l ++ s ++ r) = s.
Proof.
  intros Hl Hr Hs He. unfold strip.
  rewrite <- append_assoc, (rstrip_app_blank _ _ Hr).
  rewrite (rstrip_ends_solid _ (ends_solid_app _ _ He)).
  rewrite (lstrip_blank_app _ _ Hl). now apply lstrip_starts_solid.
Qed.

Lemma strip_blank (s : string) : blank s = true -> strip s = "".
Proof. intros Hs. unfold strip. now rewrite (rstrip_blank _ Hs). Qed.

Lemma solid_ends (s : string) : solid s = true -> s <> "" -> ends_solid s = true.
Proof.
  induction s as [|c s IH]; [congruence|].
  intros Hs _. simpl in Hs. apply andb_true_iff in Hs as [Hc Hs].
  destruct s as [|d s]; [exact Hc|].
  change (ends_solid (String d s) = true). apply IH; [exact Hs | discriminate].
Qed.

(** [split(None, 1)] of a trimmed string with two parts, with one part. *)
Lemma split_none_1_two (x w y : string) :
  solid x = true -> x <> "" -> blank w = true -> w <> "" ->
  starts_solid y = true ->
  split_none_1 (x ++ w ++ y) = [x; y].
Proof.
  intros Hx Hx0 Hw Hw0 Hy. unfold split_none_1.
  rewrite (lstrip_starts_solid (x ++ w ++ y))
    by (apply starts_solid_app; now apply solid_starts).
  destruct (x ++ w ++ y) eqn:E.
  - destruct x; [congruence | discriminate].
  - rewrite <- E.
    rewrite (token_solid_app x (w ++ y) Hx (blank_app_not_starts_solid w y Hw Hw0)).
    rewrite (lstrip_blank_app _ _ Hw), (lstrip_starts_solid _ Hy).
    destruct y; [discriminate | reflexivity].
Qed.

Lemma split_none_1_one (x : string) :
  solid x = true -> x <> "" -> split_none_1 x = [x].
Proof.
  intros Hx Hx0. unfold split_none_1.
  rewrite (lstrip_starts_solid x) by now apply solid_starts.
  pose proof (token_solid_app x "" Hx eq_refl) as T. rewrite append_nil_r in T.
  destruct x as [|c x']; [congruence|]. rewrite T. reflexivity.
Qed.

End StringFacts.

(* ====================================================================== *)
(** ** The Class-Name Splitter *)
(* ====================================================================== *)

Section SplitClass.
Import Py Spider.

Lemma split_class_two (l x w y r : string) :
  blank l = true -> blank r = true ->
  solid x = true -> x <> "" -> blank w = true -> w <> "" ->
  starts_solid y = true -> ends_solid y = true ->
  _split_class (l ++ x ++ w ++ y ++ r) = (upper x, y).
Proof.
  intros Hl Hr Hx Hx0 Hw Hw0 Hy He. unfold _split_class.
  replace (l ++ x ++ w ++ y ++ r) with (l ++ (x ++ w ++ y) ++ r)
    by now rewrite !append_assoc.
  rewrite strip_padded; trivial.
  - now rewrite split_none_1_two.
  - apply starts_solid_app. now apply solid_starts.
  - rewrite <- append_assoc. now apply ends_solid_app.
Qed.

Lemma split_class_one (l x r : string) :
  blank l = true -> blank r = true -> solid x = true -> x <> "" ->
  _split_class (l ++ x ++ r) = (upper x, "").
Proof.
  intros Hl Hr Hx Hx0. unfold _split_class.
  rewrite strip_padded; trivial.
  - now rewrite split_none_1_one.
  - now apply solid_starts.
  - now apply solid_ends.
Qed.

Lemma split_class_blank (s : string) :
  blank s = true -> _split_class s = ("", "").
Proof. intros Hs. unfold _split_class. now rewrite strip_blank. Qed.

Lemma blank_app (a b : string) : blank (a ++ b) = blank a && blank b.
Proof.
  unfold blank. induction a as [|c a IH]; simpl; [reflexivity|].
  now rewrite IH, andb_assoc.
Qed.

Lemma blank_cons (c : ascii) (s : string) : blank (String c s) = isspace c && blank s.
Proof. reflexivity. Qed.

Lemma lstrip_split (s : string) : exists l, blank l = true /\ s = l ++ lstrip s.
Proof.
  induction s as [|c s [l [Hl Es]]]; [now exists ""|].
  simpl. destruct (isspace c) eqn:Hc.
  - exists (String c l). rewrite blank_cons, Hc, Hl. simpl. now rewrite <- Es.
  - now exists "".
Qed.

Lemma lstrip_shape (s : string) : lstrip s = "" \/ starts_solid (lstrip s) = true.
Proof.
  induction s as [|c s IH]; [now left|].
  simpl. destruct (isspace c) eqn:Hc; [exact IH|].
  right. simpl. now rewrite Hc.
Qed.

Lemma rstrip_split (s : string) : exists r, blank r = true /\ s = rstrip s ++ r.
Proof.
  induction s as [|c s [r [Hr Es]]]; [now exists ""|].
  simpl. destruct (isspace c && is_empty (rstrip s)) eqn:Hc.
  - apply andb_true_iff in Hc as [Hc He]. apply is_empty_true in He.
    exists (String c r). rewrite He in Es. simpl in Es.
    rewrite blank_cons, Hc, Hr. simpl. now rewrite <- Es.
  - exists r. split; [exact Hr | simpl; now rewrite <- Es].
Qed.

Lemma rstrip_shape (s : string) : rstrip s = "" \/ ends_solid (rstrip s) = true.
Proof.
  induction s as [|c s IH]; [now left|].
  simpl. destruct (rstrip s) as [|d t] eqn:E; simpl.
  - rewrite andb_true_r. destruct (isspace c) eqn:Hc; [now left|].
    right. simpl. now rewrite Hc.
  - rewrite andb_false_r. right.
    destruct IH as [IH|IH]; [discriminate | exact IH].
Qed.

Lemma token_split (s x rest : string) :
  token s = (x, rest) ->
  s = x ++ rest /\ solid x = true /\ starts_solid rest = false.
Proof.
  revert x rest. induction s as [|c s IH]; intros x rest Et; simpl in Et.
  - injection Et as <- <-. now repeat split.
  - destruct (isspace c) eqn:Hc.
    + injection Et as <- <-. repeat split. simpl. now rewrite Hc.
    + destruct (token s) as [t r0]. injection Et as <- <-.
      destruct (IH t r0 eq_refl) as [Es [Ht Hr]].
      repeat split; [simpl; now rewrite <- Es | | exact Hr].
      unfold solid in *. simpl. now rewrite Hc, Ht.
Qed.

Lemma ends_solid_suffix (a b : string) :
  ends_solid (a ++ b) = true -> b <> "" -> ends_solid b = true.
Proof.
  intros He Hb. induction a as [|c a IH]; [exact He|].
  apply IH. change (String c a ++ b) with (String c (a ++ b)) in He.
  destruct (a ++ b) eqn:E; [|exact He].
  destruct a; simpl in E; [congruence | discriminate].
Qed.

Lemma blank_not_ends_solid (s : string) : blank s = true -> ends_solid s = false.
Proof.
  induction s as [|c s IH]; [reflexivity|].
  rewrite blank_cons. intros Hb. apply andb_true_iff in Hb as [Hc Hs].
  destruct s as [|d s]; [simpl; now rewrite Hc | now apply IH].
Qed.

(** Every string has one of the three forms: blank; one token; or a token,
    a whitespace run and a trimmed remainder; with blanks around. *)
Lemma split_class_forms_cover (s : string) :
  blank s = true
  \/ (exists l x r,
        s = l ++ x ++ r /\ blank l = true /\ blank r = true
        /\ solid x = true /\ x <> "")
  \/ (exists l x w y r,
        s = l ++ x ++ w ++ y ++ r /\ blank l = true /\ blank r = true
        /\ solid x = true /\ x <> "" /\ blank w = true /\ w <> ""
        /\ starts_solid y = true /\ ends_solid y = true).
Proof.
  destruct (rstrip_split s) as [r [Hr Es]].
  destruct (lstrip_split (rstrip s)) as [l [Hl El]].
  destruct (lstrip_shape (rstrip s)) as [Hm|Hm].
  { left. rewrite Es, El, Hm, append_nil_r, blank_app, Hl, Hr. reflexivity. }
  right. remember (lstrip (rstrip s)) as m eqn:Dm.
  assert (Hm0 : m <> "") by (intros E; rewrite E in Hm; discriminate).
  assert (Hme : ends_solid m = true).
  { destruct (rstrip_shape s) as [E|E].
    - rewrite E in El. destruct l; [simpl in El; congruence | discriminate].
    - rewrite El in E. now apply ends_solid_suffix in E. }
  destruct (token m) as [x rest] eqn:Et.
  destruct (token_split m x rest Et) as [Em [Hx Hrest]].
  assert (Hx0 : x <> "").
  { intros E. rewrite E in Em. simpl in Em. rewrite <- Em in Hrest. congruence. }
  destruct (string_dec rest "") as [Erest|Hrest0].
  - left. exists l, x, r. rewrite Erest, append_nil_r in Em.
    repeat split; trivial. rewrite Es, El, Em. now rewrite append_assoc.
  - right.
    destruct (lstrip_split rest) as [w [Hw Ew]].
    remember (lstrip rest) as y eqn:Dy.
    assert (Hre : ends_solid rest = true).
    { rewrite Em in Hme. now apply ends_solid_suffix in Hme. }
    assert (Hy0 : y <> "").
    { intros E. rewrite E, append_nil_r in Ew. rewrite Ew in Hre.
      rewrite (blank_not_ends_solid w Hw) in Hre. discriminate. }
    assert (Hys : starts_solid y = true).
    { destruct (lstrip_shape rest) as [E|E]; rewrite <- Dy in E; [congruence | exact E]. }
    assert (Hw0 : w <> "").
    { intros E. rewrite E in Ew. simpl in Ew. rewrite Ew in Hrest. congruence. }
    assert (Hye : ends_solid y = true).
    { rewrite Ew in Hre. now apply ends_solid_suffix in Hre. }
    exists l, x, w, y, r. repeat split; trivial.
    rewrite Es, El, Em, Ew. now rewrite !append_assoc.
Qed.

End SplitClass.

(** C7. The Class-Name Splitter on its three forms of input.  For a first
    token [x] (no whitespace, not empty), a whitespace run [w] (not empty)
    and a remainder [y] that begins and ends with a character other than
    whitespace, the input [x w y] gives [(upper x, y)]; the single token [x]
    gives [(upper x, "")]; an input [s] that is empty or only whitespace
    gives [("", "")].  Blanks [l] before and [r] after the input change
    nothing (take both empty for the forms as the specification writes them). *)
Theorem split_class_forms (l x w y r s : string) :
  blank l = true -> blank r = true ->
  solid x = true -> x <> "" ->
  blank w = true -> w <> "" ->
  starts_solid y = true -> ends_solid y = true ->
  blank s = true ->
  Spider._split_class (l ++ x ++ w ++ y ++ r) = (Py.upper x, y)
  /\ Spider._split_class (x ++ w ++ y) = (Py.upper x, y)
  /\ Spider._split_class (l ++ x ++ r) = (Py.upper x, "")
  /\ Spider._split_class x = (Py.upper x, "")
  /\ Spider._split_class s = ("", "").
Proof.
  intros Hl Hr Hx Hx0 Hw Hw0 Hy He Hs. repeat split.
  - now apply split_class_two.
  - pose proof (split_class_two "" x w y "" eq_refl eq_refl Hx Hx0 Hw Hw0 Hy He) as T.
    simpl in T. now rewrite append_nil_r in T.
  - now apply split_class_one.
  - pose proof (split_class_one "" x "" eq_refl eq_refl Hx Hx0) as T.
    simpl in T. now rewrite append_nil_r in T.
  - now apply split_class_blank.
Qed.

Lemma split_class_forms_witness :
  Spider._split_class "  cse   3666 Honors " = ("CSE", "3666 Honors")
  /\ Spider._split_class "cse   3666 Honors" = ("CSE", "3666 Honors")
  /\ Spider._split_class "  cse " = ("CSE", "")
  /\ Spider._split_class "cse" = ("CSE", "")
  /\ Spider._split_class "   " = ("", "").
Proof.
  apply (split_class_forms "  " "cse" "   " "3666 Honors" " " "   ");
    solve [reflexivity | discriminate].
Defined.

(* ====================================================================== *)
(** ** Term Discovery *)
(* ====================================================================== *)

Section TermDiscovery.
Import Py Spider.

Lemma option_loop (options : list option_elem) (results : list (string * string)) :
  fold_left option_step options results = (results ++ digit_options options)%list.
Proof.
  revert results. induction options as [|o options IH]; intros results; simpl.
  - now rewrite app_nil_r.
  - rewrite IH. unfold option_step, digit_options. simpl.
    destruct (isdigit (opt_value_stripped o)); simpl; [|reflexivity].
    now rewrite <- app_assoc.
Qed.

Lemma try_selectors_find (response : Response) (sels : list selector) :
  try_selectors response sels =
  match find (fun sel => negb (is_nil (digit_options (css response sel)))) sels with
  | Some sel => digit_options (css response sel)
  | None => []
  end.
Proof.
  induction sels as [|sel sels IH]; simpl; [reflexivity|].
  destruct (css response sel) as [|o options] eqn:E.
  - simpl. exact IH.
  - rewrite option_loop. simpl app.
    destruct (digit_options (o :: options)) eqn:D; simpl; [exact IH | now rewrite E, D].
Qed.

End TermDiscovery.

(** C1, as stated, fails: on [two_dropdowns] the first selector yields an
    option element, none with a digit value, so the statement gives the empty
    list; the code goes on to the third selector and returns its term. *)
Lemma term_options_first_selector_counterexample :
  Spider.css two_dropdowns Spider.select_name_term
    = [ {| opt_value := Some "select"; opt_texts := ["Select a term"] |} ]
  /\ term_options_as_specified two_dropdowns = []
  /\ Spider._extract_term_options two_dropdowns = [("1258", "Fall 2025")].
Proof. repeat split. Qed.

(** C1, amended.  Term Discovery uses the first selector of the prioritized
    list that yields at least one option whose trimmed value is all digits,
    and returns exactly those options of that selector, as (value, label),
    in document order; a selector that yields no option, or only options
    with other values, is passed over; when no selector yields a digit
    option the result is the empty list. *)
Theorem term_options_first_digit_selector (response : Response) :
  Spider._extract_term_options response =
  match find (fun sel => negb (is_nil (digit_options (Spider.css response sel))))
             Spider.selectors_to_try with
  | Some sel => digit_options (Spider.css response sel)
  | None => []
  end.
Proof. apply try_selectors_find. Qed.

(* ====================================================================== *)
(** ** The Column Resolver *)
(* ====================================================================== *)

Section ColumnResolver.
Import Py Spider.

Lemma prefix_app (sub s : string) :
  prefix sub s = true <-> exists b, s = sub ++ b.
Proof.
  revert s. induction sub as [|x sub IH]; intros s.
  - split; [intros _; now exists s | intros _; now destruct s].
  - destruct s as [|c s]; simpl.
    + split; [discriminate | intros [b Hb]; discriminate].
    + destruct (ascii_dec x c) as [->|Hne].
      * rewrite IH. split; intros [b Hb]; exists b; [now rewrite Hb | now injection Hb].
      * split; [discriminate | intros [b Hb]; injection Hb as E _; congruence].
Qed.

(** [sub in s] holds exactly when [s] is [a ++ sub ++ b] for some [a], [b]. *)
Lemma contains_substring (sub s : string) :
  contains sub s = true <-> exists a b, s = a ++ sub ++ b.
Proof.
  induction s as [|c s IH].
  - change (contains sub "") with (prefix sub "" || false).
    rewrite orb_false_r, prefix_app. split.
    + intros [b Hb]. now exists "", b.
    + intros [a [b Hab]]. destruct a; [now exists b | discriminate].
  - change (contains sub (String c s))
      with (prefix sub (String c s) || contains sub s).
    rewrite orb_true_iff, prefix_app, IH. split.
    + intros [[b Hb]|[a [b Hab]]].
      * now exists "", b.
      * exists (String c a), b. simpl. now rewrite Hab.
    + intros [a [b Hab]]. destruct a as [|d a].
      * left. now exists b.
      * right. exists a, b. simpl in Hab. now injection Hab.
Qed.

Lemma find_header_none (name : string) (hs : list string) (k : nat) :
  (forall h, In h hs -> contains name h = false) -> find_header name hs k = None.
Proof.
  revert k. induction hs as [|h hs IH]; intros k Hn; simpl; [reflexivity|].
  rewrite (Hn h) by now left. apply IH. intros h' Hh'. apply Hn. now right.
Qed.

Lemma find_header_first (name : string) (hs : list string) (i k : nat) :
  first_containing name hs i -> find_header name hs k = Some (k + i).
Proof.
  revert i k. induction hs as [|h hs IH]; intros i k [[h0 [Hi Hc]] Hlow].
  - destruct i; discriminate.
  - destruct i as [|i]; simpl.
    + simpl in Hi. injection Hi as ->. rewrite Hc. f_equal. lia.
    + rewrite (Hlow 0 h) by (simpl; trivial; lia).
      rewrite (IH i (S k)); [f_equal; lia|].
      split; [now exists h0|].
      intros j h' Hj Hj'. apply (Hlow (S j) h'); [lia | exact Hj'].
Qed.

Lemma col_index_skip (hs pre rest : list string) (default : nat) :
  (forall n, In n pre -> forall h, In h hs -> contains n h = false) ->
  col_index hs (pre ++ rest) default = col_index hs rest default.
Proof.
  induction pre as [|n pre IH]; intros Hn; simpl; [reflexivity|].
  rewrite find_header_none by (intros h Hh; apply (Hn n); [now left | exact Hh]).
  apply IH. intros n' Hn' h Hh. apply (Hn n'); [now right | exact Hh].
Qed.

Lemma find_header_index (name : string) (hs : list string) (k : nat) :
  find_header name hs k = find_index (fun h => contains name h || false) hs k.
Proof.
  revert k. induction hs as [|h hs IH]; intros k; simpl; [reflexivity|].
  rewrite orb_false_r. destruct (contains name h); [reflexivity | apply IH].
Qed.

End ColumnResolver.

(** C2, as stated, fails for a column with two candidates: with the headers
    "syllabus", "syllabi" the first header contains a candidate of the
    syllabus-link column, yet the resolver returns 1, the header containing
    the candidate it tries first. *)
Lemma col_index_first_header_counterexample :
  Spider.syllabi_col ["syllabus"; "syllabi"] = 1
  /\ col_index_as_specified ["syllabus"; "syllabi"] ["syllabi"; "syllabus"] 4 = 0.
Proof. split; reflexivity. Qed.

(** C2, amended.  The Column Resolver tries the candidates of a column in
    their order: when no header contains any of the candidates [pre] tried
    before [name], and [i] is the lowest index of a header containing
    [name], it returns [i]; when no header contains any candidate it returns
    the positional default; for a column with one candidate that is the
    index of the first header containing any candidate, as specified; with
    no headers every column resolves to its default, 1, 2, 3 and 4. *)
Theorem col_index_by_candidate
    (hs pre post : list string) (name : string) (i default : nat) :
  (forall n, In n pre -> forall h, In h hs -> Py.contains n h = false) ->
  first_containing name hs i ->
  Spider.col_index hs (pre ++ name :: post) default = i
  /\ Spider.col_index hs pre default = default
  /\ Spider.col_index hs [name] default = col_index_as_specified hs [name] default
  /\ Spider.col_index [] (pre ++ name :: post) default = default
  /\ Spider.class_col [] = 1 /\ Spider.section_col [] = 2
  /\ Spider.instructor_col [] = 3 /\ Spider.syllabi_col [] = 4.
Proof.
  intros Hpre Hfirst. repeat split.
  - rewrite col_index_skip by exact Hpre. simpl.
    now rewrite (find_header_first name hs i 0 Hfirst).
  - pose proof (col_index_skip hs pre [] default Hpre) as T.
    now rewrite app_nil_r in T.
  - unfold col_index_as_specified. simpl.
    rewrite find_header_index. reflexivity.
  - induction (pre ++ name :: post)%list as [|n l IH]; simpl; [reflexivity | exact IH].
Qed.

Lemma col_index_by_candidate_witness :
  Spider.col_index ["term"; "course syllabus"; "all syllabi"; "syllabi link"]
                   (["class"; "section"] ++ "syllabi" :: ["syllabus"]) 4 = 2
  /\ Spider.col_index ["term"; "course syllabus"; "all syllabi"; "syllabi link"]
                      ["class"; "section"] 4 = 4.
Proof.
  destruct (col_index_by_candidate
              ["term"; "course syllabus"; "all syllabi"; "syllabi link"]
              ["class"; "section"] ["syllabus"] "syllabi" 2 4) as [H1 [H2 _]].
  - intros n [<-|[<-|[]]] h [<-|[<-|[<-|[<-|[]]]]]; reflexivity.
  - split.
    + exists "all syllabi". split; reflexivity.
    + intros j h Hj Hnth.
      destruct j as [|[|j]]; simpl in Hnth;
        [injection Hnth as <-; reflexivity | injection Hnth as <-; reflexivity | lia].
  - split; [exact H1 | exact H2].
Defined.

(* ====================================================================== *)
(** ** The Row Parser *)
(* ====================================================================== *)

Section RowParser.
Import Py Spider.

Lemma cols_le_max (hs : list string) :
  class_col hs <= max_col hs /\ section_col hs <= max_col hs
  /\ instructor_col hs <= max_col hs /\ syllabi_col hs <= max_col hs.
Proof. unfold max_col. repeat split; lia. Qed.

Lemma cell_at_in_range (cells : list cell) (i : nat) (d : cell) :
  i < List.length cells -> cell_at cells i = Some (nth i cells d).
Proof. intros Hi. unfold cell_at. now apply nth_error_nth'. Qed.

(** The code's column resolution is the one of the specification's
    reading. *)
Lemma find_header_find_index (name : string) (hs : list string) (k : nat) :
  find_header name hs k = find_index (contains name) hs k.
Proof.
  revert k. induction hs as [|h hs IH]; intros k; simpl; [reflexivity|].
  destruct (contains name h); [reflexivity | apply IH].
Qed.

Lemma find_index_existsb {A : Type} (p : A -> bool) (l : list A) (k : nat) :
  existsb p l = is_some (find_index p l k).
Proof.
  revert k. induction l as [|x l IH]; intros k; simpl; [reflexivity|].
  destruct (p x); [reflexivity | apply IH].
Qed.

Lemma col_index_resolved (hs names : list string) (default : nat) :
  col_index hs names default = resolved_column hs names default.
Proof.
  unfold resolved_column.
  induction names as [|name names IH]; simpl; [reflexivity|].
  rewrite find_header_find_index, (find_index_existsb (contains name) hs 0).
  destruct (find_index (contains name) hs 0) as [i|] eqn:E; simpl;
    [now rewrite E | exact IH].
Qed.

Lemma max_col_highest (hs : list string) : max_col hs = highest_column hs.
Proof.
  unfold max_col, highest_column, class_col, section_col, instructor_col, syllabi_col,
    class_column, section_column, instructor_column, link_column.
  rewrite !col_index_resolved. simpl. now rewrite Nat.max_0_r.
Qed.

Lemma headers_header_names (response : Response) :
  headers response = header_names response.
Proof. reflexivity. Qed.

(** One pass of the loop never raises: it appends the row when the row is
    kept and leaves the rows yielded so far as they are otherwise. *)
Lemma row_step_kept (hs : list string) (yielded : list TableRow) (cells : list cell) :
  row_step hs yielded cells =
  Some (if row_kept hs cells then (yielded ++ [row_of hs cells])%list else yielded).
Proof.
  unfold row_step, row_kept, row_of, cell_of.
  rewrite <- max_col_highest.
  unfold class_column, section_column, instructor_column, link_column.
  rewrite <- !col_index_resolved.
  fold (class_col hs) (section_col hs) (instructor_col hs) (syllabi_col hs).
  destruct (Nat.leb_spec (List.length cells) (max_col hs)) as [Hle|Hlt].
  - apply Nat.ltb_ge in Hle. now rewrite Hle.
  - pose proof (cols_le_max hs) as [H1 [H2 [H3 H4]]].
    set (d := {| cell_texts := []; cell_hrefs := [] |}).
    rewrite (cell_at_in_range cells (class_col hs) d) by lia.
    rewrite (cell_at_in_range cells (section_col hs) d) by lia.
    rewrite (cell_at_in_range cells (instructor_col hs) d) by lia.
    rewrite (cell_at_in_range cells (syllabi_col hs) d) by lia.
    apply Nat.ltb_lt in Hlt. rewrite Hlt. simpl.
    change (is_empty (cell_text (nth (class_col hs) cells d)))
      with (is_empty (first_node (cell_texts (nth (class_col hs) cells d)))).
    destruct (is_empty (first_node (cell_texts (nth (class_col hs) cells d))));
      reflexivity.
Qed.

Lemma for_rows_kept (hs : list string) (rows : list (list cell)) (yielded : list TableRow) :
  for_rows hs rows yielded =
  Some (yielded ++ map (row_of hs) (filter (row_kept hs) rows))%list.
Proof.
  revert yielded. induction rows as [|cells rows IH]; intros yielded; simpl.
  - now rewrite app_nil_r.
  - rewrite row_step_kept, IH.
    destruct (row_kept hs cells); simpl; [|reflexivity].
    now rewrite <- app_assoc.
Qed.

Lemma parse_results_table_rows_aux (response : Response) (term_code term_name : string) :
  _parse_results_table response term_code term_name =
  Some (map (row_of (headers response))
            (filter (row_kept (headers response)) (tr_rows response))).
Proof. unfold _parse_results_table. now rewrite for_rows_kept. Qed.

End RowParser.

(** C8, as stated, fails: the one row of [blank_node_page] has five cells,
    more than the maximum resolved column index, and the text of its
    class-name cell is [CSE 3666]; the Row Parser finishes without an error
    and yields nothing, because the first text node of the cell is blank. *)
Lemma parse_results_table_rows_counterexample :
  exists cells,
    tr_rows blank_node_page = [cells]
    /\ highest_column (header_names blank_node_page) < List.length cells
    /\ whole_text
         (cell_texts (cell_of cells (class_column (header_names blank_node_page))))
       = "CSE 3666"
    /\ row_kept_as_specified (header_names blank_node_page) cells = true
    /\ Spider._parse_results_table blank_node_page "1258" "Fall 2025" = Some []
    /\ Spider._parse_results_table blank_node_page "1258" "Fall 2025"
       <> Some (map (row_of (header_names blank_node_page))
                   (filter (row_kept_as_specified (header_names blank_node_page))
                           (tr_rows blank_node_page))).
Proof.
  eexists. split; [reflexivity|]. splits; try reflexivity.
  - vm_compute. lia.
  - vm_compute. discriminate.
Qed.

(** C8, amended.  For every parsed results table the Row Parser finishes
    without an error and yields, in document order, exactly one TableRow for
    each table row whose cell count exceeds the maximum resolved column
    index and whose class-name cell has a first text node that, trimmed, is
    not empty; every other row is skipped.  The TableRow holds the first
    text node, trimmed, of the class, section and instructor cells and the
    first link, trimmed, of the syllabus cell. *)
Theorem parse_results_table_rows (response : Response) (term_code term_name : string) :
  Spider._parse_results_table response term_code term_name =
  Some (map (row_of (header_names response))
            (filter (row_kept (header_names response)) (tr_rows response))).
Proof. apply parse_results_table_rows_aux. Qed.

Lemma parse_results_table_rows_witness :
  Spider._parse_results_table results_page "1258" "Fall 2025" = Some results_page_rows.
Proof. exact (parse_results_table_rows results_page "1258" "Fall 2025"). Defined.

(* ====================================================================== *)
(** ** The Orchestrator: one record per kept row *)
(* ====================================================================== *)

Section Orchestrator.
Import Py Spider.
Context `{PyLib}.
Variable self : UConnSyllabiSpider.

Lemma abs_url_resolves (response : Response) (row : TableRow) :
  is_some (abs_url_of response (row_href row)) = link_resolves response row.
Proof.
  unfold abs_url_of, link_resolves.
  destruct (is_empty (row_href row)); [reflexivity|].
  now destruct (resp_urljoin response (row_href row)).
Qed.

(** After an exception nothing more is yielded. *)
Lemma item_loop_raised (response : Response) (tc tn : string)
    (rows : list TableRow) (out : list output) :
  fold_left (item_step self response tc tn) rows {| yielded := out; raised := true |}
  = {| yielded := out; raised := true |}.
Proof. induction rows as [|row rows IH]; simpl; [reflexivity | exact IH]. Qed.

(** What was yielded stays yielded. *)
Lemma item_loop_keeps (response : Response) (tc tn : string)
    (rows : list TableRow) (run : Run) (o : output) :
  In o (yielded run) ->
  In o (yielded (fold_left (item_step self response tc tn) rows run)).
Proof.
  revert run. induction rows as [|row rows IH]; intros run Hin; simpl; [exact Hin|].
  apply IH. unfold item_step.
  destruct (raised run); [exact Hin|].
  destruct (filtered_out _ _); [exact Hin|].
  destruct (abs_url_of response (row_href row)); simpl; [|exact Hin].
  apply in_or_app. now left.
Qed.

(** While the links resolve, the loop yields the records of the rows that
    pass the department filter. *)
Lemma item_loop (response : Response) (tc tn : string)
    (rows : list TableRow) (out : list output) :
  forallb (link_resolves response) (filter (dept_allowed self) rows) = true ->
  fold_left (item_step self response tc tn) rows {| yielded := out; raised := false |}
  = {| yielded :=
         (out ++ map (fun row => YieldItem (new_item self response tc tn row))
                     (filter (dept_allowed self) rows))%list;
       raised := false |}.
Proof.
  revert out. induction rows as [|row rows IH]; intros out Hok; simpl.
  - now rewrite app_nil_r.
  - simpl in Hok. unfold item_step at 2. unfold dept_allowed in *. simpl raised.
    destruct (filtered_out _ _); simpl in *; [now apply IH|].
    apply andb_true_iff in Hok as [Hrow Hok].
    rewrite <- abs_url_resolves in Hrow. unfold new_item at 1.
    destruct (abs_url_of response (row_href row)) as [abs_url|]; [|discriminate Hrow].
    simpl. rewrite (IH _ Hok). now rewrite <- app_assoc.
Qed.

(** The first link that does not resolve ends the run with an exception. *)
Lemma item_loop_fails (response : Response) (tc tn : string)
    (rows : list TableRow) (out : list output) :
  forallb (link_resolves response) (filter (dept_allowed self) rows) = false ->
  raised (fold_left (item_step self response tc tn) rows
            {| yielded := out; raised := false |}) = true.
Proof.
  revert out. induction rows as [|row rows IH]; intros out Hko; simpl.
  - discriminate Hko.
  - simpl in Hko. unfold item_step at 2. unfold dept_allowed in *. simpl raised.
    destruct (filtered_out _ _); simpl in *; [now apply IH|].
    rewrite <- abs_url_resolves in Hko.
    destruct (abs_url_of response (row_href row)) as [abs_url|]; simpl in *.
    + now apply IH.
    + now rewrite item_loop_raised.
Qed.

Lemma next_page_step_out (response : Response) (tc tn : string) (out : list output) :
  next_page_step response tc tn out
  = {| yielded := (out ++ map YieldRequest (next_page_requests response tc tn))%list;
       raised := next_page_raises response |}.
Proof.
  unfold next_page_step, next_page_requests, next_page_raises, term_request.
  destruct (_find_next_page response) as [[next_page|]|]; simpl;
    rewrite ?app_nil_r; try reflexivity.
  destruct (is_empty next_page); simpl; rewrite ?app_nil_r; [reflexivity|].
  destruct (request_url next_page); simpl; now rewrite ?app_nil_r.
Qed.

(** A run of [parse_term_results] whose links resolve: the records of the
    kept rows that pass the department filter, in order, then the end of
    the run. *)
Lemma parse_term_results_run_out (response : Response) (tc tn : string) :
  links_resolve self response (tr_rows response) = true ->
  parse_term_results_run self response tc tn
  = {| yielded :=
         (map (fun row => YieldItem (new_item self response tc tn row))
              (record_rows self response (tr_rows response))
          ++ map YieldRequest (next_page_requests response tc tn))%list;
       raised := next_page_raises response |}.
Proof.
  intros Hok. unfold parse_term_results_run.
  rewrite parse_results_table_rows_aux.
  rewrite item_loop by exact Hok. simpl.
  now rewrite next_page_step_out.
Qed.

Lemma parse_term_results_run_fails (response : Response) (tc tn : string) :
  links_resolve self response (tr_rows response) = false ->
  raised (parse_term_results_run self response tc tn) = true.
Proof.
  intros Hko. unfold parse_term_results_run.
  rewrite parse_results_table_rows_aux.
  pose proof (item_loop_fails response tc tn
                (map (row_of (headers response))
                   (filter (row_kept (headers response)) (tr_rows response)))
                [] Hko) as Hr.
  now rewrite Hr.
Qed.

(** What [parse_term_results] yields when it does not raise. *)
Lemma parse_term_results_out (response : Response) (tc tn : string)
    (out : list output) :
  parse_term_results self response tc tn = Some out ->
  links_resolve self response (tr_rows response) = true
  /\ next_page_raises response = false
  /\ out = (map (fun row => YieldItem (new_item self response tc tn row))
                (record_rows self response (tr_rows response))
            ++ map YieldRequest (next_page_requests response tc tn))%list.
Proof.
  unfold parse_term_results.
  destruct (links_resolve self response (tr_rows response)) eqn:Hok.
  - rewrite (parse_term_results_run_out response tc tn Hok). simpl.
    destruct (next_page_raises response); [discriminate|].
    intros E. injection E as <-. now splits.
  - now rewrite (parse_term_results_run_fails response tc tn Hok).
Qed.

Lemma parse_term_results_raises (response : Response) (tc tn : string) :
  parse_term_results self response tc tn = None <->
  links_resolve self response (tr_rows response) = false
  \/ next_page_raises response = true.
Proof.
  unfold parse_term_results.
  destruct (links_resolve self response (tr_rows response)) eqn:Hok.
  - rewrite (parse_term_results_run_out response tc tn Hok). simpl.
    destruct (next_page_raises response); split; try tauto; try discriminate.
    intros [E|E]; discriminate E.
  - rewrite (parse_term_results_run_fails response tc tn Hok). tauto.
Qed.

Lemma parse_term_results_yielded (response : Response) (tc tn : string)
    (out : list output) :
  parse_term_results self response tc tn = Some out ->
  out = yielded (parse_term_results_run self response tc tn).
Proof.
  unfold parse_term_results.
  destruct (raised (parse_term_results_run self response tc tn)); congruence.
Qed.

(** A record of a row is yielded as soon as the links of the rows before it
    have resolved, whatever comes after it. *)
Lemma row_record_yielded (response : Response) (tc tn : string)
    (pre post : list (list cell)) (cells : list cell) (abs_url : string) :
  tr_rows response = (pre ++ cells :: post)%list ->
  row_kept (header_names response) cells = true ->
  dept_allowed self (row_of (header_names response) cells) = true ->
  links_resolve self response pre = true ->
  abs_url_of response (row_href (row_of (header_names response) cells)) = Some abs_url ->
  In (YieldItem (item_of self tc tn (row_of (header_names response) cells) abs_url))
     (yielded (parse_term_results_run self response tc tn)).
Proof.
  intros Hrows Hkept Hdept Hpre Hurl.
  unfold parse_term_results_run.
  rewrite parse_results_table_rows_aux.
  change (headers response) with (header_names response). rewrite Hrows.
  rewrite filter_app, map_app, fold_left_app. simpl filter. rewrite Hkept.
  simpl map. simpl fold_left.
  rewrite item_loop by exact Hpre.
  assert (Hin : In (YieldItem (item_of self tc tn
                                 (row_of (header_names response) cells) abs_url))
                   (yielded
                      (item_step self response tc tn
                         {| yielded :=
                              ([] ++ map (fun row =>
                                            YieldItem (new_item self response tc tn row))
                                         (filter (dept_allowed self)
                                            (map (row_of (header_names response))
                                               (filter (row_kept (header_names response))
                                                       pre))))%list;
                            raised := false |}
                         (row_of (header_names response) cells)))).
  { unfold item_step. simpl raised. unfold dept_allowed in Hdept.
    apply negb_true_iff in Hdept. rewrite Hdept, Hurl. simpl.
    apply in_or_app. right. now left. }
  apply (item_loop_keeps response tc tn
           (map (row_of (header_names response))
              (filter (row_kept (header_names response)) post))) in Hin.
  destruct (raised _); [exact Hin|].
  rewrite next_page_step_out. simpl. apply in_or_app. now left.
Qed.

End Orchestrator.

(** C10, as stated, fails, in three ways.  The row of [short_row_page] has
    a class-name cell that is not empty and a syllabus-link cell without an
    anchor, no department filter is set, and no record is emitted, because
    the row has fewer cells than the highest resolved column needs.  The
    second row of [broken_link_page] is such a row with all its cells, and
    no record is emitted for it either: [response.urljoin] raises on the
    link of the row before it, which ends the run with nothing yielded.
    The row of [blank_node_page] has a class-name cell with the text
    [CSE 3666] and no link, and no record is emitted, because the first
    text node of the cell is blank. *)
Lemma row_without_link_counterexample :
  (exists cells c_class c_link,
      nth_error (tr_rows short_row_page) 1 = Some cells
      /\ nth_error cells (class_column (header_names short_row_page)) = Some c_class
      /\ cell_texts c_class = ["CSE 3666"]
      /\ nth_error cells (link_column (header_names short_row_page)) = Some c_link
      /\ cell_hrefs c_link = []
      /\ Spider._target_depts plain_spider = None
      /\ Spider.parse_term_results_run plain_spider short_row_page "1258" "Fall 2025"
         = {| Spider.yielded := []; Spider.raised := false |})
  /\ (exists cells,
        nth_error (tr_rows broken_link_page) 1 = Some cells
        /\ row_kept (header_names broken_link_page) cells = true
        /\ Spider.row_href (row_of (header_names broken_link_page) cells) = ""
        /\ dept_allowed plain_spider (row_of (header_names broken_link_page) cells)
           = true
        /\ Spider.parse_term_results_run plain_spider broken_link_page
             "1258" "Fall 2025"
           = {| Spider.yielded := []; Spider.raised := true |}
        /\ Spider.parse_term_results plain_spider broken_link_page "1258" "Fall 2025"
           = None)
  /\ (exists cells,
        tr_rows blank_node_page = [cells]
        /\ highest_column (header_names blank_node_page) < List.length cells
        /\ whole_text
             (cell_texts (cell_of cells (class_column (header_names blank_node_page))))
           = "CSE 3666"
        /\ cell_hrefs (cell_of cells (link_column (header_names blank_node_page))) = []
        /\ Spider.parse_term_results_run plain_spider blank_node_page
             "1258" "Fall 2025"
           = {| Spider.yielded := []; Spider.raised := false |}).
Proof.
  splits.
  - eexists _, _, _. splits; reflexivity.
  - eexists. splits; reflexivity.
  - eexists. split; [reflexivity|]. splits; try reflexivity. vm_compute. lia.
Qed.

(** C10, amended.  For every table row whose cell count exceeds the maximum
    resolved column index, whose class-name cell has a first text node
    that, trimmed, is not empty, whose syllabus-link cell gives an empty
    href (it contains no anchor) and whose department passes the department
    filter, the Orchestrator emits a record, provided [response.urljoin]
    has raised on the link of none of the rows before it that become
    records.  The record has the row's metadata, [syllabus_web_url] the
    empty string, empty local-path fields and no download queued
    ([file_urls] the empty list), whatever the no_download setting of the
    spider is; it is yielded whether or not the run raises later, and so it
    is among the results of a run that does not raise. *)
Theorem row_without_link_emitted `{PyLib} (self : Spider.UConnSyllabiSpider)
    (response : Response) (term_code term_name : string)
    (pre post : list (list cell)) (cells : list cell) :
  tr_rows response = (pre ++ cells :: post)%list ->
  row_kept (header_names response) cells = true ->
  Spider.row_href (row_of (header_names response) cells) = "" ->
  dept_allowed self (row_of (header_names response) cells) = true ->
  links_resolve self response pre = true ->
  let record :=
    {| term_name := Some term_name;
       class_name :=
         Some (Spider.row_class_name (row_of (header_names response) cells));
       section :=
         Some (Spider.row_section (row_of (header_names response) cells));
       instructor :=
         Some (Spider.row_instructor (row_of (header_names response) cells));
       syllabus_web_url := Some "";
       syllabus_local_filepath := Some "";
       syllabus_local_filename := Some "";
       term_code := Some term_code;
       file_urls := Some [];
       files := Some [] |} in
  In (YieldItem record)
     (Spider.yielded (Spider.parse_term_results_run self response term_code term_name))
  /\ forall out,
       Spider.parse_term_results self response term_code term_name = Some out ->
       In (YieldItem record) out.
Proof.
  intros Hrows Hkept Hhref Hdept Hpre record.
  assert (Hin : In (YieldItem record)
                   (Spider.yielded
                      (Spider.parse_term_results_run self response term_code term_name))).
  { apply (row_record_yielded self response term_code term_name pre post cells ""
             Hrows Hkept Hdept Hpre).
    unfold Spider.abs_url_of. now rewrite Hhref. }
  split; [exact Hin|].
  intros out Hout.
  now rewrite (parse_term_results_yielded self response term_code term_name out Hout).
Qed.

Lemma row_without_link_emitted_witness :
  let record :=
    {| term_name := Some "Fall 2025";
       class_name := Some "MATH 1131Q";
       section := Some "002";
       instructor := Some "A. Teacher";
       syllabus_web_url := Some "";
       syllabus_local_filepath := Some "";
       syllabus_local_filename := Some "";
       term_code := Some "1258";
       file_urls := Some [];
       files := Some [] |} in
  In (YieldItem record)
     (Spider.yielded
        (Spider.parse_term_results_run (Spider.__init__ None (Some "math, cse") None)
           paged_results "1258" "Fall 2025"))
  /\ forall out,
       Spider.parse_term_results (Spider.__init__ None (Some "math, cse") None)
         paged_results "1258" "Fall 2025" = Some out ->
       In (YieldItem record) out.
Proof.
  apply (row_without_link_emitted
           (Spider.__init__ None (Some "math, cse") None)
           paged_results "1258" "Fall 2025"
           [ [ {| cell_texts := ["Fall 2025"]; cell_hrefs := [] |};
               {| cell_texts := [" CSE 3666 "]; cell_hrefs := [] |};
               {| cell_texts := ["001"]; cell_hrefs := [] |};
               {| cell_texts := ["Zhijie Shi"]; cell_hrefs := [] |};
               {| cell_texts := []; cell_hrefs := ["download.php?file=10|abc"] |} ] ]
           []
           [ {| cell_texts := ["Fall 2025"]; cell_hrefs := [] |};
             {| cell_texts := ["MATH 1131Q"]; cell_hrefs := [] |};
             {| cell_texts := ["002"]; cell_hrefs := [] |};
             {| cell_texts := ["A. Teacher"]; cell_hrefs := [] |};
             {| cell_texts := []; cell_hrefs := [] |} ]).
  - reflexivity.
  - reflexivity.
  - reflexivity.
  - reflexivity.
  - reflexivity.
Defined.

(* ====================================================================== *)
(** ** The local-path fields of a record *)
(* ====================================================================== *)

Section LocalFields.
Import Py Pipelines.

Lemma append_nonempty_r (a b : string) : b <> "" -> a ++ b <> "".
Proof. destruct a; simpl; [trivial | discriminate]. Qed.

Lemma basename_no_slash (b : string) : contains "/" b = false -> basename b = b.
Proof.
  destruct b as [|c b]; [reflexivity|].
  intros Hc. simpl in Hc. apply orb_false_iff in Hc as [Hp Hb].
  simpl. rewrite Hb.
  destruct (Ascii.eqb_spec c "/") as [->|Hne]; [|reflexivity].
  simpl in Hp. destruct b; discriminate Hp.
Qed.

(** The base name of a path that ends with a part free of slashes. *)
Lemma basename_app_nonempty (a b : string) :
  b <> "" -> contains "/" b = false -> basename (a ++ b) <> "".
Proof.
  intros Hb Hs. induction a as [|c a IH].
  - simpl. now rewrite basename_no_slash.
  - change (String c a ++ b) with (String c (a ++ b)). simpl.
    destruct (contains "/" (a ++ b)); [exact IH|].
    destruct (Ascii.eqb c "/"); [now apply append_nonempty_r | discriminate].
Qed.

Lemma path_join_nonempty (a b : string) : b <> "" -> path_join a b <> "".
Proof.
  intros Hb. unfold path_join.
  destruct (prefix "/" b); [exact Hb|].
  destruct (is_empty a || endswith "/" a).
  - now apply append_nonempty_r.
  - apply append_nonempty_r. discriminate.
Qed.

Context `{PyLib}.

(** A generated filename ends with a dot and one of the three extensions. *)
Lemma file_path_shape (request : Request) (response : option Response)
    (info : option MediaInfo) (item : option UConnSyllabusItem) :
  exists stem ext,
    file_path request response info item = stem ++ ext
    /\ (ext = ".docx" \/ ext = ".doc" \/ ext = ".pdf").
Proof.
  unfold file_path.
  exists (fp_term_code item ++ "_" ++ fp_dept item ++ "_" ++ fp_number item
          ++ "_" ++ fp_file_id (req_url request)).
  exists ("." ++ fp_ext (req_url request)). split.
  - now rewrite !append_assoc.
  - unfold fp_ext.
    destruct (endswith ".docx" _); [now left|].
    destruct (endswith ".doc" _); [right; now left | right; now right].
Qed.

Lemma basename_file_path (request : Request) (response : option Response)
    (info : option MediaInfo) (item : option UConnSyllabusItem) :
  basename (file_path request response info item) <> "".
Proof.
  destruct (file_path_shape request response info item) as [stem [ext [-> Hext]]].
  apply basename_app_nonempty;
    destruct Hext as [->|[->| ->]]; solve [discriminate | reflexivity].
Qed.

Lemma downloaded_in (results : list media_result) (r : file_info) :
  In r (downloaded results) <-> In (Ok r) results.
Proof.
  unfold downloaded. rewrite in_flat_map. split.
  - intros [[r'|reason] [Hin Hr]]; simpl in Hr; [|contradiction].
    destruct Hr as [->|[]]. exact Hin.
  - intros Hin. exists (Ok r). split; [exact Hin | now left].
Qed.

Lemma set_local_metadata (item : UConnSyllabusItem) (p f : option string) :
  same_metadata (set_local item p f) item.
Proof. repeat split. Qed.

End LocalFields.

(** C9. A record as the Orchestrator creates it has both local-path fields
    empty.  After [item_completed], with the path of every finished download
    being a filename generated by [file_path], the two fields are both empty
    or both populated; they are populated exactly when some download
    succeeded; when every download failed, or none was requested
    (no-download mode), both are still the empty string; in each case the
    record is returned with its metadata unchanged. *)
Theorem local_fields_agree `{PyLib} (self : Spider.UConnSyllabiSpider)
    (response : Response) (term_code term_name : string) (out : list output)
    (item : UConnSyllabusItem) (results : list Pipelines.media_result)
    (info : Pipelines.MediaInfo) :
  Spider.parse_term_results self response term_code term_name = Some out ->
  In (YieldItem item) out ->
  (forall r, In (Pipelines.Ok r) results ->
     exists request resp inf it,
       Pipelines.fi_path r = Pipelines.file_path request resp inf it) ->
  both_empty item
  /\ (both_empty (Pipelines.item_completed results item info)
      \/ both_populated (Pipelines.item_completed results item info))
  /\ (both_populated (Pipelines.item_completed results item info)
      <-> exists r, In (Pipelines.Ok r) results)
  /\ ((forall r, ~ In (Pipelines.Ok r) results) ->
      both_empty (Pipelines.item_completed results item info))
  /\ both_empty (Pipelines.item_completed [] item info)
  /\ same_metadata (Pipelines.item_completed results item info) item.
Proof.
  intros Hout Hin Hpaths.
  assert (Hcreated : both_empty item).
  { apply (parse_term_results_out self response term_code term_name out)
      in Hout as [_ [_ ->]].
    apply in_app_or in Hin as [Hin|Hin].
    - apply in_map_iff in Hin as [row [Hrow _]]. injection Hrow as <-.
      split; reflexivity.
    - apply in_map_iff in Hin as [r [Hr _]]. discriminate Hr. }
  assert (Hnone : Pipelines.downloaded results = [] ->
                  both_empty (Pipelines.item_completed results item info)).
  { intros E. unfold Pipelines.item_completed. rewrite E.
    destruct Hcreated as [Hp Hf]. rewrite Hp, Hf. split; reflexivity. }
  assert (Hsome : forall r rest, Pipelines.downloaded results = r :: rest ->
                  both_populated (Pipelines.item_completed results item info)).
  { intros r rest E. unfold Pipelines.item_completed. rewrite E.
    assert (Hr : In (Pipelines.Ok r) results)
      by (apply downloaded_in; rewrite E; now left).
    destruct (Hpaths r Hr) as [request [resp [inf [it Hpath]]]].
    eexists _, _. repeat split; simpl.
    - apply path_join_nonempty. rewrite Hpath. apply basename_file_path.
    - rewrite Hpath. apply basename_file_path. }
  split; [exact Hcreated|].
  split; [|split; [|split; [|split]]].
  - destruct (Pipelines.downloaded results) as [|r rest] eqn:E;
      [left; now apply Hnone | right; now apply (Hsome r rest)].
  - split.
    + intros [p [f [Hp [Hf [Hp0 Hf0]]]]].
      destruct (Pipelines.downloaded results) as [|r rest] eqn:E.
      * destruct (Hnone eq_refl) as [Hp' _]. rewrite Hp in Hp'.
        injection Hp' as ->. now contradiction Hp0.
      * exists r. apply downloaded_in. rewrite E. now left.
    + intros [r Hr]. apply downloaded_in in Hr.
      destruct (Pipelines.downloaded results) as [|r0 rest] eqn:E; [contradiction|].
      now apply (Hsome r0 rest).
  - intros Hfail. apply Hnone.
    destruct (Pipelines.downloaded results) as [|r rest] eqn:E; [reflexivity|].
    exfalso. apply (Hfail r). apply downloaded_in. rewrite E. now left.
  - unfold Pipelines.item_completed. simpl.
    destruct Hcreated as [Hp Hf]. rewrite Hp, Hf. split; reflexivity.
  - unfold Pipelines.item_completed.
    destruct (Pipelines.downloaded results); apply set_local_metadata.
Qed.

Lemma local_fields_agree_witness :
  both_empty cse_item
  /\ both_populated
       (Pipelines.item_completed cse_results cse_item
          {| Pipelines.FILES_STORE := None |})
  /\ both_empty
       (Pipelines.item_completed [] cse_item {| Pipelines.FILES_STORE := None |}).
Proof.
  destruct (local_fields_agree plain_spider results_page "1258" "Fall 2025"
              [ YieldItem
                  {| term_name := Some "Fall 2025";
                     class_name := Some "MATH 1131Q";
                     section := Some "002";
                     instructor := Some "A. Teacher";
                     syllabus_web_url := Some "";
                     syllabus_local_filepath := Some "";
                     syllabus_local_filename := Some "";
                     term_code := Some "1258";
                     file_urls := Some [];
                     files := Some [] |};
                YieldItem cse_item ]
              cse_item cse_results {| Pipelines.FILES_STORE := None |})
    as [H1 [_ [H3 [_ [H5 _]]]]].
  - vm_compute. reflexivity.
  - simpl. right. left. reflexivity.
  - intros r [Hr|[Hr|[]]]; [discriminate Hr|]. injection Hr as <-.
    exists {| req_url := "https://syllabus.uconn.edu/public/download.php?file=10%7Cabc";
              req_headers := []; req_callback := None; req_cb_kwargs := [] |}.
    exists None, None, (Some cse_item). vm_compute. reflexivity.
  - split; [exact H1|]. split; [|exact H5].
    apply H3. eexists. right. left. reflexivity.
Defined.

(* ====================================================================== *)
(** ** The Filename Deriver *)
(* ====================================================================== *)

Section FilenameFacts.
Import Py Pipelines.

Lemma isword_upper_char (c : ascii) : isword (upper_char c) = isword c.
Proof. destruct c as [[] [] [] [] [] [] [] []]; reflexivity. Qed.

(** Upper-casing commutes with the removal of the non-word characters. *)
Lemma upper_strip_nonword (s : string) :
  upper (strip_nonword s) = strip_nonword (upper s).
Proof.
  unfold upper, strip_nonword.
  induction s as [|c s IH]; simpl; [reflexivity|].
  rewrite isword_upper_char. destruct (isword c); simpl; now rewrite IH.
Qed.

Lemma strip_or_default_some (item : UConnSyllabusItem) (cn : string) :
  class_name item = Some cn -> fp_class_name (Some item) = strip cn.
Proof.
  intros E. unfold fp_class_name, adapter_get, or_default. rewrite E.
  destruct cn; reflexivity.
Qed.

Lemma prefix_char (x c : ascii) (s : string) :
  prefix (String x "") (String c s) = Ascii.eqb x c.
Proof.
  simpl. destruct (ascii_dec x c) as [->|Hne].
  - rewrite Ascii.eqb_refl. now destruct s.
  - symmetry. now apply Ascii.eqb_neq.
Qed.

Lemma contains_char_cons (x c : ascii) (s : string) :
  contains (String x "") (String c s) = Ascii.eqb x c || contains (String x "") s.
Proof.
  change (contains (String x "") (String c s))
    with (prefix (String x "") (String c s) || contains (String x "") s).
  now rewrite prefix_char.
Qed.

Lemma contains_char_mid (x : ascii) (pre post : string) :
  contains (String x "") (pre ++ String x post) = true.
Proof.
  induction pre as [|c pre IH].
  - simpl append. rewrite contains_char_cons, Ascii.eqb_refl. reflexivity.
  - change (String c pre ++ String x post) with (String c (pre ++ String x post)).
    rewrite contains_char_cons, IH. apply orb_true_r.
Qed.

(** [s.split(x)[0]] is what precedes the first [x]. *)
Lemma split_first (x : ascii) (pre post : string) :
  contains (String x "") pre = false ->
  get_first (split x (pre ++ String x post)) "" = pre.
Proof.
  induction pre as [|c pre IH]; intros Hpre.
  - simpl. now rewrite Ascii.eqb_refl.
  - rewrite contains_char_cons in Hpre. apply orb_false_iff in Hpre as [Hc Hpre].
    change (String c pre ++ String x post) with (String c (pre ++ String x post)).
    simpl. rewrite Ascii.eqb_sym, Hc.
    specialize (IH Hpre).
    destruct (split x (pre ++ String x post)) as [|h t]; simpl in *; now subst.
Qed.

End FilenameFacts.

(** C3, as stated, fails: for the class name "cse 3666" the Filename
    Deriver keeps the department as it is written, while the Class-Name
    Splitter upper-cases it. *)
Lemma filename_dept_counterexample :
  Pipelines.fp_dept
    (Some {| term_name := Some "Fall 2025"; class_name := Some "cse 3666";
             section := Some "001"; instructor := Some "Zhijie Shi";
             syllabus_web_url := Some ""; syllabus_local_filepath := Some "";
             syllabus_local_filename := Some ""; term_code := Some "1258";
             file_urls := Some []; files := Some [] |}) = "cse"
  /\ Pipelines.strip_nonword (fst (Spider._split_class "cse 3666")) = "CSE".
Proof. split; reflexivity. Qed.

(** C3, amended.  For a class name with a first token [x], alone or
    followed by a whitespace run and a remainder [y] (blanks [l], [r] around
    it), the dept component of the filename is [x] with its non-word
    characters stripped, in the case it is written in; upper-cased, it is
    the department of the Class-Name Splitter with its non-word characters
    stripped.  With a remainder the number is [y] stripped of non-word
    characters; without a second token the number is "0"; for a class name
    that is missing, empty or only whitespace the dept is "UNKNOWN" and the
    number "0". *)
Theorem filename_dept_number (i2 i1 i0 inone : UConnSyllabusItem)
    (l x w y r s : string) :
  blank l = true -> blank r = true ->
  solid x = true -> x <> "" ->
  blank w = true -> w <> "" ->
  starts_solid y = true -> ends_solid y = true ->
  blank s = true ->
  class_name i2 = Some (l ++ x ++ w ++ y ++ r) ->
  class_name i1 = Some (l ++ x ++ r) ->
  class_name i0 = Some s ->
  class_name inone = None ->
  (Pipelines.fp_dept (Some i2) = Pipelines.strip_nonword x
   /\ Py.upper (Pipelines.fp_dept (Some i2))
      = Pipelines.strip_nonword (fst (Spider._split_class (l ++ x ++ w ++ y ++ r)))
   /\ Pipelines.fp_number (Some i2) = Pipelines.strip_nonword y)
  /\ (Pipelines.fp_dept (Some i1) = Pipelines.strip_nonword x
      /\ Py.upper (Pipelines.fp_dept (Some i1))
         = Pipelines.strip_nonword (fst (Spider._split_class (l ++ x ++ r)))
      /\ Pipelines.fp_number (Some i1) = "0")
  /\ (Pipelines.fp_dept (Some i0) = "UNKNOWN" /\ Pipelines.fp_number (Some i0) = "0")
  /\ (Pipelines.fp_dept (Some inone) = "UNKNOWN"
      /\ Pipelines.fp_number (Some inone) = "0")
  /\ (Pipelines.fp_dept None = "UNKNOWN" /\ Pipelines.fp_number None = "0").
Proof.
  intros Hl Hr Hx Hx0 Hw Hw0 Hy He Hs E2 E1 E0 En.
  assert (P2 : Pipelines.fp_parts (Some i2) = [x; y]).
  { unfold Pipelines.fp_parts. rewrite (strip_or_default_some i2 _ E2).
    replace (l ++ x ++ w ++ y ++ r) with (l ++ (x ++ w ++ y) ++ r)
      by now rewrite !append_assoc.
    rewrite strip_padded; trivial.
    - now apply split_none_1_two.
    - apply starts_solid_app. now apply solid_starts.
    - rewrite <- append_assoc. now apply ends_solid_app. }
  assert (P1 : Pipelines.fp_parts (Some i1) = [x]).
  { unfold Pipelines.fp_parts. rewrite (strip_or_default_some i1 _ E1).
    rewrite strip_padded; trivial.
    - now apply split_none_1_one.
    - now apply solid_starts.
    - now apply solid_ends. }
  assert (P0 : Pipelines.fp_parts (Some i0) = []).
  { unfold Pipelines.fp_parts. rewrite (strip_or_default_some i0 _ E0).
    now rewrite strip_blank. }
  assert (Pn : Pipelines.fp_parts (Some inone) = []).
  { unfold Pipelines.fp_parts, Pipelines.fp_class_name, Pipelines.adapter_get.
    now rewrite En. }
  unfold Pipelines.fp_dept, Pipelines.fp_number.
  rewrite P2, P1, P0, Pn.
  rewrite split_class_two, split_class_one by trivial. simpl fst.
  rewrite upper_strip_nonword.
  repeat split.
Qed.

Lemma filename_dept_number_witness :
  Pipelines.fp_dept (Some (item_of_class (Some " c.s-e  36/66 q "))) = "cse"
  /\ Pipelines.fp_number (Some (item_of_class (Some " c.s-e  36/66 q "))) = "3666q"
  /\ Pipelines.fp_number (Some (item_of_class (Some " c.s-e "))) = "0"
  /\ Pipelines.fp_dept (Some (item_of_class (Some "  "))) = "UNKNOWN".
Proof.
  destruct (filename_dept_number
              (item_of_class (Some " c.s-e  36/66 q "))
              (item_of_class (Some " c.s-e "))
              (item_of_class (Some "  "))
              (item_of_class None)
              " " "c.s-e" "  " "36/66 q" " " "  ")
    as [[H1 [_ H2]] [[_ [_ H3]] [[H4 _] _]]];
    try solve [reflexivity | discriminate].
  repeat split; assumption.
Defined.

(** C4. When the "file" parameter of the download URL, with [%7C] decoded
    to a pipe, has a pipe in it, [pre] being what precedes the first pipe,
    the file identifier is [pre] trimmed; and every URL whose query is
    [file=123|abc] or [file=123%7Cabc] has the file identifier "123". *)
Theorem file_id_before_pipe `{PyLib} (u pre post u1 u2 : string) :
  Pipelines.fp_file_param_decoded u = pre ++ "|" ++ post ->
  Py.contains "|" pre = false ->
  query (Url.urlparse u1) = "file=123|abc" ->
  query (Url.urlparse u2) = "file=123%7Cabc" ->
  Pipelines.fp_file_id u = Py.strip pre
  /\ Pipelines.fp_file_id (H := url_lib) u1 = "123"
  /\ Pipelines.fp_file_id (H := url_lib) u2 = "123".
Proof.
  intros Hdec Hpre Hq1 Hq2. split; [|split].
  - unfold Pipelines.fp_file_id. rewrite Hdec.
    change (pre ++ "|" ++ post) with (pre ++ String "|" post).
    now rewrite contains_char_mid, split_first.
  - unfold Pipelines.fp_file_id, Pipelines.fp_file_param_decoded,
      Pipelines.fp_file_param.
    change (query (urlparse u1)) with (query (Url.urlparse u1)).
    rewrite Hq1. reflexivity.
  - unfold Pipelines.fp_file_id, Pipelines.fp_file_param_decoded,
      Pipelines.fp_file_param.
    change (query (urlparse u2)) with (query (Url.urlparse u2)).
    rewrite Hq2. reflexivity.
Qed.

Lemma file_id_before_pipe_witness :
  Pipelines.fp_file_id (H := url_lib)
    "https://syllabus.uconn.edu/public/download.php?x=1&file=+1410+%257Cd41d8cd9" = "1410"
  /\ Pipelines.fp_file_id (H := url_lib)
       "https://syllabus.uconn.edu/public/download.php?file=123|abc" = "123"
  /\ Pipelines.fp_file_id (H := url_lib)
       "https://syllabus.uconn.edu/public/download.php?file=123%7Cabc" = "123".
Proof.
  apply (file_id_before_pipe (H := url_lib)
           "https://syllabus.uconn.edu/public/download.php?x=1&file=+1410+%257Cd41d8cd9"
           " 1410 " "d41d8cd9"
           "https://syllabus.uconn.edu/public/download.php?file=123|abc"
           "https://syllabus.uconn.edu/public/download.php?file=123%7Cabc");
    vm_compute; reflexivity.
Defined.

Section Sha1Shape.
Import Py.

Lemma hex_digit_lower (x : N) : lower_hex (SHA1.hex_digit x) = true.
Proof.
  unfold SHA1.hex_digit. generalize (N.to_nat x). intros n.
  do 16 (destruct n as [|n]; [reflexivity|]). reflexivity.
Qed.

Lemma hex_shape (k : nat) (x : N) :
  String.length (SHA1.hex k x) = k /\ sforall lower_hex (SHA1.hex k x) = true.
Proof.
  induction k as [|k [IHl IHf]]; simpl; [now split|].
  rewrite IHl, hex_digit_lower, IHf. now split.
Qed.

Lemma length_append (a b : string) :
  String.length (a ++ b) = String.length a + String.length b.
Proof. induction a as [|c a IH]; simpl; [reflexivity | now rewrite IH]. Qed.

Lemma sforall_append (p : ascii -> bool) (a b : string) :
  sforall p (a ++ b) = sforall p a && sforall p b.
Proof.
  induction a as [|c a IH]; simpl; [reflexivity|].
  now rewrite IH, andb_assoc.
Qed.

Lemma take_shape (p : ascii -> bool) (n : nat) (s : string) :
  n <= String.length s -> sforall p s = true ->
  String.length (take n s) = n /\ sforall p (take n s) = true.
Proof.
  revert s. induction n as [|n IH]; intros s Hn Hp; [now split|].
  destruct s as [|c s]; simpl in *; [lia|].
  apply andb_true_iff in Hp as [Hc Hp].
  destruct (IH s) as [Hl Hf]; [lia | exact Hp|].
  rewrite Hl, Hc, Hf. now split.
Qed.

(** A SHA-1 digest in hexadecimal: forty digits, letters in lower case. *)
Lemma hexdigest_shape (s : string) :
  String.length (SHA1.hexdigest s) = 40
  /\ sforall lower_hex (SHA1.hexdigest s) = true.
Proof.
  unfold SHA1.hexdigest.
  destruct (SHA1.digest (SHA1.encode s)) as [[[[h0 h1] h2] h3] h4].
  rewrite !length_append, !sforall_append.
  rewrite !(proj1 (hex_shape 8 _)), !(proj2 (hex_shape 8 _)). now split.
Qed.

End Sha1Shape.

(** C5. When the query string of the download URL has no "file" parameter,
    or its "file" parameter, with [%7C] decoded, has no pipe in it, the file
    identifier is the first 12 characters of the hexadecimal SHA-1 digest of
    the whole URL; with SHA-1 computed, these are 12 characters among the
    digits and the letters a to f. *)
Theorem file_id_fallback `{PyLib} (u : string) :
  dict_get "file" (parse_qs (query (urlparse u))) = None
  \/ Py.contains "|" (Pipelines.fp_file_param_decoded u) = false ->
  Pipelines.fp_file_id u = Py.take 12 (sha1_hexdigest u)
  /\ String.length (Py.take 12 (SHA1.hexdigest u)) = 12
  /\ Py.sforall lower_hex (Py.take 12 (SHA1.hexdigest u)) = true.
Proof.
  intros Hcase. split.
  - assert (Hno : Py.contains "|" (Pipelines.fp_file_param_decoded u) = false).
    { destruct Hcase as [Hnone|Hno]; [|exact Hno].
      unfold Pipelines.fp_file_param_decoded, Pipelines.fp_file_param.
      rewrite Hnone. reflexivity. }
    unfold Pipelines.fp_file_id. now rewrite Hno.
  - destruct (hexdigest_shape u) as [Hl Hf].
    apply take_shape; [lia | exact Hf].
Qed.

Lemma file_id_fallback_witness :
  Pipelines.fp_file_id (H := url_lib)
    "https://syllabus.uconn.edu/public/download.php?file=1410"
  = Py.take 12 (@sha1_hexdigest url_lib
                  "https://syllabus.uconn.edu/public/download.php?file=1410")
  /\ String.length
       (Py.take 12 (SHA1.hexdigest
                      "https://syllabus.uconn.edu/public/download.php?file=1410")) = 12
  /\ Py.sforall lower_hex
       (Py.take 12 (SHA1.hexdigest
                      "https://syllabus.uconn.edu/public/download.php?file=1410")) = true.
Proof.
  apply (file_id_fallback (H := url_lib)
           "https://syllabus.uconn.edu/public/download.php?file=1410").
  right. vm_compute. reflexivity.
Defined.

(** C6. The filename depends on nothing but the URL of the request, the
    term code and the class name: two invocations of [file_path] that agree
    on these three give the same filename, whatever the response, the
    pipeline information and the other fields of the item are. *)
Theorem file_path_deterministic `{PyLib}
    (request1 request2 : Request) (response1 response2 : option Response)
    (info1 info2 : option Pipelines.MediaInfo) (item1 item2 : UConnSyllabusItem) :
  req_url request1 = req_url request2 ->
  term_code item1 = term_code item2 ->
  class_name item1 = class_name item2 ->
  Pipelines.file_path request1 response1 info1 (Some item1)
  = Pipelines.file_path request2 response2 info2 (Some item2).
Proof.
  intros Hu Ht Hc.
  unfold Pipelines.file_path, Pipelines.fp_term_code, Pipelines.fp_dept,
    Pipelines.fp_number, Pipelines.fp_parts, Pipelines.fp_class_name,
    Pipelines.adapter_get.
  now rewrite Hu, Ht, Hc.
Qed.

Lemma file_path_deterministic_witness :
  Pipelines.file_path (H := url_lib)
    {| req_url := "https://syllabus.uconn.edu/public/download.php?file=10%7Cabc";
       req_headers := [("Referer", Pipelines.referer)];
       req_callback := None; req_cb_kwargs := [] |}
    None None (Some cse_item)
  = Pipelines.file_path (H := url_lib)
      {| req_url := "https://syllabus.uconn.edu/public/download.php?file=10%7Cabc";
         req_headers := []; req_callback := None; req_cb_kwargs := [] |}
      (Some results_page) (Some {| Pipelines.FILES_STORE := Some "files" |})
      (Some {| term_name := None; class_name := Some "CSE 3666";
               section := Some "002"; instructor := None;
               syllabus_web_url := None;
               syllabus_local_filepath := Some "files/x.pdf";
               syllabus_local_filename := Some "x.pdf";
               term_code := Some "1258"; file_urls := None; files := None |}).
Proof.
  apply (file_path_deterministic (H := url_lib)); reflexivity.
Defined.

(* ====================================================================== *)
(** ** More on strings: case, trimming, characters *)
(* ====================================================================== *)

(** Split the conjunctions of a goal, and nothing else. *)

Section MoreStringFacts.
Import Py.

Lemma isspace_upper_char (c : ascii) : isspace (upper_char c) = isspace c.
Proof. destruct c as [[] [] [] [] [] [] [] []]; reflexivity. Qed.

Lemma upper_char_idem (c : ascii) : upper_char (upper_char c) = upper_char c.
Proof. destruct c as [[] [] [] [] [] [] [] []]; reflexivity. Qed.

Lemma upper_char_comma (c : ascii) : Ascii.eqb (upper_char c) "," = Ascii.eqb c ",".
Proof. destruct c as [[] [] [] [] [] [] [] []]; reflexivity. Qed.

Lemma isword_not_space (c : ascii) : isword c = true -> isspace c = false.
Proof. destruct c as [[] [] [] [] [] [] [] []]; simpl; intros E; solve [reflexivity | discriminate E]. Qed.

Lemma isdecimal_isword (c : ascii) : isdecimal c = true -> isword c = true.
Proof. destruct c as [[] [] [] [] [] [] [] []]; simpl; intros E; solve [reflexivity | discriminate E]. Qed.

Lemma upper_idem (s : string) : upper (upper s) = upper s.
Proof.
  unfold upper. induction s as [|c s IH]; simpl; [reflexivity|].
  now rewrite upper_char_idem, IH.
Qed.

Lemma upper_app (a b : string) : upper (a ++ b) = upper a ++ upper b.
Proof.
  unfold upper. induction a as [|c a IH]; simpl; [reflexivity | now rewrite IH].
Qed.

Lemma is_empty_upper (s : string) : is_empty (upper s) = is_empty s.
Proof. now destruct s. Qed.

Lemma lstrip_upper (s : string) : lstrip (upper s) = upper (lstrip s).
Proof.
  unfold upper. induction s as [|c s IH]; simpl; [reflexivity|].
  rewrite isspace_upper_char. destruct (isspace c); [exact IH | reflexivity].
Qed.

Lemma rstrip_upper (s : string) : rstrip (upper s) = upper (rstrip s).
Proof.
  induction s as [|c s IH]; [reflexivity|].
  change (upper (String c s)) with (String (upper_char c) (upper s)).
  simpl. rewrite IH, isspace_upper_char, is_empty_upper.
  now destruct (isspace c && is_empty (rstrip s)).
Qed.

Lemma strip_upper (s : string) : strip (upper s) = upper (strip s).
Proof. unfold strip. now rewrite rstrip_upper, lstrip_upper. Qed.

Lemma token_upper (s : string) :
  token (upper s) = (upper (fst (token s)), upper (snd (token s))).
Proof.
  induction s as [|c s IH]; [reflexivity|].
  change (upper (String c s)) with (String (upper_char c) (upper s)).
  simpl. rewrite isspace_upper_char. destruct (isspace c); [reflexivity|].
  rewrite IH. now destruct (token s).
Qed.

Lemma split_none_1_upper (s : string) :
  split_none_1 (upper s) = map upper (split_none_1 s).
Proof.
  unfold split_none_1. rewrite lstrip_upper.
  destruct (lstrip s) as [|c s1] eqn:E; [reflexivity|].
  unfold upper at 1. cbn [smap].
  change (String (upper_char c) (smap upper_char s1)) with (upper (String c s1)).
  rewrite token_upper. destruct (token (String c s1)) as [tok rest]. simpl fst. simpl snd.
  rewrite lstrip_upper. destruct (lstrip rest); reflexivity.
Qed.

(** A trimmed string is empty, or begins and ends with a character that is
    not whitespace. *)
Lemma strip_shape (s : string) :
  strip s = "" \/ (starts_solid (strip s) = true /\ ends_solid (strip s) = true).
Proof.
  unfold strip.
  destruct (lstrip_shape (rstrip s)) as [E|E]; [now left|]. right. split; [exact E|].
  destruct (lstrip_split (rstrip s)) as [l [Hl El]].
  destruct (rstrip_shape s) as [R|R].
  - rewrite R in E. discriminate E.
  - rewrite El in R. apply ends_solid_suffix in R; [exact R|].
    intros Z. rewrite Z in E. discriminate E.
Qed.

Lemma strip_idem (s : string) : strip (strip s) = strip s.
Proof.
  destruct (strip_shape s) as [E|[Hs He]]; [now rewrite E|].
  pose proof (strip_padded "" (strip s) "" eq_refl eq_refl Hs He) as T.
  simpl in T. now rewrite append_nil_r in T.
Qed.

Lemma strip_empty_blank (s : string) : strip s = "" -> blank s = true.
Proof.
  intros E. unfold strip in E.
  destruct (rstrip_split s) as [r [Hr Es]].
  destruct (lstrip_split (rstrip s)) as [l [Hl El]].
  rewrite E, append_nil_r in El. rewrite Es, El, blank_app, Hl, Hr. reflexivity.
Qed.

Lemma has_char_cons (x c : ascii) (s : string) :
  has_char x (String c s) = Ascii.eqb x c || has_char x s.
Proof. apply contains_char_cons. Qed.

Lemma has_char_app (x : ascii) (a b : string) :
  has_char x (a ++ b) = has_char x a || has_char x b.
Proof.
  induction a as [|c a IH].
  - simpl append. unfold has_char at 2. simpl. now destruct b.
  - change (String c a ++ b) with (String c (a ++ b)).
    now rewrite !has_char_cons, IH, orb_assoc.
Qed.

Lemma has_char_empty (x : ascii) : has_char x "" = false.
Proof. reflexivity. Qed.

(** A string of characters of a class that excludes [x] has no [x]. *)
Lemma sforall_no_char (p : ascii -> bool) (x : ascii) (s : string) :
  p x = false -> sforall p s = true -> has_char x s = false.
Proof.
  intros Hx. induction s as [|c s IH]; [reflexivity|].
  simpl. intros Hs. apply andb_true_iff in Hs as [Hc Hs].
  rewrite has_char_cons, (IH Hs), orb_false_r.
  apply Ascii.eqb_neq. intros ->. congruence.
Qed.

Lemma sfilter_sforall (p : ascii -> bool) (s : string) : sforall p (sfilter p s) = true.
Proof.
  induction s as [|c s IH]; [reflexivity|].
  simpl. destruct (p c) eqn:E; [simpl; now rewrite E | exact IH].
Qed.

Lemma word_only_solid (s : string) : word_only s = true -> solid s = true.
Proof.
  unfold word_only, solid. induction s as [|c s IH]; [reflexivity|].
  simpl. intros Hs. apply andb_true_iff in Hs as [Hc Hs].
  now rewrite (isword_not_space c Hc), IH.
Qed.

Lemma solid_strip (s : string) : solid s = true -> strip s = s.
Proof.
  intros Hs. destruct (string_dec s "") as [->|Hne]; [reflexivity|].
  pose proof (strip_padded "" s "" eq_refl eq_refl
                (solid_starts s Hs Hne) (solid_ends s Hs Hne)) as T.
  simpl append in T. now rewrite append_nil_r in T.
Qed.

End MoreStringFacts.

(* ====================================================================== *)
(** ** What the Class-Name Splitter returns *)
(* ====================================================================== *)

Section SplitClassOutput.
Import Py Spider.

Lemma solid_upper (s : string) : solid (upper s) = solid s.
Proof.
  unfold solid, upper. induction s as [|c s IH]; simpl; [reflexivity|].
  now rewrite isspace_upper_char, IH.
Qed.

Lemma starts_solid_not_blank (s : string) : starts_solid s = true -> blank s = false.
Proof.
  destruct s as [|c s]; simpl; [discriminate|].
  intros Hc. apply negb_true_iff in Hc. unfold blank. simpl. now rewrite Hc.
Qed.

Lemma upper_nonempty (s : string) : s <> "" -> upper s <> "".
Proof. destruct s; [congruence | discriminate]. Qed.

Lemma trimmed_ends (y : string) :
  starts_solid y = true -> ends_solid y = true -> strip y = y.
Proof.
  intros Hs He. pose proof (strip_padded "" y "" eq_refl eq_refl Hs He) as T.
  simpl append in T. now rewrite append_nil_r in T.
Qed.

Lemma split_class_dept_upper (s : string) :
  fst (_split_class (upper s)) = fst (_split_class s).
Proof.
  unfold _split_class. rewrite strip_upper, split_none_1_upper.
  destruct (split_none_1 (strip s)) as [|p0 [|p1 [|p2 ps]]]; simpl;
    try reflexivity; apply upper_idem.
Qed.

End SplitClassOutput.

(** X1. Whatever the input, the department returned by the Class-Name
    Splitter has no whitespace and is in upper case, and the number is
    trimmed; the department is empty exactly when the input is empty or only
    whitespace; a number is never returned without a department; and the
    department does not depend on the case of the input. *)
Theorem split_class_output (s : string) :
  solid (fst (Spider._split_class s)) = true
  /\ Py.upper (fst (Spider._split_class s)) = fst (Spider._split_class s)
  /\ trimmed (snd (Spider._split_class s))
  /\ (fst (Spider._split_class s) = "" <-> blank s = true)
  /\ (snd (Spider._split_class s) <> "" -> fst (Spider._split_class s) <> "")
  /\ fst (Spider._split_class (Py.upper s)) = fst (Spider._split_class s).
Proof.
  assert (Hcase : fst (Spider._split_class (Py.upper s)) = fst (Spider._split_class s))
    by apply split_class_dept_upper.
  rewrite Hcase. clear Hcase.
  destruct (split_class_forms_cover s)
    as [Hb | [[l [x [r [Es [Hl [Hr [Hx Hx0]]]]]]]
             | [l [x [w [y [r [Es [Hl [Hr [Hx [Hx0 [Hw [Hw0 [Hy He]]]]]]]]]]]]]]].
  - rewrite (split_class_blank s Hb). simpl. splits; try reflexivity.
    + now split.
    + congruence.
  - assert (Hnb : blank s = false).
    { rewrite Es, !blank_app, (starts_solid_not_blank x (solid_starts x Hx Hx0)).
      now rewrite andb_false_r. }
    rewrite Es, (split_class_one l x r Hl Hr Hx Hx0), <- Es. simpl. splits.
    + now rewrite solid_upper.
    + apply upper_idem.
    + reflexivity.
    + split; intros E; [now apply upper_nonempty in E | congruence].
    + congruence.
    + reflexivity.
  - assert (Hnb : blank s = false).
    { rewrite Es, !blank_app, (starts_solid_not_blank x (solid_starts x Hx Hx0)).
      now rewrite andb_false_r. }
    rewrite Es, (split_class_two l x w y r Hl Hr Hx Hx0 Hw Hw0 Hy He), <- Es.
    simpl. splits.
    + now rewrite solid_upper.
    + apply upper_idem.
    + now apply trimmed_ends.
    + split; intros E; [now apply upper_nonempty in E | congruence].
    + intros _. now apply upper_nonempty.
    + reflexivity.
Qed.

Lemma split_class_output_witness :
  fst (Spider._split_class " cse  3666 ") <> "".
Proof.
  destruct (split_class_output " cse  3666 ") as [_ [_ [_ [_ [H5 _]]]]].
  apply H5. vm_compute. discriminate.
Defined.

(* ====================================================================== *)
(** ** What Term Discovery returns, and the requests built from it *)
(* ====================================================================== *)

Section TermRequests.
Import Py Spider.

Lemma isdigit_word_only (v : string) : isdigit v = true -> word_only v = true.
Proof.
  unfold isdigit, word_only. intros H. apply andb_true_iff in H as [_ H].
  induction v as [|c v IH]; [reflexivity|].
  simpl in *. apply andb_true_iff in H as [Hc H].
  now rewrite (isdecimal_isword c Hc), IH.
Qed.

Lemma digit_options_in (options : list option_elem) (v l : string) :
  In (v, l) (digit_options options) ->
  exists opt, In opt options /\ v = opt_value_stripped opt /\ l = opt_label opt
              /\ isdigit v = true.
Proof.
  unfold digit_options. intros H. apply in_map_iff in H as [opt [E H]].
  apply filter_In in H as [Hin Hd]. injection E as <- <-.
  exists opt. now repeat split.
Qed.

Lemma extract_term_options_in (response : Response) (v l : string) :
  In (v, l) (_extract_term_options response) ->
  exists sel opt, In sel selectors_to_try /\ In opt (css response sel)
                  /\ v = opt_value_stripped opt /\ l = opt_label opt
                  /\ isdigit v = true.
Proof.
  unfold _extract_term_options. rewrite try_selectors_find.
  destruct (find _ selectors_to_try) as [sel|] eqn:F; [|contradiction].
  apply find_some in F as [Hsel _]. intros H.
  apply digit_options_in in H as [opt [Hin [Ev [El Hd]]]].
  exists sel, opt. now repeat split.
Qed.

End TermRequests.

(** X2. Every term that Term Discovery returns comes from an option element
    that one of the three selectors yields; its code is a string of digits,
    not empty, and its code and label carry no surrounding whitespace. *)
Theorem term_options_are_digit_codes (response : Response) (v l : string) :
  In (v, l) (Spider._extract_term_options response) ->
  (exists sel opt, In sel Spider.selectors_to_try
                   /\ In opt (Spider.css response sel)
                   /\ v = Spider.opt_value_stripped opt
                   /\ l = Spider.opt_label opt)
  /\ Py.isdigit v = true /\ v <> "" /\ trimmed v /\ trimmed l.
Proof.
  intros H. apply extract_term_options_in in H
    as [sel [opt [Hsel [Hopt [Ev [El Hd]]]]]].
  split; [exists sel, opt; now splits|].
  splits.
  - exact Hd.
  - intros E. rewrite E in Hd. discriminate Hd.
  - rewrite Ev. apply strip_idem.
  - rewrite El. apply strip_idem.
Qed.

Lemma term_options_are_digit_codes_witness :
  Py.isdigit "1258" = true /\ "1258" <> "" /\ trimmed "1258" /\ trimmed "Fall 2025".
Proof.
  apply (term_options_are_digit_codes two_dropdowns "1258" "Fall 2025").
  simpl. left. reflexivity.
Defined.

Section TermList.
Import Py Spider.
Context `{PyLib}.
Variable self : UConnSyllabiSpider.

Lemma term_loop (options : list (string * string)) (out : list output) :
  fold_left
    (fun out opt =>
       let '(term_code, term_label) := opt in
       if filtered_out (_target_terms self) term_code then out
       else (out ++ [YieldRequest
                       (term_request (TERM_LIST_URL ++ "?term=" ++ term_code)
                                     term_code term_label)])%list)
    options out
  = (out ++ map request_of_term (filter (term_wanted self) options))%list.
Proof.
  revert out. induction options as [|[c l] options IH]; intros out; simpl.
  - now rewrite app_nil_r.
  - rewrite IH. unfold term_wanted at 2. simpl.
    destruct (filtered_out (_target_terms self) c); simpl; [reflexivity|].
    now rewrite <- app_assoc.
Qed.

End TermList.

Section CharFacts.
Import Py.

Lemma mem_In (x : string) (l : list string) : Spider.mem x l = true <-> In x l.
Proof.
  unfold Spider.mem. rewrite existsb_exists. split.
  - intros [y [Hy E]]. apply String.eqb_eq in E. now subst.
  - intros Hx. exists x. split; [exact Hx | apply String.eqb_refl].
Qed.

Lemma split_1_no_char (x : ascii) (s : string) :
  has_char x s = false -> split_1 x s = [s].
Proof.
  induction s as [|c s IH]; [reflexivity|].
  rewrite has_char_cons. intros H. apply orb_false_iff in H as [Hc Hs].
  simpl. rewrite Ascii.eqb_sym, Hc, (IH Hs). reflexivity.
Qed.

Lemma split_no_char (x : ascii) (s : string) :
  has_char x s = false -> split x s = [s].
Proof.
  induction s as [|c s IH]; [reflexivity|].
  rewrite has_char_cons. intros H. apply orb_false_iff in H as [Hc Hs].
  simpl. rewrite Ascii.eqb_sym, Hc, (IH Hs). reflexivity.
Qed.

(** Replacing leaves a string without the first character of [old] as it is. *)
Lemma replace_no_char (o : ascii) (old new s : string) :
  has_char o s = false -> replace (String o old) new s = s.
Proof.
  unfold replace. simpl is_empty. cbv iota.
  induction s as [|c s IH]; [reflexivity|].
  rewrite has_char_cons. intros H. apply orb_false_iff in H as [Hc Hs].
  simpl. destruct (ascii_dec o c) as [->|Hne].
  - rewrite Ascii.eqb_refl in Hc. discriminate Hc.
  - now rewrite (IH Hs).
Qed.

(** After [replace("|", "%7C")] no pipe is left. *)
Lemma replace_pipe_no_pipe (s : string) : has_char "|" (replace "|" "%7C" s) = false.
Proof.
  unfold replace. simpl is_empty. cbv iota.
  induction s as [|c s IH]; [reflexivity|].
  cbn [replace_go]. rewrite prefix_char.
  destruct (Ascii.eqb "|" c) eqn:E.
  - simpl String.length. simpl Nat.sub. simpl append.
    rewrite !has_char_cons, IH. reflexivity.
  - now rewrite has_char_cons, E, IH.
Qed.

Lemma unquote_app_no_percent (a b : string) :
  has_char "%" a = false -> Url.unquote_go 0 (a ++ b) = a ++ Url.unquote_go 0 b.
Proof.
  induction a as [|c a IH]; [reflexivity|].
  rewrite has_char_cons. intros H. apply orb_false_iff in H as [Hc Hs].
  change (String c a ++ b) with (String c (a ++ b)).
  cbn [Url.unquote_go]. rewrite Ascii.eqb_sym, Hc, (IH Hs). reflexivity.
Qed.

Lemma unquote_no_percent (s : string) : has_char "%" s = false -> Url.unquote s = s.
Proof.
  intros H. unfold Url.unquote.
  pose proof (unquote_app_no_percent s "" H) as T.
  now rewrite !append_nil_r in T.
Qed.

Lemma word_only_app (a b : string) : word_only (a ++ b) = word_only a && word_only b.
Proof. apply sforall_append. Qed.

Lemma word_only_no_char (x : ascii) (s : string) :
  isword x = false -> word_only s = true -> has_char x s = false.
Proof. intros Hx Hs. now apply (sforall_no_char isword). Qed.

End CharFacts.

(** X3. [parse_term_list] yields nothing but requests: one for each term
    that Term Discovery returns and the term filter lets pass, in the order
    of the page, for the URL of the term list with [?term=] and the code,
    carrying the code and the label to [parse_term_results].  Without target
    terms (none given, or an empty set) every discovered term is requested;
    with target terms every requested code is one of them. *)
Theorem parse_term_list_requests `{PyLib} (self : Spider.UConnSyllabiSpider)
    (response : Response) :
  Spider.parse_term_list self response
  = map request_of_term
        (filter (term_wanted self) (Spider._extract_term_options response))
  /\ items_of (Spider.parse_term_list self response) = []
  /\ (Spider._target_terms self = None \/ Spider._target_terms self = Some [] ->
      Spider.parse_term_list self response
      = map request_of_term (Spider._extract_term_options response))
  /\ (forall l r, Spider._target_terms self = Some l -> l <> [] ->
      In r (requests_of (Spider.parse_term_list self response)) ->
      exists code label,
        In code l
        /\ In (code, label) (Spider._extract_term_options response)
        /\ req_url r = Spider.TERM_LIST_URL ++ "?term=" ++ code
        /\ req_callback r = Some parse_term_results_cb
        /\ req_cb_kwargs r = [("term_code", code); ("term_name", label)]).
Proof.
  assert (E : Spider.parse_term_list self response
              = map request_of_term
                  (filter (term_wanted self) (Spider._extract_term_options response))).
  { unfold Spider.parse_term_list. now rewrite term_loop. }
  splits.
  - exact E.
  - rewrite E. clear E. induction (filter _ _) as [|o l IH]; [reflexivity | exact IH].
  - intros Hnone. rewrite E. clear E. f_equal.
    induction (Spider._extract_term_options response) as [|o l IH]; [reflexivity|].
    simpl. unfold term_wanted at 1.
    destruct Hnone as [-> | ->]; simpl; now rewrite IH.
  - intros l r Hl Hl0 Hr. rewrite E in Hr.
    unfold requests_of in Hr. apply in_flat_map in Hr as [o [Ho Hr]].
    apply in_map_iff in Ho as [[code label] [<- Hopt]].
    apply filter_In in Hopt as [Hin Hw].
    simpl in Hr. destruct Hr as [<-|[]].
    exists code, label. splits; try reflexivity; [|exact Hin].
    unfold term_wanted in Hw. rewrite Hl in Hw. simpl in Hw.
    destruct l as [|a l']; [congruence|].
    apply negb_true_iff, negb_false_iff in Hw. now apply mem_In.
Qed.

Lemma parse_term_list_requests_witness :
  exists code label,
    In code ["1258"; "1253"]
    /\ In (code, label) (Spider._extract_term_options two_dropdowns)
    /\ "https://syllabus.uconn.edu/public/search_term.php?term=1258"
       = Spider.TERM_LIST_URL ++ "?term=" ++ code
    /\ Some parse_term_results_cb = Some parse_term_results_cb
    /\ [("term_code", "1258"); ("term_name", "Fall 2025")]
       = [("term_code", code); ("term_name", label)].
Proof.
  destruct (parse_term_list_requests
              (Spider.__init__ (Some "1258, 1253") None None) two_dropdowns)
    as [_ [_ [_ H4]]].
  apply (H4 ["1258"; "1253"]
            {| req_url := "https://syllabus.uconn.edu/public/search_term.php?term=1258";
               req_headers := [];
               req_callback := Some parse_term_results_cb;
               req_cb_kwargs := [("term_code", "1258"); ("term_name", "Fall 2025")] |}).
  - vm_compute. reflexivity.
  - discriminate.
  - vm_compute. left. reflexivity.
Defined.

Section TermUrl.
Import Py.

Lemma digits_no_char (x : ascii) (code : string) :
  isdecimal x = false -> isdigit code = true -> has_char x code = false.
Proof.
  intros Hx Hd. unfold isdigit in Hd. apply andb_true_iff in Hd as [_ Hd].
  now apply (sforall_no_char isdecimal).
Qed.

Lemma split_at_no_char (x : ascii) (s : string) :
  has_char x s = false -> Url.split_at x s = (s, "").
Proof. intros H. unfold Url.split_at. now rewrite split_1_no_char. Qed.

(** The parts of the term list URL followed by a query without [#]. *)
Lemma urlparse_search_term (q : string) :
  has_char "#" q = false ->
  Url.urlparse ("https://syllabus.uconn.edu/public/search_term.php?" ++ q)
  = {| scheme := "https"; netloc := "syllabus.uconn.edu";
       path := "/public/search_term.php"; params := "";
       query := q; fragment := "" |}.
Proof.
  intros Hq. unfold Url.urlparse, Url.urlparse_with. simpl.
  rewrite split_at_no_char.
  - reflexivity.
  - rewrite !has_char_cons. exact Hq.
Qed.

Lemma parse_qsl_one (name v : string) :
  has_char "&" name = false -> has_char "=" name = false ->
  has_char "&" v = false -> v <> "" ->
  Url.parse_qsl (name ++ "=" ++ v)
  = [(Url.unquote (replace "+" " " name), Url.unquote (replace "+" " " v))].
Proof.
  intros Hn1 Hn2 Hv Hv0. unfold Url.parse_qsl.
  rewrite split_no_char
    by (rewrite has_char_app, Hn1; simpl append; now rewrite has_char_cons, Hv).
  cbn [flat_map].
  change ("=" ++ v) with (String "=" v).
  assert (S1 : split_1 "=" (name ++ String "=" v) = [name; v]).
  { clear Hn1 Hv Hv0. induction name as [|c name IH].
    - reflexivity.
    - rewrite has_char_cons in Hn2. apply orb_false_iff in Hn2 as [Hc Hn2].
      change (String c name ++ String "=" v) with (String c (name ++ String "=" v)).
      cbn [split_1]. rewrite Ascii.eqb_sym, Hc, (IH Hn2). reflexivity. }
  rewrite S1. destruct v; [congruence|]. now rewrite app_nil_r.
Qed.

End TermUrl.

(** X4. The URL that [parse_term_list] builds for a term code of digits
    parses back to the term list page with the single query parameter
    [term] holding that code. *)
Theorem term_url_round_trip (code : string) :
  Py.isdigit code = true ->
  path (Url.urlparse (Spider.TERM_LIST_URL (H := url_lib) ++ "?term=" ++ code))
  = "/public/search_term.php"
  /\ netloc (Url.urlparse (Spider.TERM_LIST_URL (H := url_lib) ++ "?term=" ++ code))
     = "syllabus.uconn.edu"
  /\ parse_qs (H := url_lib)
       (query (Url.urlparse (Spider.TERM_LIST_URL (H := url_lib) ++ "?term=" ++ code)))
     = [("term", [code])].
Proof.
  intros Hd.
  assert (E : Spider.TERM_LIST_URL (H := url_lib) ++ "?term=" ++ code
              = "https://syllabus.uconn.edu/public/search_term.php?" ++ ("term=" ++ code)).
  { assert (T : Spider.TERM_LIST_URL (H := url_lib)
                = "https://syllabus.uconn.edu/public/search_term.php")
      by (vm_compute; reflexivity).
    rewrite T. reflexivity. }
  rewrite E, urlparse_search_term.
  - splits; try reflexivity. cbn [query]. unfold parse_qs.
    change (@parse_qsl url_lib) with Url.parse_qsl.
    replace ("term=" ++ code) with ("term" ++ "=" ++ code) by reflexivity.
    rewrite parse_qsl_one; try reflexivity.
    + rewrite (replace_no_char "+" "" " " code)
        by (apply digits_no_char; [reflexivity | exact Hd]).
      rewrite (unquote_no_percent code)
        by (apply digits_no_char; [reflexivity | exact Hd]).
      reflexivity.
    + apply digits_no_char; [reflexivity | exact Hd].
    + intros Z. rewrite Z in Hd. discriminate Hd.
  - simpl append. rewrite !has_char_cons.
    apply digits_no_char; [reflexivity | exact Hd].
Qed.

Lemma term_url_round_trip_witness :
  parse_qs (H := url_lib)
    (query (Url.urlparse (Spider.TERM_LIST_URL (H := url_lib) ++ "?term=" ++ "1258")))
  = [("term", ["1258"])].
Proof.
  apply (term_url_round_trip "1258"). reflexivity.
Defined.

(* ====================================================================== *)
(** ** The URL that [scrapy.Request] keeps for a term *)
(* ====================================================================== *)

Section TermRequestUrl.
Import Py.

Lemma above_space (c : ascii) :
  Scrapy.c0_or_space c = false -> Scrapy.tab_or_newline c = false.
Proof.
  unfold Scrapy.c0_or_space, Scrapy.tab_or_newline. intros Hc.
  apply Nat.leb_gt in Hc.
  destruct (Nat.eqb_spec (code c) 9); [lia|].
  destruct (Nat.eqb_spec (code c) 10); [lia|].
  destruct (Nat.eqb_spec (code c) 13); [lia|]. reflexivity.
Qed.

Lemma strip_plain (s : string) :
  sforall (fun c => negb (Scrapy.c0_or_space c)) s = true -> Scrapy._strip s = s.
Proof.
  intros Hs. unfold Scrapy._strip.
  assert (Hr : Scrapy.rstrip_c0 s = s).
  { induction s as [|c s IH]; [reflexivity|].
    simpl in Hs. apply andb_true_iff in Hs as [Hc Hs]. apply negb_true_iff in Hc.
    simpl. now rewrite Hc, (IH Hs). }
  rewrite Hr.
  assert (Hl : Scrapy.lstrip_c0 s = s).
  { destruct s as [|c s]; [reflexivity|].
    simpl in Hs. apply andb_true_iff in Hs as [Hc _]. apply negb_true_iff in Hc.
    simpl. now rewrite Hc. }
  rewrite Hl. clear Hr Hl.
  induction s as [|c s IH]; [reflexivity|].
  simpl in Hs. apply andb_true_iff in Hs as [Hc Hs]. apply negb_true_iff in Hc.
  simpl. now rewrite (above_space c Hc), (IH Hs).
Qed.

Lemma digit_plain (c : ascii) :
  isdecimal c = true -> Scrapy.c0_or_space c = false /\ Scrapy.unreserved c = true.
Proof.
  intros Hc. split.
  - unfold isdecimal, in_range in Hc. apply andb_true_iff in Hc as [Hlo _].
    apply Nat.leb_le in Hlo. unfold Scrapy.c0_or_space. apply Nat.leb_gt. lia.
  - unfold Scrapy.unreserved. rewrite Hc. now rewrite !orb_true_r.
Qed.

Lemma quote_digits (safe : ascii -> bool) (code : string) :
  sforall isdecimal code = true -> Scrapy.quote safe code = code.
Proof.
  induction code as [|c code IH]; [reflexivity|]. simpl. intros Hs.
  apply andb_true_iff in Hs as [Hc Hs].
  destruct (digit_plain c Hc) as [_ Hu]. now rewrite Hu, (IH Hs).
Qed.

Lemma urlsplit_search_term (q : string) :
  has_char "#" q = false ->
  Url.urlsplit ("https://syllabus.uconn.edu/public/search_term.php?" ++ q)
  = Some {| scheme := "https"; netloc := "syllabus.uconn.edu";
            path := "/public/search_term.php"; params := "";
            query := q; fragment := "" |}.
Proof.
  intros Hq. unfold Url.urlsplit. simpl.
  rewrite split_at_no_char.
  - reflexivity.
  - rewrite !has_char_cons. exact Hq.
Qed.

(** The requests of [start_requests] and of [parse_term_list] keep their
    URL as it is. *)
Lemma start_request_url_kept :
  Scrapy.request_url (Spider.TERM_LIST_URL (H := url_lib))
  = Some (Spider.TERM_LIST_URL (H := url_lib)).
Proof. vm_compute. reflexivity. Qed.

Lemma term_request_url_kept (code : string) :
  isdigit code = true ->
  Scrapy.request_url (Spider.TERM_LIST_URL (H := url_lib) ++ "?term=" ++ code)
  = Some (Spider.TERM_LIST_URL (H := url_lib) ++ "?term=" ++ code).
Proof.
  intros Hd.
  change (Spider.TERM_LIST_URL (H := url_lib) ++ "?term=" ++ code)
    with ("https://syllabus.uconn.edu/public/search_term.php?" ++ ("term=" ++ code)).
  pose proof Hd as Hd'. unfold isdigit in Hd'. apply andb_true_iff in Hd' as [_ Hs].
  unfold Scrapy.request_url, Scrapy.safe_url_string.
  rewrite strip_plain.
  - rewrite urlsplit_search_term.
    + cbn [netloc scheme path query fragment].
      change (Scrapy.port "syllabus.uconn.edu") with (Some (@None string)).
      cbv iota.
      change (Scrapy.userinfo "syllabus.uconn.edu") with (@None string, @None string).
      cbv iota beta.
      change (Scrapy.hostname "syllabus.uconn.edu") with "syllabus.uconn.edu".
      change (Url.mem "https" Scrapy.special_schemes) with true. cbv iota.
      change (Scrapy.quote Scrapy.path_safest "/public/search_term.php")
        with "/public/search_term.php".
      change (Scrapy.quote Scrapy.special_query_safest ("term=" ++ code))
        with ("term=" ++ Scrapy.quote Scrapy.special_query_safest code).
      rewrite (quote_digits _ code Hs).
      reflexivity.
    + simpl append. rewrite !has_char_cons. simpl. now apply digits_no_char.
  - rewrite sforall_append. apply andb_true_iff. split; [reflexivity|].
    simpl append. simpl. clear Hd.
    induction code as [|c code IH]; [reflexivity|]. simpl in *.
    apply andb_true_iff in Hs as [Hc Hs2].
    destruct (digit_plain c Hc) as [H0 _]. now rewrite H0, (IH Hs2).
Qed.

End TermRequestUrl.

(* ====================================================================== *)
(** ** The Pagination Guard and the records of a results page *)
(* ====================================================================== *)

(** X5. The Pagination Guard looks at the first match of each of its three
    selectors, in their order, and hands the first of these links that is
    present and not empty to [response.urljoin], which resolves it against
    the base URL of the page: the guard returns what that call returns and
    raises when that call raises.  It returns nothing exactly when each of
    the three first matches is absent or empty, so an empty link never
    becomes a request for the page itself. *)
Theorem find_next_page_first_link (response : Response) :
  Spider._find_next_page response
  = match first_truthy [get_opt (rel_next_hrefs response);
                        get_opt (text_next_hrefs response);
                        get_opt (raquo_next_hrefs response)] with
    | Some l => option_map Some (resp_urljoin response l)
    | None => Some None
    end
  /\ (Spider._find_next_page response = Some None <->
      Py.or_default (get_opt (rel_next_hrefs response)) "" = ""
      /\ Py.or_default (get_opt (text_next_hrefs response)) "" = ""
      /\ Py.or_default (get_opt (raquo_next_hrefs response)) "" = "")
  /\ (forall l, first_truthy [get_opt (rel_next_hrefs response);
                              get_opt (text_next_hrefs response);
                              get_opt (raquo_next_hrefs response)] = Some l ->
      l <> "").
Proof.
  unfold Spider._find_next_page, Spider.or_opt, Py.or_default. simpl first_truthy.
  destruct (get_opt (rel_next_hrefs response)) as [[|a1 l1]|];
    destruct (get_opt (text_next_hrefs response)) as [[|a2 l2]|];
    destruct (get_opt (raquo_next_hrefs response)) as [[|a3 l3]|];
    simpl; splits; try reflexivity;
    try (split; [ try (destruct (resp_urljoin response _); discriminate);
                  intros _; now splits
                | intros [E1 [E2 E3]]; try discriminate E1; try discriminate E2;
                  try discriminate E3; reflexivity]);
    intros l E; try discriminate E; injection E as <-; discriminate.
Qed.

Lemma find_next_page_first_link_witness :
  Spider._find_next_page paged_results
  = Some (Some "https://syllabus.uconn.edu/public/search_term.php?term=1258&page=2&sort=class name")
  /\ Spider._find_next_page script_link_page = Some (Some "javascript:next()")
  /\ Spider._find_next_page results_page = Some None.
Proof.
  destruct (find_next_page_first_link paged_results) as [H1 _].
  destruct (find_next_page_first_link script_link_page) as [H2 _].
  destruct (find_next_page_first_link results_page) as [H3 _].
  rewrite H1, H2, H3. splits; reflexivity.
Defined.

Section ResultsPage.
Import Py Spider.
Context `{PyLib}.
Variable self : UConnSyllabiSpider.

Lemma items_of_app (a b : list output) : items_of (a ++ b) = (items_of a ++ items_of b)%list.
Proof. unfold items_of. now rewrite flat_map_app. Qed.

Lemma requests_of_app (a b : list output) :
  requests_of (a ++ b) = (requests_of a ++ requests_of b)%list.
Proof. unfold requests_of. now rewrite flat_map_app. Qed.

Lemma items_of_items (f : TableRow -> UConnSyllabusItem) (rows : list TableRow) :
  items_of (map (fun row => YieldItem (f row)) rows) = map f rows
  /\ requests_of (map (fun row => YieldItem (f row)) rows) = [].
Proof.
  induction rows as [|row rows [IH1 IH2]]; [now split|].
  simpl. now rewrite IH1, IH2.
Qed.

Lemma items_of_requests (requests : list Request) :
  items_of (map YieldRequest requests) = []
  /\ requests_of (map YieldRequest requests) = requests.
Proof.
  induction requests as [|r requests [IH1 IH2]]; [now split|].
  simpl. now rewrite IH1, IH2.
Qed.

(** The rows that become records. *)
Lemma emitted_items (response : Response) (tc tn : string) (out : list output) :
  parse_term_results self response tc tn = Some out ->
  items_of out
  = map (new_item self response tc tn)
      (filter (dept_allowed self)
         (map (row_of (headers response))
              (filter (row_kept (headers response)) (tr_rows response)))).
Proof.
  intros E. apply parse_term_results_out in E as [_ [_ ->]].
  rewrite items_of_app.
  destruct (items_of_items (new_item self response tc tn)
              (record_rows self response (tr_rows response))) as [E1 _].
  destruct (items_of_requests (next_page_requests response tc tn)) as [E2 _].
  rewrite E1, E2. now rewrite app_nil_r.
Qed.

(** The requests at the end of a run that does not raise. *)
Lemma emitted_requests (response : Response) (tc tn : string) (out : list output) :
  parse_term_results self response tc tn = Some out ->
  requests_of out = next_page_requests response tc tn.
Proof.
  intros E. apply parse_term_results_out in E as [_ [_ ->]].
  rewrite requests_of_app.
  destruct (items_of_items (new_item self response tc tn)
              (record_rows self response (tr_rows response))) as [_ E1].
  destruct (items_of_requests (next_page_requests response tc tn)) as [_ E2].
  now rewrite E1, E2.
Qed.

Lemma row_of_kept_fields (hs : list string) (cells : list cell) :
  row_kept hs cells = true ->
  row_class_name (row_of hs cells) <> ""
  /\ trimmed (row_class_name (row_of hs cells))
  /\ trimmed (row_section (row_of hs cells))
  /\ trimmed (row_instructor (row_of hs cells))
  /\ trimmed (row_href (row_of hs cells)).
Proof.
  intros Hk. unfold row_kept in Hk. apply andb_true_iff in Hk as [_ Hk].
  apply negb_true_iff, is_empty_false in Hk.
  splits; try apply strip_idem. exact Hk.
Qed.

End ResultsPage.

(** X6. [parse_term_results] raises exactly when [response.urljoin] raises
    on the link of a row that becomes a record or on the next-page link, or
    [scrapy.Request] rejects the next-page URL.  When it does not raise, it
    yields first the records, one for each table row that the Row Parser
    keeps and whose department passes the department filter, in the order
    of the page, and after them at most one request: the one for the next
    page, when the Pagination Guard finds a link, with the URL as
    [scrapy.Request] keeps it, the callback [parse_term_results] and the
    same term code and term name. *)
Theorem parse_term_results_structure `{PyLib} (self : Spider.UConnSyllabiSpider)
    (response : Response) (term_code term_name : string) :
  (Spider.parse_term_results self response term_code term_name = None <->
     links_resolve self response (tr_rows response) = false
     \/ Spider._find_next_page response = None
     \/ exists next_page,
          Spider._find_next_page response = Some (Some next_page)
          /\ next_page <> "" /\ request_url next_page = None)
  /\ forall out,
       Spider.parse_term_results self response term_code term_name = Some out ->
       out = (map YieldItem (items_of out) ++ map YieldRequest (requests_of out))%list
       /\ items_of out
          = map (Spider.new_item self response term_code term_name)
              (filter (dept_allowed self)
                 (map (row_of (header_names response))
                    (filter (row_kept (header_names response)) (tr_rows response))))
       /\ match Spider._find_next_page response with
          | Some (Some next_page) =>
              if Py.is_empty next_page then requests_of out = []
              else exists kept,
                     request_url next_page = Some kept
                     /\ requests_of out
                        = [ {| req_url := kept;
                               req_headers := [];
                               req_callback := Some parse_term_results_cb;
                               req_cb_kwargs := [("term_code", term_code);
                                                 ("term_name", term_name)] |} ]
          | _ => requests_of out = []
          end
       /\ List.length (items_of out) <= List.length (tr_rows response).
Proof.
  split.
  - rewrite parse_term_results_raises. unfold next_page_raises.
    destruct (Spider._find_next_page response) as [[next_page|]|].
    + split.
      * intros [E|E]; [now left|]. right. right. exists next_page.
        apply andb_true_iff in E as [E1 E2]. apply negb_true_iff in E1, E2.
        splits; [reflexivity | now apply is_empty_false |].
        destruct (request_url next_page); [discriminate E2 | reflexivity].
      * intros [E|[E|[np [Enp [Hne Hr]]]]]; [now left | discriminate E |].
        right. injection Enp as <-. rewrite Hr. simpl.
        apply is_empty_false in Hne. now rewrite Hne.
    + split.
      * intros [E|E]; [now left | discriminate E].
      * intros [E|[E|[np [Enp _]]]]; [now left | discriminate E | discriminate Enp].
    + split; intros _; right; [now left | reflexivity].
  - intros out Hout.
    pose proof (emitted_items self response term_code term_name out Hout) as Hitems.
    pose proof (emitted_requests self response term_code term_name out Hout) as Hreqs.
    destruct (parse_term_results_out self response term_code term_name out Hout)
      as [_ [Hnext Heq]].
    splits.
    + rewrite Hitems, Hreqs, map_map. exact Heq.
    + exact Hitems.
    + rewrite Hreqs. unfold next_page_requests, next_page_raises in *.
      destruct (Spider._find_next_page response) as [[next_page|]|]; try reflexivity.
      destruct (Py.is_empty next_page); [reflexivity|].
      destruct (request_url next_page) as [kept|]; [|discriminate Hnext].
      now exists kept.
    + rewrite Hitems, length_map.
      eapply Nat.le_trans; [apply filter_length_le|].
      rewrite length_map. apply filter_length_le.
Qed.

Lemma parse_term_results_structure_witness :
  Spider.parse_term_results (H := url_lib) plain_spider script_link_page
    "1258" "Fall 2025" = None
  /\ exists kept,
       request_url (PyLib := url_lib)
         "https://syllabus.uconn.edu/public/search_term.php?term=1258&page=2&sort=class name"
       = Some kept
       /\ requests_of paged_results_out
          = [ {| req_url := kept;
                 req_headers := [];
                 req_callback := Some parse_term_results_cb;
                 req_cb_kwargs := [("term_code", "1258");
                                   ("term_name", "Fall 2025")] |} ].
Proof.
  split.
  - destruct (parse_term_results_structure (H := url_lib) plain_spider
                script_link_page "1258" "Fall 2025") as [Hraises _].
    apply Hraises. right. right. exists "javascript:next()".
    splits; [reflexivity | discriminate | reflexivity].
  - destruct (parse_term_results_structure (H := url_lib) plain_spider
                paged_results "1258" "Fall 2025") as [_ Hout].
    destruct (Hout paged_results_out) as [_ [_ [Hreq _]]].
    + vm_compute. reflexivity.
    + exact Hreq.
Defined.

(** What [parse_term_results] puts into a record. *)
Lemma emitted_record_fields_aux `{PyLib} (self : Spider.UConnSyllabiSpider)
    (response : Response) (tc tn : string) (out : list output)
    (item : UConnSyllabusItem) :
  Spider.parse_term_results self response tc tn = Some out ->
  In item (items_of out) ->
  term_code item = Some tc /\ term_name item = Some tn
  /\ (exists cn, class_name item = Some cn /\ cn <> "" /\ trimmed cn)
  /\ (exists sec, section item = Some sec /\ trimmed sec)
  /\ (exists ins, instructor item = Some ins /\ trimmed ins)
  /\ (exists u, syllabus_web_url item = Some u /\ has_char "|" u = false
                /\ (file_urls item = Some []
                    \/ (file_urls item = Some [u] /\ u <> ""
                        /\ Spider._no_download self = false)))
  /\ both_empty item /\ files item = Some [].
Proof.
  intros Hout Hin. rewrite (emitted_items self response tc tn out Hout) in Hin.
  apply in_map_iff in Hin as [row [<- Hrow]].
  apply filter_In in Hrow as [Hrow _].
  apply in_map_iff in Hrow as [cells [<- Hcells]].
  apply filter_In in Hcells as [_ Hk].
  destruct (row_of_kept_fields _ _ Hk) as [Hc0 [Hc [Hs [Hi _]]]].
  splits; try reflexivity.
  - eexists. splits; [reflexivity | exact Hc0 | exact Hc].
  - eexists. split; [reflexivity | exact Hs].
  - eexists. split; [reflexivity | exact Hi].
  - eexists. split; [reflexivity|]. split.
    + unfold Spider.abs_url_of. destruct (Py.is_empty _); [reflexivity|].
      destruct (resp_urljoin response _); simpl;
        [apply replace_pipe_no_pipe | reflexivity].
    + simpl. destruct (Py.is_empty _) eqn:E; simpl; [now left|].
      destruct (Spider._no_download self); simpl; [now left|].
      right. splits; try reflexivity. now apply is_empty_false.
  - split; reflexivity.
Qed.

(** X7. Every record that [parse_term_results] yields carries the term code
    and the term name of the request, a class name that is not empty, and
    trimmed class name, section and instructor; its web URL has no literal
    pipe in it; its list of pending downloads is empty or holds exactly that
    URL, and it holds the URL only when the URL is not empty and the spider
    is not in no-download mode; both local-path fields are empty. *)
Theorem emitted_record_fields `{PyLib} (self : Spider.UConnSyllabiSpider)
    (response : Response) (tc tn : string) (out : list output)
    (item : UConnSyllabusItem) :
  Spider.parse_term_results self response tc tn = Some out ->
  In item (items_of out) ->
  term_code item = Some tc /\ term_name item = Some tn
  /\ (exists cn, class_name item = Some cn /\ cn <> "" /\ trimmed cn)
  /\ (exists sec, section item = Some sec /\ trimmed sec)
  /\ (exists ins, instructor item = Some ins /\ trimmed ins)
  /\ (exists u, syllabus_web_url item = Some u /\ has_char "|" u = false
                /\ (file_urls item = Some []
                    \/ (file_urls item = Some [u] /\ u <> ""
                        /\ Spider._no_download self = false)))
  /\ both_empty item /\ files item = Some [].
Proof. apply emitted_record_fields_aux. Qed.

Lemma emitted_record_fields_witness :
  term_code cse_item = Some "1258" /\ term_name cse_item = Some "Fall 2025"
  /\ (exists cn, class_name cse_item = Some cn /\ cn <> "" /\ trimmed cn)
  /\ (exists sec, section cse_item = Some sec /\ trimmed sec)
  /\ (exists ins, instructor cse_item = Some ins /\ trimmed ins)
  /\ (exists u, syllabus_web_url cse_item = Some u /\ has_char "|" u = false
                /\ (file_urls cse_item = Some []
                    \/ (file_urls cse_item = Some [u] /\ u <> ""
                        /\ Spider._no_download plain_spider = false)))
  /\ both_empty cse_item /\ files cse_item = Some [].
Proof.
  apply (emitted_record_fields plain_spider results_page "1258" "Fall 2025"
           results_page_out).
  - vm_compute. reflexivity.
  - simpl. right. left. reflexivity.
Defined.

(** X8. For a record that [parse_term_results] yields, the files pipeline
    builds no request when the spider is in no-download mode or the record
    has no link; otherwise it builds exactly one request, for the record's
    web URL, which holds no literal pipe: the request carries that URL as
    [scrapy.Request] keeps it and the term list page as Referer, and the
    pipeline raises exactly when [scrapy.Request] rejects the URL. *)
Theorem media_requests_of_record `{PyLib} (self : Spider.UConnSyllabiSpider)
    (response : Response) (tc tn : string) (out : list output)
    (item : UConnSyllabusItem) :
  Spider.parse_term_results self response tc tn = Some out ->
  In item (items_of out) ->
  exists u,
    syllabus_web_url item = Some u
    /\ has_char "|" u = false
    /\ Pipelines.get_media_requests item
       = if Spider._no_download self || Py.is_empty u then Some []
         else
           match request_url u with
           | Some kept =>
               Some [ {| req_url := kept;
                         req_headers :=
                           [("Referer",
                             "https://syllabus.uconn.edu/public/search_term.php")];
                         req_callback := None;
                         req_cb_kwargs := [] |} ]
           | None => None
           end.
Proof.
  intros Hout Hin.
  destruct (emitted_record_fields_aux self response tc tn out item Hout Hin)
    as [_ [_ [_ [_ [_ [[u [Hu [Hp Hf]]] _]]]]]].
  exists u. split; [exact Hu|]. split; [exact Hp|].
  unfold Pipelines.get_media_requests.
  rewrite (emitted_items self response tc tn out Hout) in Hin.
  apply in_map_iff in Hin as [row [<- _]].
  simpl in Hu. injection Hu as <-. simpl.
  destruct (Py.is_empty _) eqn:E;
    destruct (Spider._no_download self); simpl; reflexivity.
Qed.

Lemma media_requests_of_record_witness :
  exists u,
    syllabus_web_url cse_item = Some u
    /\ has_char "|" u = false
    /\ Pipelines.get_media_requests (H := url_lib) cse_item
       = if Spider._no_download plain_spider || Py.is_empty u then Some []
         else
           match request_url (PyLib := url_lib) u with
           | Some kept =>
               Some [ {| req_url := kept;
                         req_headers :=
                           [("Referer",
                             "https://syllabus.uconn.edu/public/search_term.php")];
                         req_callback := None;
                         req_cb_kwargs := [] |} ]
           | None => None
           end.
Proof.
  apply (media_requests_of_record (H := url_lib) plain_spider results_page
           "1258" "Fall 2025" results_page_out).
  - vm_compute. reflexivity.
  - simpl. right. left. reflexivity.
Defined.

(* ====================================================================== *)
(** ** The run-time filters *)
(* ====================================================================== *)

Section Filters.
Import Py Spider.

Lemma split_pieces_no_sep (x : ascii) (s p : string) :
  In p (split x s) -> has_char x p = false.
Proof.
  revert p. induction s as [|c s IH]; intros p Hp.
  - simpl in Hp. destruct Hp as [<-|[]]. reflexivity.
  - simpl in Hp. destruct (Ascii.eqb c x) eqn:E.
    + destruct Hp as [<-|Hp]; [reflexivity | now apply IH].
    + destruct (split x s) as [|h t] eqn:S.
      * destruct Hp as [<-|[]]. rewrite has_char_cons, Ascii.eqb_sym, E. reflexivity.
      * destruct Hp as [<-|Hp].
        -- rewrite has_char_cons, Ascii.eqb_sym, E. simpl. apply IH. now left.
        -- apply IH. now right.
Qed.

Lemma has_char_strip (x : ascii) (p : string) :
  has_char x p = false -> has_char x (strip p) = false.
Proof.
  intros Hp. unfold strip.
  destruct (rstrip_split p) as [r [_ Er]].
  destruct (lstrip_split (rstrip p)) as [l [_ El]].
  rewrite Er, El, !has_char_app in Hp.
  apply orb_false_iff in Hp as [Hp _]. now apply orb_false_iff in Hp as [_ Hp].
Qed.

Lemma has_comma_upper (s : string) : has_char "," (upper s) = has_char "," s.
Proof.
  unfold upper. induction s as [|c s IH]; [reflexivity|].
  simpl smap. rewrite !has_char_cons, IH.
  now rewrite (Ascii.eqb_sym "," (upper_char c)), upper_char_comma, Ascii.eqb_sym.
Qed.

Lemma split_comma_upper (s : string) : split "," (upper s) = map upper (split "," s).
Proof.
  induction s as [|c s IH]; [reflexivity|].
  change (upper (String c s)) with (String (upper_char c) (upper s)).
  simpl. rewrite upper_char_comma, IH.
  destruct (Ascii.eqb c ","); [reflexivity|].
  now destruct (split "," s).
Qed.

Lemma comma_set_upper (a : string) :
  comma_set (fun d => upper (strip d)) (upper a)
  = comma_set (fun d => upper (strip d)) a.
Proof.
  unfold comma_set. rewrite split_comma_upper.
  induction (split "," a) as [|t l IH]; [reflexivity|].
  simpl. rewrite strip_upper, is_empty_upper.
  destruct (is_empty (strip t)); simpl; [exact IH|].
  now rewrite strip_upper, upper_idem, IH.
Qed.

Lemma comma_set_member (f : string -> string) (a m : string) :
  In m (comma_set f a) ->
  exists t, m = f t /\ strip t <> "" /\ has_char "," t = false.
Proof.
  unfold comma_set. intros Hm. apply in_map_iff in Hm as [t [<- Ht]].
  apply filter_In in Ht as [Hin Hne]. exists t. splits; [reflexivity| |].
  - apply negb_true_iff in Hne. now apply is_empty_false.
  - now apply (split_pieces_no_sep "," a).
Qed.

End Filters.

(** X9. With target departments set, every record yielded has a class name
    whose department, as the Class-Name Splitter gives it, is one of them;
    with none set (not given, or an empty set) every row that the Row Parser
    keeps becomes a record; and the filter does not look at the case of the
    class name. *)
Theorem department_filter `{PyLib} (self : Spider.UConnSyllabiSpider)
    (response : Response) (tc tn : string) (out : list output) :
  Spider.parse_term_results self response tc tn = Some out ->
  (forall l item, Spider._target_depts self = Some l -> l <> [] ->
     In item (items_of out) ->
     exists cn, class_name item = Some cn /\ In (fst (Spider._split_class cn)) l)
  /\ (Spider._target_depts self = None \/ Spider._target_depts self = Some [] ->
      items_of out
      = map (Spider.new_item self response tc tn)
          (map (row_of (Spider.headers response))
               (filter (row_kept (Spider.headers response)) (tr_rows response))))
  /\ (forall row row',
        Spider.row_class_name row' = Py.upper (Spider.row_class_name row) ->
        dept_allowed self row' = dept_allowed self row).
Proof.
  intros Hout. rewrite (emitted_items self response tc tn out Hout). splits.
  - intros l item Hl Hl0 Hin.
    apply in_map_iff in Hin as [row [<- Hrow]].
    apply filter_In in Hrow as [_ Hd].
    exists (Spider.row_class_name row). split; [reflexivity|].
    unfold dept_allowed in Hd. rewrite Hl in Hd. simpl in Hd.
    destruct l as [|a l']; [congruence|].
    apply negb_true_iff, negb_false_iff in Hd. now apply mem_In.
  - intros Hnone. f_equal.
    induction (map _ _) as [|row rows IH]; [reflexivity|].
    simpl. unfold dept_allowed at 1.
    destruct Hnone as [-> | ->]; simpl; now rewrite IH.
  - intros row row' E. unfold dept_allowed.
    now rewrite E, split_class_dept_upper.
Qed.

Lemma department_filter_witness :
  exists cn, class_name cse_item = Some cn
             /\ In (fst (Spider._split_class cn)) ["CSE"; "ECE"].
Proof.
  destruct (department_filter (Spider.__init__ None (Some "cse, ece") None)
              results_page "1258" "Fall 2025" [YieldItem cse_item]) as [H1 _].
  - vm_compute. reflexivity.
  - apply (H1 ["CSE"; "ECE"] cse_item).
    + vm_compute. reflexivity.
    + discriminate.
    + simpl. left. reflexivity.
Defined.

(** X10. The members of the target sets that [__init__] builds from the
    comma-separated arguments are never empty, carry no surrounding
    whitespace and no comma, and the departments are in upper case; the
    department argument may be given in any case; and no-download mode is
    on exactly when the argument, trimmed, is [1], [true] or [yes]. *)
Theorem init_targets (target_terms target_depts no_download : option string) :
  (forall l m, Spider._target_depts
                 (Spider.__init__ target_terms target_depts no_download) = Some l ->
     In m l ->
     m <> "" /\ trimmed m /\ Py.upper m = m /\ has_char "," m = false)
  /\ (forall l m, Spider._target_terms
                    (Spider.__init__ target_terms target_depts no_download) = Some l ->
        In m l -> m <> "" /\ trimmed m /\ has_char "," m = false)
  /\ (forall d, target_depts = Some d ->
        Spider.__init__ target_terms (Some (Py.upper d)) no_download
        = Spider.__init__ target_terms target_depts no_download)
  /\ (Spider._no_download (Spider.__init__ target_terms target_depts no_download) = true
      <-> exists v, no_download = Some v /\ In (Py.strip v) ["1"; "true"; "yes"]).
Proof.
  splits.
  - intros l m Hl Hm. simpl in Hl.
    destruct target_depts as [a|]; [|discriminate Hl].
    destruct (Py.is_empty a); [discriminate Hl|]. injection Hl as <-.
    apply comma_set_member in Hm as [t [-> [Ht Hc]]]. splits.
    + now apply upper_nonempty.
    + unfold trimmed. now rewrite strip_upper, strip_idem.
    + apply upper_idem.
    + rewrite has_comma_upper. now apply has_char_strip.
  - intros l m Hl Hm. simpl in Hl.
    destruct target_terms as [a|]; [|discriminate Hl].
    destruct (Py.is_empty a); [discriminate Hl|]. injection Hl as <-.
    apply comma_set_member in Hm as [t [-> [Ht Hc]]]. splits.
    + exact Ht.
    + apply strip_idem.
    + now apply has_char_strip.
  - intros d ->. unfold Spider.__init__.
    now rewrite is_empty_upper, comma_set_upper.
  - unfold Spider.__init__. cbn [Spider._no_download]. destruct no_download as [v|].
    + destruct (Py.is_empty v) eqn:E.
      * split; [discriminate|]. intros [v' [Ev Hin]]. injection Ev as <-.
        apply is_empty_true in E. subst v. simpl in Hin.
        destruct Hin as [Z|[Z|[Z|[]]]]; discriminate Z.
      * rewrite mem_In. split; [intros Hin; now exists v|].
        intros [v' [Ev Hin]]. now injection Ev as <-.
    + split; [discriminate|]. intros [v [Ev _]]. discriminate Ev.
Qed.

Lemma init_targets_witness :
  "CSE" <> "" /\ trimmed "CSE" /\ Py.upper "CSE" = "CSE" /\ has_char "," "CSE" = false.
Proof.
  destruct (init_targets None (Some " cse ,, math") (Some "no")) as [H1 _].
  apply (H1 ["CSE"; "MATH"] "CSE").
  - vm_compute. reflexivity.
  - simpl. left. reflexivity.
Defined.

(* ====================================================================== *)
(** ** More on the Row Parser and the Column Resolver *)
(* ====================================================================== *)

(** X11. Every row that the Row Parser yields has a class name that is not
    empty, and its four fields carry no surrounding whitespace; it comes
    from a table row with more cells than the highest resolved column; and
    the parser yields at most as many rows as the table has. *)
Theorem parsed_rows_wellformed (response : Response) (tc tn : string)
    (rows : list Spider.TableRow) (row : Spider.TableRow) :
  Spider._parse_results_table response tc tn = Some rows ->
  In row rows ->
  Spider.row_class_name row <> ""
  /\ trimmed (Spider.row_class_name row)
  /\ trimmed (Spider.row_section row)
  /\ trimmed (Spider.row_instructor row)
  /\ trimmed (Spider.row_href row)
  /\ (exists cells, In cells (tr_rows response)
                    /\ Spider.max_col (Spider.headers response) < List.length cells
                    /\ row = row_of (Spider.headers response) cells)
  /\ List.length rows <= List.length (tr_rows response).
Proof.
  rewrite parse_results_table_rows_aux. intros E Hin. injection E as <-.
  assert (Hlen : List.length
                   (map (row_of (Spider.headers response))
                      (filter (row_kept (Spider.headers response)) (tr_rows response)))
                 <= List.length (tr_rows response))
    by (rewrite length_map; apply filter_length_le).
  apply in_map_iff in Hin as [cells [<- Hcells]].
  apply filter_In in Hcells as [Hin Hk].
  destruct (row_of_kept_fields _ _ Hk) as [H0 [H1 [H2 [H3 H4]]]].
  splits; trivial.
  exists cells. splits; trivial.
  unfold row_kept in Hk. apply andb_true_iff in Hk as [Hk _].
  rewrite max_col_highest. now apply Nat.ltb_lt.
Qed.

Lemma parsed_rows_wellformed_witness :
  Spider.row_class_name (row_of (Spider.headers results_page)
     [ {| cell_texts := ["Fall 2025"]; cell_hrefs := [] |};
       {| cell_texts := [" CSE 3666 "]; cell_hrefs := [] |};
       {| cell_texts := ["001"]; cell_hrefs := [] |};
       {| cell_texts := ["Zhijie Shi"]; cell_hrefs := [] |};
       {| cell_texts := []; cell_hrefs := ["download.php?file=10|abc"] |} ]) <> "".
Proof.
  eapply (parsed_rows_wellformed results_page "1258" "Fall 2025").
  - apply parse_results_table_rows_aux.
  - simpl. right. left. reflexivity.
Defined.

Section ColumnBounds.
Import Py Spider.

Lemma find_header_some (name : string) (hs : list string) (k i : nat) :
  find_header name hs k = Some i ->
  k <= i /\ i - k < List.length hs
  /\ exists h, nth_error hs (i - k) = Some h /\ contains name h = true.
Proof.
  revert k. induction hs as [|h hs IH]; intros k E; simpl in E; [discriminate|].
  destruct (contains name h) eqn:C.
  - injection E as <-. rewrite Nat.sub_diag. simpl. splits; [lia | lia |].
    exists h. now split.
  - apply IH in E as [Hk [Hlt [h' [Hn Hc]]]].
    replace (i - k) with (S (i - S k)) by lia. simpl. splits; [lia | lia |].
    exists h'. now split.
Qed.

Lemma col_index_cases (hs names : list string) (default : nat) :
  (col_index hs names default = default
   /\ forall n h, In n names -> In h hs -> contains n h = false)
  \/ (exists name h,
        In name names
        /\ nth_error hs (col_index hs names default) = Some h
        /\ contains name h = true
        /\ col_index hs names default < List.length hs).
Proof.
  induction names as [|name names IH]; simpl.
  - left. split; [reflexivity | intros n h []].
  - destruct (find_header name hs 0) as [i|] eqn:F.
    + right. apply find_header_some in F as [_ [Hlt [h [Hn Hc]]]].
      rewrite Nat.sub_0_r in *. exists name, h. splits; trivial. now left.
    + destruct IH as [[E Hno]|[n [h [Hin [Hn [Hc Hlt]]]]]].
      * left. split; [exact E|]. intros n h [En|Hn] Hh; [|now apply Hno].
        destruct (contains n h) eqn:C; [|reflexivity].
        subst name. apply In_nth_error in Hh as [j Hj].
        assert (Hfirst : exists i, first_containing n hs i).
        { clear F Hno E. revert j Hj.
          induction hs as [|h0 hs IHhs]; intros j Hj; [destruct j; discriminate|].
          destruct (contains n h0) eqn:C0.
          - exists 0. split; [exists h0; now split | intros j' h' Hj'; lia].
          - destruct j as [|j]; [simpl in Hj; injection Hj as ->; congruence|].
            destruct (IHhs j Hj) as [i [[h1 [Hi Hc1]] Hlow]].
            exists (S i). split; [exists h1; now split|].
            intros j' h' Hj' Hn'. destruct j' as [|j'].
            + simpl in Hn'. now injection Hn' as <-.
            + apply (Hlow j' h'); [lia | exact Hn']. }
        destruct Hfirst as [i Hi].
        rewrite (find_header_first n hs i 0 Hi) in F. discriminate F.
      * right. exists n, h. splits; trivial. now right.
Qed.

End ColumnBounds.

(** X12. The index that the Column Resolver returns is either the positional
    default, and then no header contains any candidate of the column, or the
    index of an existing header that contains one of the candidates.  So no
    resolved column of a results table exceeds both the default 4 and the
    last header. *)
Theorem col_index_sound (hs names : list string) (default : nat) :
  ((Spider.col_index hs names default = default
    /\ forall n h, In n names -> In h hs -> Py.contains n h = false)
   \/ (exists name h,
         In name names
         /\ nth_error hs (Spider.col_index hs names default) = Some h
         /\ Py.contains name h = true
         /\ Spider.col_index hs names default < List.length hs))
  /\ Spider.max_col hs <= Nat.max 4 (List.length hs - 1).
Proof.
  split; [apply col_index_cases|].
  assert (B : forall names default, default <= 4 ->
              Spider.col_index hs names default <= Nat.max 4 (List.length hs - 1)).
  { intros ns d Hd.
    destruct (col_index_cases hs ns d) as [[E _]|[n [h [_ [_ [_ Hlt]]]]]]; lia. }
  unfold Spider.max_col, Spider.class_col, Spider.section_col,
    Spider.instructor_col, Spider.syllabi_col.
  pose proof (B ["class"] 1). pose proof (B ["section"] 2).
  pose proof (B ["instructor"] 3). pose proof (B ["syllabi"; "syllabus"] 4).
  lia.
Qed.

Lemma col_index_sound_witness :
  Spider.max_col ["term"; "class"; "section"; "instructor"; "syllabi"; "notes"]
  <= Nat.max 4 (List.length ["term"; "class"; "section"; "instructor"; "syllabi"; "notes"] - 1).
Proof.
  apply (col_index_sound ["term"; "class"; "section"; "instructor"; "syllabi"; "notes"]
           ["class"] 1).
Defined.

(* ====================================================================== *)
(** ** More on the Filename Deriver *)
(* ====================================================================== *)

Section FilenameParts.
Import Py Pipelines.

Lemma lower_app (a b : string) : lower (a ++ b) = lower a ++ lower b.
Proof.
  unfold lower. induction a as [|c a IH]; simpl; [reflexivity | now rewrite IH].
Qed.

Lemma endswith_refl (s : string) : endswith s s = true.
Proof. destruct s; [reflexivity|]. cbn [endswith]. now rewrite String.eqb_refl. Qed.

Lemma endswith_app (a suf : string) : endswith suf (a ++ suf) = true.
Proof.
  induction a as [|c a IH]; [apply endswith_refl|].
  change (String c a ++ suf) with (String c (a ++ suf)).
  cbn [endswith]. rewrite IH. apply orb_true_r.
Qed.

Lemma endswith_split (suf s : string) :
  endswith suf s = true -> exists a, s = a ++ suf.
Proof.
  induction s as [|c s IH]; cbn [endswith].
  - rewrite orb_false_r. intros E. apply String.eqb_eq in E. subst suf. now exists "".
  - intros E. apply orb_true_iff in E as [E|E].
    + apply String.eqb_eq in E. subst suf. now exists "".
    + destruct (IH E) as [a ->]. now exists (String c a).
Qed.

Lemma last_char_app (a b : string) : b <> "" -> last_char (a ++ b) = last_char b.
Proof.
  intros Hb. induction a as [|c a IH]; [reflexivity|].
  change (String c a ++ b) with (String c (a ++ b)).
  simpl. destruct (a ++ b) eqn:E; [|exact IH].
  destruct a; simpl in E; [congruence | discriminate].
Qed.

(** A path that ends in [.doc] does not end in [.docx]. *)
Lemma doc_not_docx (a : string) : endswith ".docx" (a ++ ".doc") = false.
Proof.
  destruct (endswith ".docx" (a ++ ".doc")) eqn:E; [|reflexivity].
  apply endswith_split in E as [b Eb].
  assert (L : last_char (a ++ ".doc") = last_char (b ++ ".docx")) by now rewrite Eb.
  rewrite !last_char_app in L by discriminate. discriminate L.
Qed.

Lemma sforall_isword_default : word_only "UNKNOWN" = true /\ word_only "0" = true.
Proof. now split. Qed.

Lemma fp_dept_word_only (item : option UConnSyllabusItem) : word_only (fp_dept item) = true.
Proof.
  unfold fp_dept. destruct (fp_parts item); [reflexivity|].
  apply sfilter_sforall.
Qed.

Lemma fp_number_word_only (item : option UConnSyllabusItem) :
  word_only (fp_number item) = true.
Proof.
  unfold fp_number. destruct (fp_parts item) as [|p0 [|p1 ps]]; try reflexivity.
  apply sfilter_sforall.
Qed.

End FilenameParts.

(** X13. The extension of the filename is decided by the end of the URL's
    path alone, without regard to case: [docx] for a path ending in [.docx],
    [doc] for a path ending in [.doc], [pdf] for every other path; it is
    always one of the three, and the filename ends with a dot and it. *)
Theorem file_ext_by_suffix `{PyLib} (request : Request) (response : option Response)
    (info : option Pipelines.MediaInfo) (item : option UConnSyllabusItem)
    (stem suf : string) :
  path (urlparse (req_url request)) = stem ++ suf ->
  (Py.lower suf = ".docx" -> Pipelines.fp_ext (req_url request) = "docx")
  /\ (Py.lower suf = ".doc" -> Pipelines.fp_ext (req_url request) = "doc")
  /\ (Py.endswith ".docx" (Py.lower (stem ++ suf)) = false ->
      Py.endswith ".doc" (Py.lower (stem ++ suf)) = false ->
      Pipelines.fp_ext (req_url request) = "pdf")
  /\ (Pipelines.fp_ext (req_url request) = "docx"
      \/ Pipelines.fp_ext (req_url request) = "doc"
      \/ Pipelines.fp_ext (req_url request) = "pdf")
  /\ Py.endswith ("." ++ Pipelines.fp_ext (req_url request))
       (Pipelines.file_path request response info item) = true.
Proof.
  intros Hp.
  assert (Hend : Py.endswith ("." ++ Pipelines.fp_ext (req_url request))
                   (Pipelines.file_path request response info item) = true).
  { unfold Pipelines.file_path.
    replace (Pipelines.fp_term_code item ++ "_" ++ Pipelines.fp_dept item ++ "_"
             ++ Pipelines.fp_number item ++ "_"
             ++ Pipelines.fp_file_id (req_url request)
             ++ "." ++ Pipelines.fp_ext (req_url request))
      with ((Pipelines.fp_term_code item ++ "_" ++ Pipelines.fp_dept item ++ "_"
             ++ Pipelines.fp_number item ++ "_"
             ++ Pipelines.fp_file_id (req_url request))
            ++ ("." ++ Pipelines.fp_ext (req_url request)))
      by now rewrite !append_assoc.
    apply endswith_app. }
  revert Hend. unfold Pipelines.fp_ext. rewrite Hp. intros Hend. splits.
  - intros E. now rewrite lower_app, E, endswith_app.
  - intros E. now rewrite lower_app, E, doc_not_docx, endswith_app.
  - intros E1 E2. now rewrite E1, E2.
  - destruct (Py.endswith ".docx" _); [now left|].
    destruct (Py.endswith ".doc" _); [right; now left | right; now right].
  - exact Hend.
Qed.

Lemma file_ext_by_suffix_witness :
  Pipelines.fp_ext (H := url_lib) "https://syllabus.uconn.edu/files/Syllabus.DocX?x=1.pdf"
  = "docx".
Proof.
  destruct (file_ext_by_suffix (H := url_lib)
              {| req_url := "https://syllabus.uconn.edu/files/Syllabus.DocX?x=1.pdf";
                 req_headers := []; req_callback := None; req_cb_kwargs := [] |}
              None None None "/files/Syllabus" ".DocX") as [H1 _].
  - vm_compute. reflexivity.
  - apply H1. reflexivity.
Defined.

(** X14. Whatever the item holds, the term code component of the filename
    is trimmed and the dept and number components consist of word characters
    only (so they hold no slash, dot, pipe or blank); without an item, or
    with an item that has neither term code nor class name, the filename is
    [0000_UNKNOWN_0_] followed by the file identifier, a dot and the
    extension. *)
Theorem filename_components `{PyLib} (request : Request) (response : option Response)
    (info : option Pipelines.MediaInfo) (item : option UConnSyllabusItem)
    (bare : UConnSyllabusItem) :
  Py.or_default (term_code bare) "" = "" ->
  Py.or_default (class_name bare) "" = "" ->
  trimmed (Pipelines.fp_term_code item)
  /\ word_only (Pipelines.fp_dept item) = true
  /\ word_only (Pipelines.fp_number item) = true
  /\ has_char "/" (Pipelines.fp_dept item ++ "_" ++ Pipelines.fp_number item) = false
  /\ Pipelines.file_path request response info None
     = "0000_UNKNOWN_0_" ++ Pipelines.fp_file_id (req_url request)
       ++ "." ++ Pipelines.fp_ext (req_url request)
  /\ Pipelines.file_path request response info (Some bare)
     = Pipelines.file_path request response info None.
Proof.
  intros Ht Hc. splits.
  - apply strip_idem.
  - apply fp_dept_word_only.
  - apply fp_number_word_only.
  - rewrite has_char_app.
    rewrite (word_only_no_char "/" _ eq_refl (fp_dept_word_only item)).
    simpl append. rewrite has_char_cons.
    now rewrite (word_only_no_char "/" _ eq_refl (fp_number_word_only item)).
  - reflexivity.
  - unfold Pipelines.file_path, Pipelines.fp_term_code, Pipelines.fp_dept,
      Pipelines.fp_number, Pipelines.fp_parts, Pipelines.fp_class_name,
      Pipelines.adapter_get.
    unfold Py.or_default in *.
    destruct (term_code bare) as [t|]; destruct (class_name bare) as [c|];
      try (destruct t; [|discriminate Ht]); try (destruct c; [|discriminate Hc]);
      reflexivity.
Qed.

Lemma filename_components_witness :
  Pipelines.file_path (H := url_lib)
    {| req_url := "https://syllabus.uconn.edu/public/download.php?file=7%7Cff";
       req_headers := []; req_callback := None; req_cb_kwargs := [] |}
    None None
    (Some {| term_name := Some "Fall 2025"; class_name := Some "";
             section := None; instructor := None; syllabus_web_url := None;
             syllabus_local_filepath := None; syllabus_local_filename := None;
             term_code := None; file_urls := None; files := None |})
  = Pipelines.file_path (H := url_lib)
      {| req_url := "https://syllabus.uconn.edu/public/download.php?file=7%7Cff";
         req_headers := []; req_callback := None; req_cb_kwargs := [] |}
      None None None.
Proof.
  apply (filename_components (H := url_lib)
           {| req_url := "https://syllabus.uconn.edu/public/download.php?file=7%7Cff";
              req_headers := []; req_callback := None; req_cb_kwargs := [] |}
           None None None); reflexivity.
Defined.

(* ====================================================================== *)
(** ** Completion and export of a record *)
(* ====================================================================== *)

Section Completion.
Import Py Pipelines.

Lemma downloaded_failures (reasons : list string) (rest : list media_result) :
  downloaded (map Failure reasons ++ rest) = downloaded rest.
Proof.
  unfold downloaded. rewrite flat_map_app.
  induction reasons as [|x reasons IH]; [reflexivity | exact IH].
Qed.

Lemma falsy_or (x : option string) :
  falsy x = true -> or_default x "" = "".
Proof. destruct x as [[|c s]|]; simpl; congruence. Qed.

Lemma no_slash_prefix (s : string) : has_char "/" s = false -> prefix "/" s = false.
Proof.
  destruct s as [|c s]; [reflexivity|].
  rewrite has_char_cons. intros E. apply orb_false_iff in E as [E _].
  now rewrite prefix_char.
Qed.

Lemma set_local_twice (item : UConnSyllabusItem) (p f p' f' : option string) :
  set_local (set_local item p f) p' f' = set_local item p' f'.
Proof. reflexivity. Qed.

End Completion.

(** X15. For every record and every list of results, [item_completed] leaves
    both local-path fields set (never missing) and the metadata unchanged,
    and completing a record a second time with the same results changes
    nothing.  The first finished download among the results decides the
    fields, the failures before it being ignored; when no download finished,
    a field that was missing or empty becomes the empty string and a field
    that held a value keeps it. *)
Theorem item_completed_behaviour (results : list Pipelines.media_result)
    (item : UConnSyllabusItem) (info : Pipelines.MediaInfo)
    (reasons : list string) (r : Pipelines.file_info)
    (rest : list Pipelines.media_result) :
  (exists p f,
      syllabus_local_filepath (Pipelines.item_completed results item info) = Some p
      /\ syllabus_local_filename (Pipelines.item_completed results item info) = Some f)
  /\ same_metadata (Pipelines.item_completed results item info) item
  /\ Pipelines.item_completed results (Pipelines.item_completed results item info) info
     = Pipelines.item_completed results item info
  /\ syllabus_local_filename
       (Pipelines.item_completed
          (map Pipelines.Failure reasons ++ Pipelines.Ok r :: rest) item info)
     = Some (Py.basename (Pipelines.fi_path r))
  /\ (Pipelines.downloaded results = [] ->
      syllabus_local_filepath (Pipelines.item_completed results item info)
      = Some (Py.or_default (syllabus_local_filepath item) "")
      /\ syllabus_local_filename (Pipelines.item_completed results item info)
         = Some (Py.or_default (syllabus_local_filename item) "")).
Proof.
  splits.
  - unfold Pipelines.item_completed.
    destruct (Pipelines.downloaded results); simpl.
    + destruct (syllabus_local_filepath item) as [[|c s]|];
        destruct (syllabus_local_filename item) as [[|c' s']|]; simpl;
        eexists _, _; split; reflexivity.
    + eexists _, _; split; reflexivity.
  - unfold Pipelines.item_completed.
    destruct (Pipelines.downloaded results); apply set_local_metadata.
  - unfold Pipelines.item_completed.
    destruct (Pipelines.downloaded results); [|reflexivity].
    destruct item as [a b c d e [[|c1 p]|] [[|c2 f]|] g h i]; reflexivity.
  - unfold Pipelines.item_completed.
    now rewrite downloaded_failures.
  - intros E. unfold Pipelines.item_completed. rewrite E. simpl.
    destruct (syllabus_local_filepath item) as [[|c s]|];
      destruct (syllabus_local_filename item) as [[|c' s']|]; now split.
Qed.

Lemma item_completed_behaviour_witness :
  syllabus_local_filepath (Pipelines.item_completed [Pipelines.Failure "404"] cse_item
                             {| Pipelines.FILES_STORE := None |})
  = Some (Py.or_default (syllabus_local_filepath cse_item) "")
  /\ syllabus_local_filename (Pipelines.item_completed [Pipelines.Failure "404"] cse_item
                                {| Pipelines.FILES_STORE := None |})
     = Some (Py.or_default (syllabus_local_filename cse_item) "").
Proof.
  destruct (item_completed_behaviour [Pipelines.Failure "404"] cse_item
              {| Pipelines.FILES_STORE := None |} []
              {| Pipelines.fi_url := ""; Pipelines.fi_path := "";
                 Pipelines.fi_checksum := ""; Pipelines.fi_status := "" |} [])
    as [_ [_ [_ [_ H5]]]].
  apply H5. reflexivity.
Defined.

(** X16. When the first finished download of a record has the filename that
    [file_path] generates, and neither the term code nor the file identifier
    holds a slash, the record's filename is exactly that generated name and
    its file path is the store directory joined with it; with the default
    store that is [syllabi_downloads/] followed by the name. *)
Theorem completed_record_names_file `{PyLib} (request : Request)
    (response : option Response) (pinfo : option Pipelines.MediaInfo)
    (item0 : option UConnSyllabusItem) (item : UConnSyllabusItem)
    (info : Pipelines.MediaInfo) (reasons : list string) (r : Pipelines.file_info)
    (rest : list Pipelines.media_result) :
  Pipelines.fi_path r = Pipelines.file_path request response pinfo item0 ->
  has_char "/" (Pipelines.fp_term_code item0) = false ->
  has_char "/" (Pipelines.fp_file_id (req_url request)) = false ->
  syllabus_local_filename
    (Pipelines.item_completed
       (map Pipelines.Failure reasons ++ Pipelines.Ok r :: rest) item info)
  = Some (Pipelines.file_path request response pinfo item0)
  /\ syllabus_local_filepath
       (Pipelines.item_completed
          (map Pipelines.Failure reasons ++ Pipelines.Ok r :: rest) item info)
     = Some (Py.path_join
               (match Pipelines.FILES_STORE info with
                | Some s => s
                | None => "syllabi_downloads"
                end)
               (Pipelines.file_path request response pinfo item0))
  /\ (Pipelines.FILES_STORE info = None ->
      syllabus_local_filepath
        (Pipelines.item_completed
           (map Pipelines.Failure reasons ++ Pipelines.Ok r :: rest) item info)
      = Some ("syllabi_downloads/" ++ Pipelines.file_path request response pinfo item0)).
Proof.
  intros Hpath Ht Hf.
  assert (Hns : has_char "/" (Pipelines.file_path request response pinfo item0) = false).
  { unfold Pipelines.file_path.
    rewrite !has_char_app, Ht, Hf.
    rewrite (word_only_no_char "/" _ eq_refl (fp_dept_word_only item0)).
    rewrite (word_only_no_char "/" _ eq_refl (fp_number_word_only item0)).
    unfold Pipelines.fp_ext.
    destruct (Py.endswith ".docx" _); [reflexivity|].
    destruct (Py.endswith ".doc" _); reflexivity. }
  assert (Hb : Py.basename (Pipelines.fi_path r)
               = Pipelines.file_path request response pinfo item0).
  { rewrite Hpath. now apply basename_no_slash. }
  unfold Pipelines.item_completed. rewrite downloaded_failures.
  simpl Pipelines.downloaded. cbn [app]. cbv iota. rewrite Hb. simpl.
  splits; try reflexivity.
  intros ->. unfold Py.path_join. rewrite (no_slash_prefix _ Hns). reflexivity.
Qed.

Lemma completed_record_names_file_witness :
  syllabus_local_filename
    (Pipelines.item_completed
       (map Pipelines.Failure ["timeout"]
        ++ Pipelines.Ok {| Pipelines.fi_url :=
                             "https://syllabus.uconn.edu/public/download.php?file=10%7Cabc";
                           Pipelines.fi_path := "1258_CSE_3666_10.pdf";
                           Pipelines.fi_checksum := "";
                           Pipelines.fi_status := "downloaded" |} :: [])
       cse_item {| Pipelines.FILES_STORE := None |})
  = Some (Pipelines.file_path (H := url_lib)
            {| req_url := "https://syllabus.uconn.edu/public/download.php?file=10%7Cabc";
               req_headers := []; req_callback := None; req_cb_kwargs := [] |}
            None None (Some cse_item)).
Proof.
  apply (completed_record_names_file (H := url_lib)
           {| req_url := "https://syllabus.uconn.edu/public/download.php?file=10%7Cabc";
              req_headers := []; req_callback := None; req_cb_kwargs := [] |}
           None None (Some cse_item) cse_item {| Pipelines.FILES_STORE := None |}
           ["timeout"]
           {| Pipelines.fi_url :=
                "https://syllabus.uconn.edu/public/download.php?file=10%7Cabc";
              Pipelines.fi_path := "1258_CSE_3666_10.pdf";
              Pipelines.fi_checksum := "";
              Pipelines.fi_status := "downloaded" |} []);
    vm_compute; reflexivity.
Defined.

Section ExportFacts.
Import Pipelines.

Lemma writerow_export_record (item : UConnSyllabusItem) :
  CsvExportPipeline.writerow OUTPUT_FIELDS (export_record item)
  = map snd (export_record item).
Proof. destruct item. vm_compute. reflexivity. Qed.

Lemma export_loop (items : list UConnSyllabusItem)
    (written : list (list string)) (records : list (dict string)) :
  fold_left
    (fun st item =>
       let (written, item1) := CsvExportPipeline.process_item (fst st) item in
       (written, fst (JsonExportPipeline.process_item (snd st) item1)))
    items (written, records)
  = ((written ++ map (fun item => map snd (export_record item)) items)%list,
     (records ++ map export_record items)%list).
Proof.
  match goal with |- fold_left ?f _ _ = _ => set (F := f) end.
  assert (HF : forall w r item,
             F (w, r) item
             = ((w ++ [map snd (export_record item)])%list,
                (r ++ [export_record item])%list)).
  { intros w r item. unfold F, CsvExportPipeline.process_item,
      JsonExportPipeline.process_item. cbn [fst snd].
    now rewrite writerow_export_record. }
  clearbody F.
  revert written records. induction items as [|item items IH]; intros written records.
  - simpl. now rewrite !app_nil_r.
  - cbn [fold_left map]. rewrite HF, IH. now rewrite <- !app_assoc.
Qed.

End ExportFacts.

(** X17. After [open_spider] and any sequence of records, the CSV pipeline
    has written the header and then one row per record, and the JSON
    pipeline holds one object per record, both in the order of arrival; the
    cells of a row are the values of the matching object; every object has
    exactly the seven output fields as keys, a missing field being the empty
    string; the term code and the two download lists are never exported, so
    records that agree on the seven fields export alike; and the count that
    [close_spider] reports is the number of records. *)
Theorem export_pipelines (items : list UConnSyllabusItem) (a b : UConnSyllabusItem) :
  export_all items
  = (Pipelines.OUTPUT_FIELDS
       :: map (fun item => map snd (Pipelines.export_record item)) items,
     map Pipelines.export_record items)
  /\ map fst (Pipelines.export_record a) = Pipelines.OUTPUT_FIELDS
  /\ (forall f, In f Pipelines.OUTPUT_FIELDS ->
        dict_get f (Pipelines.export_record a)
        = Some (Py.or_default (Pipelines.item_field f a) ""))
  /\ (term_name a = term_name b -> class_name a = class_name b ->
      section a = section b -> instructor a = instructor b ->
      syllabus_web_url a = syllabus_web_url b ->
      syllabus_local_filepath a = syllabus_local_filepath b ->
      syllabus_local_filename a = syllabus_local_filename b ->
      Pipelines.export_record a = Pipelines.export_record b)
  /\ snd (Pipelines.JsonExportPipeline.close_spider (snd (export_all items)))
     = List.length items
  /\ snd (Pipelines.CsvExportPipeline.process_item [] a) = a
  /\ snd (Pipelines.JsonExportPipeline.process_item [] a) = a.
Proof.
  assert (E : export_all items
              = (Pipelines.OUTPUT_FIELDS
                   :: map (fun item => map snd (Pipelines.export_record item)) items,
                 map Pipelines.export_record items)).
  { unfold export_all. now rewrite export_loop. }
  splits; try reflexivity.
  - exact E.
  - intros f Hf. destruct a as [a1 a2 a3 a4 a5 a6 a7 a8 a9 a10].
    simpl in Hf.
    destruct Hf as [<-|[<-|[<-|[<-|[<-|[<-|[<-|[]]]]]]]]; cbv;
      match goal with |- Some (match ?x with _ => _ end) = _ =>
        destruct x as [[|? ?]|]; reflexivity end.
  - intros E1 E2 E3 E4 E5 E6 E7.
    destruct a, b. simpl in *. subst. reflexivity.
  - rewrite E. simpl. apply length_map.
Qed.

Lemma export_pipelines_witness :
  Pipelines.export_record cse_item
  = Pipelines.export_record
      {| term_name := Some "Fall 2025";
         class_name := Some "CSE 3666";
         section := Some "001";
         instructor := Some "Zhijie Shi";
         syllabus_web_url :=
           Some "https://syllabus.uconn.edu/public/download.php?file=10%7Cabc";
         syllabus_local_filepath := Some "";
         syllabus_local_filename := Some "";
         term_code := None;
         file_urls := None;
         files := Some ["x"] |}.
Proof.
  destruct (export_pipelines [] cse_item
              {| term_name := Some "Fall 2025";
                 class_name := Some "CSE 3666";
                 section := Some "001";
                 instructor := Some "Zhijie Shi";
                 syllabus_web_url :=
                   Some "https://syllabus.uconn.edu/public/download.php?file=10%7Cabc";
                 syllabus_local_filepath := Some "";
                 syllabus_local_filename := Some "";
                 term_code := None;
                 file_urls := None;
                 files := Some ["x"] |}) as [_ [_ [_ [H4 _]]]].
  apply H4; reflexivity.
Defined.

Section FileIdRoundTrip.
Import Py Pipelines.

Lemma file_param_of_query (u v : string) :
  query (Url.urlparse u) = "file=" ++ v ->
  has_char "&" v = false -> v <> "" ->
  fp_file_param (H := url_lib) u = Url.unquote (replace "+" " " v).
Proof.
  intros Hq Hv Hv0. unfold fp_file_param.
  change (query (urlparse u)) with (query (Url.urlparse u)). rewrite Hq.
  unfold parse_qs. change (@parse_qsl url_lib) with Url.parse_qsl.
  replace ("file=" ++ v) with ("file" ++ "=" ++ v) by reflexivity.
  rewrite parse_qsl_one; trivial.
Qed.

Lemma unquote_encoded_pipe (id hash : string) :
  has_char "%" id = false -> has_char "%" hash = false ->
  Url.unquote (id ++ "%7C" ++ hash) = id ++ "|" ++ hash.
Proof.
  intros Hi Hh. unfold Url.unquote.
  rewrite (unquote_app_no_percent id _ Hi). f_equal.
  change ("%7C" ++ hash) with (String "%" (String "7" (String "C" hash))).
  cbn [Url.unquote_go]. simpl.
  pose proof (unquote_app_no_percent hash "" Hh) as T.
  rewrite !append_nil_r in T. simpl in T. now rewrite T.
Qed.

Lemma replace_pipe_app (pre s : string) :
  has_char "|" pre = false ->
  replace "|" "%7C" (pre ++ s) = pre ++ replace "|" "%7C" s.
Proof.
  unfold replace. simpl is_empty. cbv iota.
  induction pre as [|c pre IH]; intros Hpre; [reflexivity|].
  rewrite has_char_cons in Hpre. apply orb_false_iff in Hpre as [Hc Hpre].
  change (String c pre ++ s) with (String c (pre ++ s)).
  cbn [replace_go]. rewrite prefix_char, Hc, (IH Hpre). reflexivity.
Qed.

Lemma replace_pipe_cons (s : string) :
  replace "|" "%7C" (String "|" s) = "%7C" ++ replace "|" "%7C" s.
Proof.
  unfold replace. simpl is_empty. cbv iota.
  cbn [replace_go]. rewrite prefix_char. reflexivity.
Qed.

End FileIdRoundTrip.

(** X18. The pipe that the spider encodes is the pipe that the Filename
    Deriver finds: for an identifier and a hash of word characters, a
    download URL whose query is [file=], the identifier, the encoded pipe
    [%7C] (or the pipe itself) and the hash has that identifier as its file
    identifier; and encoding the pipe of the one query gives the other. *)
Theorem file_id_round_trip (u id hash : string) :
  word_only id = true -> word_only hash = true ->
  query (Url.urlparse u) = "file=" ++ id ++ "%7C" ++ hash
  \/ query (Url.urlparse u) = "file=" ++ id ++ "|" ++ hash ->
  Pipelines.fp_file_id (H := url_lib) u = id
  /\ Py.replace "|" "%7C" ("file=" ++ id ++ "|" ++ hash)
     = "file=" ++ id ++ "%7C" ++ hash.
Proof.
  intros Hi Hh Hq.
  pose proof (word_only_no_char "%" id eq_refl Hi) as Hi1.
  pose proof (word_only_no_char "%" hash eq_refl Hh) as Hh1.
  pose proof (word_only_no_char "|" id eq_refl Hi) as Hi2.
  pose proof (word_only_no_char "|" hash eq_refl Hh) as Hh2.
  assert (Hparam : Pipelines.fp_file_param (H := url_lib) u = id ++ "|" ++ hash).
  { destruct Hq as [Hq|Hq].
    - rewrite (file_param_of_query u _ Hq).
      + rewrite (replace_no_char "+" "" " ")
          by (rewrite !has_char_app, (word_only_no_char "+" id eq_refl Hi),
                (word_only_no_char "+" hash eq_refl Hh); reflexivity).
        now apply unquote_encoded_pipe.
      + rewrite !has_char_app, (word_only_no_char "&" id eq_refl Hi),
          (word_only_no_char "&" hash eq_refl Hh). reflexivity.
      + destruct id; discriminate.
    - rewrite (file_param_of_query u _ Hq).
      + rewrite (replace_no_char "+" "" " ")
          by (rewrite !has_char_app, (word_only_no_char "+" id eq_refl Hi),
                (word_only_no_char "+" hash eq_refl Hh); reflexivity).
        apply unquote_no_percent. now rewrite !has_char_app, Hi1, Hh1.
      + rewrite !has_char_app, (word_only_no_char "&" id eq_refl Hi),
          (word_only_no_char "&" hash eq_refl Hh). reflexivity.
      + destruct id; discriminate. }
  split.
  - unfold Pipelines.fp_file_id, Pipelines.fp_file_param_decoded. rewrite Hparam.
    rewrite (replace_no_char "%" "7C" "|")
      by (now rewrite !has_char_app, Hi1, Hh1).
    change (id ++ "|" ++ hash) with (id ++ String "|" hash).
    rewrite contains_char_mid, split_first by exact Hi2.
    apply solid_strip. now apply word_only_solid.
  - replace ("file=" ++ id ++ "|" ++ hash) with (("file=" ++ id) ++ String "|" hash)
      by now rewrite append_assoc.
    rewrite replace_pipe_app
      by (rewrite has_char_app, Hi2; reflexivity).
    rewrite replace_pipe_cons, (replace_no_char "|" "" "%7C" hash Hh2).
    now rewrite !append_assoc.
Qed.

Lemma file_id_round_trip_witness :
  Pipelines.fp_file_id (H := url_lib)
    "https://syllabus.uconn.edu/public/download.php?file=1410%7Cd41d8cd98f00"
  = "1410".
Proof.
  apply (file_id_round_trip
           "https://syllabus.uconn.edu/public/download.php?file=1410%7Cd41d8cd98f00"
           "1410" "d41d8cd98f00"); try reflexivity.
  left. vm_compute. reflexivity.
Defined.


(* ====================================================================== *)
(** ** The crawl as a whole *)
(* ====================================================================== *)

Section Crawl.
Import Py Spider.
Context `{PyLib}.
Variable self : UConnSyllabiSpider.

Lemma term_list_requests_wanted (response : Response) (r : Request) :
  In r (requests_of (parse_term_list self response)) -> term_results_request self r.
Proof.
  unfold parse_term_list. rewrite term_loop. simpl app.
  intros Hr. unfold requests_of in Hr. apply in_flat_map in Hr as [o [Ho Hr]].
  apply in_map_iff in Ho as [[code label] [<- Hopt]].
  apply filter_In in Hopt as [Hin Hw].
  simpl in Hr. destruct Hr as [<-|[]].
  split; [reflexivity|]. exists code, label. split; [reflexivity|]. split.
  - apply extract_term_options_in in Hin as [_ [_ [_ [_ [_ [_ Hd]]]]]]. exact Hd.
  - intros l Hl Hl0. unfold term_wanted in Hw. rewrite Hl in Hw. simpl in Hw.
    destruct l as [|a l']; [congruence|].
    apply negb_true_iff, negb_false_iff in Hw. now apply mem_In.
Qed.

Lemma next_page_request_same_term (response : Response) (tc tn : string)
    (out : list output) (r : Request) :
  parse_term_results self response tc tn = Some out ->
  In r (requests_of out) ->
  req_callback r = Some parse_term_results_cb
  /\ req_cb_kwargs r = [("term_code", tc); ("term_name", tn)].
Proof.
  intros E Hr. rewrite (emitted_requests self response tc tn out E) in Hr.
  unfold next_page_requests in Hr.
  destruct (_find_next_page response) as [[next_page|]|]; try contradiction.
  destruct (is_empty next_page); [contradiction|].
  destruct (request_url next_page); [|contradiction].
  destruct Hr as [<-|[]]. now split.
Qed.

Lemma crawled_requests (r : Request) :
  crawled self r ->
  (req_callback r = Some parse_term_list_cb /\ req_url r = TERM_LIST_URL)
  \/ term_results_request self r.
Proof.
  intros Hc. induction Hc as [r Hr | r r' response out Hc IH Hh Hr'].
  - left. simpl in Hr. destruct Hr as [<-|[]]. now split.
  - right. unfold handle in Hh. destruct IH as [[Hcb _]|[Hcb [code [label [Hk Hw]]]]].
    + rewrite Hcb in Hh. destruct (req_cb_kwargs r); [|discriminate Hh].
      injection Hh as <-. now apply (term_list_requests_wanted response).
    + rewrite Hcb, Hk in Hh. simpl in Hh.
      destruct (next_page_request_same_term response code label out r' Hh Hr')
        as [Hcb' Hk'].
      split; [exact Hcb'|]. now exists code, label.
Qed.

End Crawl.

(** X19. Throughout a crawl, whatever responses come back: every request is
    the one for the term list or a request for the results of a term whose
    code is a string of digits and, when target terms are set, is one of
    them; a next-page request is again such a request, for the term of the
    page it was found on; and every record yielded carries such a term code
    and, when target departments are set, a class name whose department is
    one of them. *)
Theorem crawl_invariant `{PyLib} (self : Spider.UConnSyllabiSpider)
    (r : Request) (response : Response) (out : list output) :
  crawled self r ->
  handle self r response = Some out ->
  ((req_callback r = Some parse_term_list_cb /\ req_url r = Spider.TERM_LIST_URL)
   \/ term_results_request self r)
  /\ (forall r', In r' (requests_of out) -> term_results_request self r')
  /\ (forall item, In item (items_of out) ->
        exists code cn,
          term_code item = Some code /\ wanted_code self code
          /\ dict_get "term_code" (req_cb_kwargs r) = Some code
          /\ class_name item = Some cn
          /\ forall l, Spider._target_depts self = Some l -> l <> [] ->
                       In (fst (Spider._split_class cn)) l).
Proof.
  intros Hc Hh.
  pose proof (crawled_requests self r Hc) as Hr.
  split; [exact Hr|]. split.
  - intros r' Hr'.
    destruct (crawled_requests self r' (crawled_next self r r' response out Hc Hh Hr'))
      as [[Hcb Hu]|Ht]; [|exact Ht].
    exfalso. unfold handle in Hh.
    destruct Hr as [[Hcb0 _]|[Hcb0 [code [label [Hk _]]]]].
    + rewrite Hcb0 in Hh. destruct (req_cb_kwargs r); [|discriminate Hh].
      injection Hh as <-.
      apply term_list_requests_wanted in Hr' as [Hcb' _]. congruence.
    + rewrite Hcb0, Hk in Hh. simpl in Hh.
      destruct (next_page_request_same_term self response code label out r' Hh Hr')
        as [Hcb' _]. congruence.
  - intros item Hitem. unfold handle in Hh.
    destruct Hr as [[Hcb0 _]|[Hcb0 [code [label [Hk Hw]]]]].
    + rewrite Hcb0 in Hh. destruct (req_cb_kwargs r); [|discriminate Hh].
      injection Hh as <-. exfalso.
      unfold Spider.parse_term_list in Hitem. rewrite term_loop in Hitem.
      simpl app in Hitem. unfold items_of in Hitem.
      apply in_flat_map in Hitem as [o [Ho Hi]].
      apply in_map_iff in Ho as [opt [<- _]]. simpl in Hi. contradiction.
    + rewrite Hcb0, Hk in Hh. simpl in Hh.
      rewrite (emitted_items self response code label out Hh) in Hitem.
      apply in_map_iff in Hitem as [row [<- Hrow]].
      apply filter_In in Hrow as [_ Hd].
      exists code, (Spider.row_class_name row). rewrite Hk.
      splits; try reflexivity; [exact Hw|].
      intros l Hl Hl0. unfold dept_allowed in Hd. rewrite Hl in Hd. simpl in Hd.
      destruct l as [|a l']; [congruence|].
      apply negb_true_iff, negb_false_iff in Hd. now apply mem_In.
Qed.

Lemma crawl_invariant_witness :
  exists code cn,
    term_code cse_item = Some code /\ wanted_code plain_spider code
    /\ dict_get "term_code" [("term_code", "1258"); ("term_name", "Fall 2025")]
       = Some code
    /\ class_name cse_item = Some cn
    /\ forall l, Spider._target_depts plain_spider = Some l -> l <> [] ->
                 In (fst (Spider._split_class cn)) l.
Proof.
  destruct (crawl_invariant (H := url_lib) plain_spider
              {| req_url := "https://syllabus.uconn.edu/public/search_term.php?term=1258";
                 req_headers := [];
                 req_callback := Some parse_term_results_cb;
                 req_cb_kwargs := [("term_code", "1258"); ("term_name", "Fall 2025")] |}
              results_page results_page_out) as [_ [_ H3]].
  - apply (crawled_next plain_spider
             {| req_url := "https://syllabus.uconn.edu/public/search_term.php";
                req_headers := []; req_callback := Some parse_term_list_cb;
                req_cb_kwargs := [] |}
             _ two_dropdowns
             [YieldRequest
                {| req_url := "https://syllabus.uconn.edu/public/search_term.php?term=1258";
                   req_headers := [];
                   req_callback := Some parse_term_results_cb;
                   req_cb_kwargs := [("term_code", "1258"); ("term_name", "Fall 2025")] |}]).
    + apply crawled_start. vm_compute. left. reflexivity.
    + vm_compute. reflexivity.
    + simpl. left. reflexivity.
  - vm_compute. reflexivity.
  - apply (H3 cse_item). simpl. right. left. reflexivity.
Defined.

(* ====================================================================== *)
(** ** The file identifier, and the filename of a yielded record *)
(* ====================================================================== *)

Section FileIdShape.
Import Py Pipelines.

Lemma split_head_in (x : ascii) (s : string) : In (get_first (split x s) "") (split x s).
Proof.
  destruct (split x s) as [|h t] eqn:E; [|now left].
  destruct s as [|c s]; simpl in E; [discriminate|].
  destruct (Ascii.eqb c x); [discriminate|]. destruct (split x s); discriminate.
Qed.

Lemma length_take (n : nat) (s : string) : String.length (take n s) <= n.
Proof.
  revert s. induction n as [|n IH]; intros s; [simpl; lia|].
  destruct s as [|c s]; simpl; [lia|]. specialize (IH s). lia.
Qed.

Lemma split_none_1_nonempty (s : string) : s <> "" -> strip s = s -> split_none_1 s <> [].
Proof.
  intros Hs0 Hs. unfold split_none_1.
  destruct (strip_shape s) as [E|[Hst _]]; [congruence|].
  rewrite Hs in Hst. rewrite (lstrip_starts_solid s Hst).
  destruct s as [|c s]; [congruence|].
  destruct (token (String c s)) as [tok rest]. destruct (lstrip rest); discriminate.
Qed.

Lemma split_none_1_length (s : string) : List.length (split_none_1 s) <= 2.
Proof.
  unfold split_none_1. destruct (lstrip s) as [|c s1]; [simpl; lia|].
  destruct (token (String c s1)) as [tok rest].
  destruct (lstrip rest); simpl; lia.
Qed.

End FileIdShape.

(** X20. A file identifier taken from before the pipe holds no pipe and no
    surrounding whitespace; a file identifier of the fallback has at most 12
    characters. *)
Theorem file_id_shape `{PyLib} (u : string) :
  (Py.contains "|" (Pipelines.fp_file_param_decoded u) = true ->
   has_char "|" (Pipelines.fp_file_id u) = false
   /\ trimmed (Pipelines.fp_file_id u))
  /\ (Py.contains "|" (Pipelines.fp_file_param_decoded u) = false ->
      String.length (Pipelines.fp_file_id u) <= 12).
Proof.
  unfold Pipelines.fp_file_id. split; intros E; rewrite E.
  - split.
    + apply has_char_strip. apply (split_pieces_no_sep "|" _ _ (split_head_in _ _)).
    + apply strip_idem.
  - apply length_take.
Qed.

Lemma file_id_shape_witness :
  has_char "|" (Pipelines.fp_file_id (H := url_lib)
                  "https://syllabus.uconn.edu/public/download.php?file=+7+||x") = false
  /\ trimmed (Pipelines.fp_file_id (H := url_lib)
                "https://syllabus.uconn.edu/public/download.php?file=+7+||x").
Proof.
  destruct (file_id_shape (H := url_lib)
              "https://syllabus.uconn.edu/public/download.php?file=+7+||x") as [H1 _].
  apply H1. vm_compute. reflexivity.
Defined.

(** X21. For a record that [parse_term_results] yields under a term code
    that is not empty, the Filename Deriver takes the term code component
    from that term code, trimmed, and the dept component from the first
    token of the record's class name, never from the fallback for a missing
    class name: upper-cased, the dept component is the department by which
    the record passed the department filter, stripped of non-word
    characters. *)
Theorem emitted_record_filename `{PyLib} (self : Spider.UConnSyllabiSpider)
    (response : Response) (tc tn : string) (out : list output)
    (item : UConnSyllabusItem) :
  Spider.parse_term_results self response tc tn = Some out ->
  In item (items_of out) ->
  tc <> "" ->
  Pipelines.fp_term_code (Some item) = Py.strip tc
  /\ Pipelines.fp_parts (Some item) <> []
  /\ exists cn,
       class_name item = Some cn
       /\ Py.upper (Pipelines.fp_dept (Some item))
          = Pipelines.strip_nonword (fst (Spider._split_class cn)).
Proof.
  intros Hout Hin Htc.
  destruct (emitted_record_fields_aux self response tc tn out item Hout Hin)
    as [Ht [_ [[cn [Hcn [Hcn0 Hcnt]]] _]]].
  assert (Hparts : Pipelines.fp_parts (Some item) = Py.split_none_1 cn).
  { unfold Pipelines.fp_parts. now rewrite (strip_or_default_some item cn Hcn), Hcnt. }
  splits.
  - unfold Pipelines.fp_term_code, Pipelines.adapter_get, Py.or_default.
    rewrite Ht. destruct tc; [congruence | reflexivity].
  - rewrite Hparts. now apply split_none_1_nonempty.
  - exists cn. split; [exact Hcn|].
    unfold Pipelines.fp_dept, Spider._split_class. rewrite Hparts, Hcnt.
    pose proof (split_none_1_nonempty cn Hcn0 Hcnt) as Hne.
    pose proof (split_none_1_length cn) as Hlen.
    destruct (Py.split_none_1 cn) as [|p0 [|p1 [|p2 ps]]];
      [congruence| | |simpl in Hlen; lia];
      simpl; apply upper_strip_nonword.
Qed.

Lemma emitted_record_filename_witness :
  Pipelines.fp_term_code (Some cse_item) = Py.strip "1258"
  /\ Pipelines.fp_parts (Some cse_item) <> []
  /\ exists cn,
       class_name cse_item = Some cn
       /\ Py.upper (Pipelines.fp_dept (Some cse_item))
          = Pipelines.strip_nonword (fst (Spider._split_class cn)).
Proof.
  apply (emitted_record_filename (H := url_lib) plain_spider results_page
           "1258" "Fall 2025" results_page_out).
  - vm_compute. reflexivity.
  - simpl. right. left. reflexivity.
  - discriminate.
Defined.
